(** * rssp: the RSS stream processor, embedded in Rocq

    A shallow embedding of [main.go] of yegor256/rssp: the polling and
    de-duplication loop ([pollFeed]), the feed fetcher ([fetchFeed],
    [parseFeed], [charsetReader]), the content pipeline ([extractContent],
    [extractMainText], [strip], [processWithOpenAI]) and the formatter
    ([printItem], [parseDate], [hostname]).

    Go strings are byte sequences; they are embedded as [string], whose
    characters are the 8-bit [ascii], so that [String.length] is Go's [len].
    Go's [int] is embedded as [Z].  The tracking map [map[string]bool] is a
    [gmap string bool]; a missing key reads as [false], as in Go.

    What the program asks of the network and of the libraries that are not
    modelled here (HTTP, XML, JSON, templates, URL parsing), and the local
    time zone of the process, is a record [Env], the world as one cycle of
    a poller finds it.  The
    endless loop of a poller is run over a list of such worlds, one for each
    cycle.  What a function writes to the output file is the string it
    returns.  The calls of the logger are left out, and so are the mutexes:
    a poller is the only one to touch its own state. *)

From Stdlib Require Import ZArith Lia Ascii String DecimalString.
From stdpp Require Import base option list gmap strings.

Local Open Scope string_scope.

(** ** Errors and fallible results

    A Go function returning [(T, error)] returns [Ok t] or [Err e]; the error
    carries its message. *)

Definition error := string.

Inductive result (A : Type) : Type :=
  | Ok (a : A)
  | Err (e : error).
Arguments Ok {A} a.
Arguments Err {A} e.

Definition is_ok {A} (r : result A) : bool :=
  match r with Ok _ => true | Err _ => false end.

(** ** Bytes *)

Definition byte (n : nat) : ascii := Ascii.ascii_of_nat n.
Definition code (c : ascii) : nat := Ascii.nat_of_ascii c.

Fixpoint bytes (l : list nat) : string :=
  match l with
  | [] => ""
  | n :: l' => String (byte n) (bytes l')
  end.

Fixpoint rev_string (s : string) : string :=
  match s with
  | "" => ""
  | String c s' => rev_string s' ++ String c ""
  end.

Fixpoint drop_string (n : nat) (s : string) : string :=
  match n, s with
  | O, _ => s
  | S _, "" => ""
  | S k, String _ s' => drop_string k s'
  end.

Fixpoint take_string (n : nat) (s : string) : string :=
  match n, s with
  | O, _ => ""
  | S _, "" => ""
  | S k, String c s' => String c (take_string k s')
  end.

(** ** Package [strings] of the Go library, as far as [main.go] calls it *)

Module GoStrings.

(** [strings.HasPrefix(s, prefix)]. *)
Definition HasPrefix (s prefix : string) : bool := String.prefix prefix s.

(** [strings.TrimPrefix(s, prefix)]: [s] without the leading [prefix], or
    [s] itself when it does not start with [prefix]. *)
Definition TrimPrefix (s prefix : string) : string :=
  if HasPrefix s prefix then drop_string (String.length prefix) s else s.

(** [strings.Count(s, substr)] for a one-byte [substr], which is the only
    way [main.go] calls it: the number of bytes of [s] equal to it. *)
Fixpoint CountByte (s : string) (c : ascii) : Z :=
  match s with
  | "" => 0
  | String d s' => (if Ascii.eqb d c then 1 else 0) + CountByte s' c
  end%Z.

(** The UTF-8 encodings of the runes for which [unicode.IsSpace] holds:
    the six ASCII ones, U+0085, U+00A0, U+1680, U+2000 to U+200A, U+2028,
    U+2029, U+202F, U+205F and U+3000. *)
Definition space_runes : list (list nat) :=
  [ [9]; [10]; [11]; [12]; [13]; [32];
    [194; 133]; [194; 160]; [225; 154; 128];
    [226; 128; 128]; [226; 128; 129]; [226; 128; 130]; [226; 128; 131];
    [226; 128; 132]; [226; 128; 133]; [226; 128; 134]; [226; 128; 135];
    [226; 128; 136]; [226; 128; 137]; [226; 128; 138];
    [226; 128; 168]; [226; 128; 169]; [226; 128; 175];
    [226; 129; 159]; [227; 128; 128] ].

(** The width of the rune at the head of [s] when one of [runes] is
    there. *)
Fixpoint rune_at_head (runes : list string) (s : string) : option nat :=
  match runes with
  | [] => None
  | r :: rs =>
      if String.prefix r s then Some (String.length r)
      else rune_at_head rs s
  end.

(** Drops the runes of [runes] from the front of [s]; [skip] bytes of a
    rune already recognised are still to be dropped. *)
Fixpoint trim_front (runes : list string) (skip : nat) (s : string) : string :=
  match s with
  | "" => ""
  | String _ s' =>
      match skip with
      | S k => trim_front runes k s'
      | O =>
          match rune_at_head runes s with
          | Some (S k) => trim_front runes k s'
          | _ => s
          end
      end
  end.

Definition TrimLeftSpace (s : string) : string :=
  trim_front (map bytes space_runes) 0 s.

Definition TrimRightSpace (s : string) : string :=
  rev_string
    (trim_front (map (fun r => rev_string (bytes r)) space_runes) 0
       (rev_string s)).

(** [strings.TrimSpace(s)]: all leading and trailing white space, as
    Unicode defines it, removed. *)
Definition TrimSpace (s : string) : string :=
  TrimRightSpace (TrimLeftSpace s).

(** The ASCII path of [strings.ToLower]. *)
Definition lower_byte (c : ascii) : ascii :=
  let n := code c in
  if (65 <=? n)%nat && (n <=? 90)%nat then byte (n + 32) else c.

Fixpoint lower_ascii (s : string) : string :=
  match s with
  | "" => ""
  | String c s' => String (lower_byte c) (lower_ascii s')
  end.

Fixpoint isASCII (s : string) : bool :=
  match s with
  | "" => true
  | String c s' => (code c <? 128)%nat && isASCII s'
  end.

(** [strings.ToLower(s)].  A string of ASCII bytes is lowered byte by
    byte; any other string goes through the Unicode case tables of the Go
    library, which are taken as [unicode_lower]. *)
Definition ToLower (unicode_lower : string -> string) (s : string) : string :=
  if isASCII s then lower_ascii s else unicode_lower s.

End GoStrings.

(** ** Package [regexp] of the Go library, for the patterns of [main.go]

    Each pattern of [main.go] is given as a matcher: the function that says
    whether the pattern matches at the head of a string, how many bytes the
    leftmost-first match takes there and what its group 1 holds.  None of the
    patterns matches the empty string. *)

Module GoRegexp.

Record hit := { width : nat; group : string }.

Definition matcher := string -> option hit.

Fixpoint index_byte (c : ascii) (s : string) : option nat :=
  match s with
  | "" => None
  | String d s' =>
      if Ascii.eqb d c then Some O else S <$> index_byte c s'
  end.

(** The index of the first occurrence of [sub] in [s]. *)
Fixpoint index_string (sub s : string) : option nat :=
  if String.prefix sub s then Some O
  else match s with
       | "" => None
       | String _ s' => S <$> index_string sub s'
       end.

(** [<[^>]*>]: a [<], then everything up to the first [>]. *)
Definition tagRe : matcher := fun s =>
  match s with
  | String "<"%char rest =>
      i ← index_byte ">"%char rest;
      Some {| width := S (S i); group := "" |}
  | _ => None
  end.

(** The class [\s] of RE2: tab, line feed, form feed, carriage return and
    space. *)
Definition is_space (c : ascii) : bool :=
  bool_decide (code c ∈ [9; 10; 12; 13; 32]).

Fixpoint space_run (s : string) : nat :=
  match s with
  | "" => O
  | String c s' => if is_space c then S (space_run s') else O
  end.

(** [\s+]: the longest run of white space. *)
Definition spaceRe : matcher := fun s =>
  match space_run s with
  | O => None
  | n => Some {| width := n; group := "" |}
  end.

(** [(?s)<name[^>]*>(.*?)</name>]: the opening tag up to its first [>],
    then as little as possible up to the first closing tag. *)
Definition blockRe (name : string) : matcher := fun s =>
  let opening := "<" ++ name in
  let closing := "</" ++ name ++ ">" in
  if String.prefix opening s then
    let rest := drop_string (String.length opening) s in
    i ← index_byte ">"%char rest;
    let body := drop_string (S i) rest in
    j ← index_string closing body;
    Some {| width := String.length opening + S i + j + String.length closing;
            group := take_string j body |}
  else None.

(** The successive non-overlapping matches of [m] in [s], leftmost first;
    [skip] bytes of the match just found are still to be passed. *)
Fixpoint find_all (m : matcher) (skip : nat) (s : string) : list hit :=
  match s with
  | "" => []
  | String _ s' =>
      match skip with
      | S k => find_all m k s'
      | O =>
          match m s with
          | Some h =>
              match width h with
              | S k => h :: find_all m k s'
              | O => find_all m 0 s'
              end
          | None => find_all m 0 s'
          end
      end
  end.

Fixpoint replace_all (m : matcher) (repl : string) (skip : nat) (s : string)
  : string :=
  match s with
  | "" => ""
  | String c s' =>
      match skip with
      | S k => replace_all m repl k s'
      | O =>
          match m s with
          | Some h =>
              match width h with
              | S k => repl ++ replace_all m repl k s'
              | O => String c (replace_all m repl 0 s')
              end
          | None => String c (replace_all m repl 0 s')
          end
      end
  end.

(** [re.ReplaceAllString(src, repl)], for a [repl] without [$]. *)
Definition ReplaceAllString (re : matcher) (src repl : string) : string :=
  replace_all re repl 0 src.

(** [re.FindAllStringSubmatch(s, -1)], each match as its group 1. *)
Definition FindAllStringSubmatch (re : matcher) (s : string) : list string :=
  group <$> find_all re 0 s.

(** [re.FindStringSubmatch(s)]: group 1 of the first match. *)
Definition FindStringSubmatch (re : matcher) (s : string) : option string :=
  head (FindAllStringSubmatch re s).

End GoRegexp.

(** ** Package [time] of the Go library: [time.Parse] and [Time.Format]

    [parseDate] gives [time.Parse] nine layouts and formats what it reads
    with the layout [02-01-2006].  A layout is embedded as the sequence of
    chunks [time.Parse] cuts it into: literal text, and the reference
    elements ([Mon], [02], [Jan], [2006], [15], [04], [05], [MST], [-0700],
    [Z07:00], [2], [01], [06]).  The parser below follows [parse] of
    [time/format.go] element by element, and then builds the [Time] as
    [parse] does at its end: a time read with [UTC] or [Z] is in UTC; one
    read with a numeric zone is the instant that zone gives, shown in that
    zone; one read with an abbreviation is looked up in the local zone of
    the process, and where that zone has no such abbreviation the wall
    clock is taken for UTC and shown in a made-up zone, of offset 0, or of
    [h] hours for [GMT+h] and [GMT-h]; a time read with no zone is in UTC.
    [Format] shows the calendar date of the instant in the location of the
    time.  The local zone of the process is a parameter.  (For the layout
    [2006-01-02T15:04:05Z07:00] [time.Parse] first tries a stricter parser
    of its own; where that one succeeds it reads the same fields and builds
    the same time.) *)

Module GoTime.

Inductive std : Set :=
  | stdLongYear | stdYear | stdMonth | stdZeroMonth | stdWeekDay
  | stdDay | stdZeroDay | stdHour | stdZeroMinute | stdZeroSecond
  | stdTZ | stdNumTZ | stdISO8601ColonTZ.

Inductive chunk : Set :=
  | Lit (s : string)
  | Std (e : std).

Definition layout := list chunk.

Definition std_text (e : std) : string :=
  match e with
  | stdLongYear => "2006" | stdYear => "06"
  | stdMonth => "Jan" | stdZeroMonth => "01"
  | stdWeekDay => "Mon"
  | stdDay => "2" | stdZeroDay => "02"
  | stdHour => "15" | stdZeroMinute => "04" | stdZeroSecond => "05"
  | stdTZ => "MST" | stdNumTZ => "-0700" | stdISO8601ColonTZ => "Z07:00"
  end.

(** The layout string a sequence of chunks stands for. *)
Fixpoint layout_text (l : layout) : string :=
  match l with
  | [] => ""
  | Lit s :: l' => s ++ layout_text l'
  | Std e :: l' => std_text e ++ layout_text l'
  end.

Definition clock : layout :=
  [Std stdHour; Lit ":"; Std stdZeroMinute; Lit ":"; Std stdZeroSecond].

Definition RFC1123 : layout :=
  ([Std stdWeekDay; Lit ", "; Std stdZeroDay; Lit " "; Std stdMonth; Lit " ";
   Std stdLongYear; Lit " "] ++ clock ++ [Lit " "; Std stdTZ])%list.

Definition RFC1123Z : layout :=
  ([Std stdWeekDay; Lit ", "; Std stdZeroDay; Lit " "; Std stdMonth; Lit " ";
   Std stdLongYear; Lit " "] ++ clock ++ [Lit " "; Std stdNumTZ])%list.

Definition RFC822 : layout :=
  [Std stdZeroDay; Lit " "; Std stdMonth; Lit " "; Std stdYear; Lit " ";
   Std stdHour; Lit ":"; Std stdZeroMinute; Lit " "; Std stdTZ].

Definition RFC822Z : layout :=
  [Std stdZeroDay; Lit " "; Std stdMonth; Lit " "; Std stdYear; Lit " ";
   Std stdHour; Lit ":"; Std stdZeroMinute; Lit " "; Std stdNumTZ].

Definition isoDate : layout :=
  [Std stdLongYear; Lit "-"; Std stdZeroMonth; Lit "-"; Std stdZeroDay].

Definition layoutISOZone : layout :=
  (isoDate ++ [Lit "T"] ++ clock ++ [Std stdISO8601ColonTZ])%list.

Definition layoutISOZulu : layout :=
  (isoDate ++ [Lit "T"] ++ clock ++ [Lit "Z"])%list.

Definition layoutSQL : layout :=
  (isoDate ++ [Lit " "] ++ clock)%list.

Definition layoutShortDayTZ : layout :=
  ([Std stdWeekDay; Lit ", "; Std stdDay; Lit " "; Std stdMonth; Lit " ";
   Std stdLongYear; Lit " "] ++ clock ++ [Lit " "; Std stdTZ])%list.

Definition layoutShortDayNum : layout :=
  ([Std stdWeekDay; Lit ", "; Std stdDay; Lit " "; Std stdMonth; Lit " ";
   Std stdLongYear; Lit " "] ++ clock ++ [Lit " "; Std stdNumTZ])%list.

(** A [*Location], as far as [Parse] and [Format] ask it: [lookup] gives
    the abbreviation and the offset, in seconds east of UTC, of the zone in
    use at an instant, and [lookupName] the offset that goes with an
    abbreviation around an instant, when the location has a zone of that
    name. *)
Record Location : Type := mkLocation
  { lookup : Z -> string * Z;
    lookupName : string -> Z -> option Z }.

(** [time.UTC]: offset 0 at every instant, and no table of zones. *)
Definition UTC : Location :=
  {| lookup := fun _ => ("UTC", 0%Z);
     lookupName := fun _ _ => None |}.

(** [time.FixedZone(name, offset)]. *)
Definition FixedZone (name : string) (offset : Z) : Location :=
  {| lookup := fun _ => (name, offset);
     lookupName := fun n _ =>
       if String.eqb n name then Some offset else None |}.

(** A [Time]: an instant, in seconds since 1 January 1970 UTC, and the
    location it is shown in. *)
Record Time : Type := mkTime
  { unixSec : Z;
    loc : Location }.

(** The variables of [parse]: the fields read so far.  [zUTC] holds when
    [z] is [UTC] rather than [nil]; [zoneOffset] is -1 and [zoneName] is
    empty until the value gives them. *)
Record Fields : Set := mkFields
  { Year : Z; Month : Z; Day : Z; Hour : Z; Minute : Z; Second : Z;
    zUTC : bool; zoneOffset : Z; zoneName : string }.

Definition set_Year (y : Z) (f : Fields) : Fields :=
  mkFields y (Month f) (Day f) (Hour f) (Minute f) (Second f)
    (zUTC f) (zoneOffset f) (zoneName f).

Definition set_Month (m : Z) (f : Fields) : Fields :=
  mkFields (Year f) m (Day f) (Hour f) (Minute f) (Second f)
    (zUTC f) (zoneOffset f) (zoneName f).

Definition set_Day (d : Z) (f : Fields) : Fields :=
  mkFields (Year f) (Month f) d (Hour f) (Minute f) (Second f)
    (zUTC f) (zoneOffset f) (zoneName f).

Definition set_Hour (h : Z) (f : Fields) : Fields :=
  mkFields (Year f) (Month f) (Day f) h (Minute f) (Second f)
    (zUTC f) (zoneOffset f) (zoneName f).

Definition set_Minute (m : Z) (f : Fields) : Fields :=
  mkFields (Year f) (Month f) (Day f) (Hour f) m (Second f)
    (zUTC f) (zoneOffset f) (zoneName f).

Definition set_Second (s : Z) (f : Fields) : Fields :=
  mkFields (Year f) (Month f) (Day f) (Hour f) (Minute f) s
    (zUTC f) (zoneOffset f) (zoneName f).

Definition set_zUTC (f : Fields) : Fields :=
  mkFields (Year f) (Month f) (Day f) (Hour f) (Minute f) (Second f)
    true (zoneOffset f) (zoneName f).

Definition set_zoneOffset (offset : Z) (f : Fields) : Fields :=
  mkFields (Year f) (Month f) (Day f) (Hour f) (Minute f) (Second f)
    (zUTC f) offset (zoneName f).

Definition set_zoneName (name : string) (f : Fields) : Fields :=
  mkFields (Year f) (Month f) (Day f) (Hour f) (Minute f) (Second f)
    (zUTC f) (zoneOffset f) name.

Definition is_digit (c : ascii) : bool :=
  (48 <=? code c)%nat && (code c <=? 57)%nat.

Definition digit (c : ascii) : Z := Z.of_nat (code c) - 48.

(** [isDigit(s, i)]: [s] has a byte at [i] and it is a decimal digit. *)
Definition isDigit (s : string) (i : nat) : bool :=
  match String.get i s with
  | Some c => is_digit c
  | None => false
  end.

(** [getnum(s, fixed)]: one or two digits; [fixed] wants two. *)
Definition getnum (s : string) (fixed : bool) : option (Z * string) :=
  match s with
  | String a s1 =>
      if is_digit a then
        match s1 with
        | String b s2 =>
            if is_digit b then Some (digit a * 10 + digit b, s2)%Z
            else if fixed then None else Some (digit a, s1)
        | "" => if fixed then None else Some (digit a, s1)
        end
      else None
  | "" => None
  end.

(** [leadingInt(s)]: the number the leading digits of [s] spell, and the
    rest.  The Go function fails beyond 2^63; its callers here either pass
    at most four bytes or reject every number above 23, so the bound is
    left out. *)
Fixpoint leadingInt (x : Z) (s : string) : Z * string :=
  match s with
  | String c s' =>
      if is_digit c then leadingInt (x * 10 + digit c)%Z s' else (x, s)
  | "" => (x, s)
  end.

(** [atoi(s)]: an optional sign, then digits to the end. *)
Definition atoi (s : string) : option Z :=
  let '(neg, s1) :=
    match s with
    | String "-"%char r => (true, r)
    | String "+"%char r => (false, r)
    | _ => (false, s)
    end in
  match leadingInt 0 s1 with
  | (q, "") => Some (if neg then - q else q)%Z
  | _ => None
  end.

(** [match(s1, s2)] on one byte: equal, or the same letter in the other
    case. *)
Definition match_byte (c1 c2 : ascii) : bool :=
  Ascii.eqb c1 c2
  || (let l1 := N.lor (Ascii.N_of_ascii c1) 32 in
      let l2 := N.lor (Ascii.N_of_ascii c2) 32 in
      (l1 =? l2)%N && (97 <=? l1)%N && (l1 <=? 122)%N).

(** What follows in [val] after the name [v], case ignored. *)
Fixpoint match_name (v val : string) : option string :=
  match v, val with
  | "", _ => Some val
  | String a v', String b val' =>
      if match_byte b a then match_name v' val' else None
  | String _ _, "" => None
  end.

(** [lookup(tab, val)]: the index of the first name of [tab] that starts
    [val], counted from [i]. *)
Fixpoint lookup_name (tab : list string) (i : Z) (val : string)
  : option (Z * string) :=
  match tab with
  | [] => None
  | v :: tab' =>
      match match_name v val with
      | Some rest => Some (i, rest)
      | None => lookup_name tab' (i + 1)%Z val
      end
  end.

Definition shortDayNames : list string :=
  ["Sun"; "Mon"; "Tue"; "Wed"; "Thu"; "Fri"; "Sat"].

Definition shortMonthNames : list string :=
  ["Jan"; "Feb"; "Mar"; "Apr"; "May"; "Jun";
   "Jul"; "Aug"; "Sep"; "Oct"; "Nov"; "Dec"].

Fixpoint cutspace (s : string) : string :=
  match s with
  | String " "%char s' => cutspace s'
  | _ => s
  end.

(** [skip(value, prefix)]: [prefix] taken off [value], a run of spaces in
    the one standing for a run of spaces in the other.  [in_space] holds
    while the spaces of [prefix] that follow its first one are cut. *)
Fixpoint skip_from (in_space : bool) (value prefix : string) : option string :=
  match prefix with
  | "" => Some value
  | String c prefix' =>
      if Ascii.eqb c " " then
        if in_space then skip_from true value prefix'
        else
          match value with
          | String d _ =>
              if Ascii.eqb d " " then skip_from true (cutspace value) prefix'
              else None
          | "" => skip_from true value prefix'
          end
      else
        match value with
        | String d value' =>
            if Ascii.eqb d c then skip_from false value' prefix' else None
        | "" => None
        end
  end.

Definition skip (value prefix : string) : option string :=
  skip_from false value prefix.

Fixpoint drop_digits (s : string) : string :=
  match s with
  | String c s' => if is_digit c then drop_digits s' else s
  | "" => s
  end.

Definition commaOrPeriod (c : ascii) : bool :=
  Ascii.eqb c "." || Ascii.eqb c ",".

(** A fractional second in the value where the layout has none is read and
    dropped: a comma or period, a digit, and the digits after it. *)
Definition skip_fraction (value : string) : string :=
  match value with
  | String c (String d rest) =>
      if commaOrPeriod c && is_digit d then drop_digits rest else value
  | _ => value
  end.

(** [parseSignedOffset(value)]: the length of a sign and a number up to
    23 at the head of [value], or 0. *)
Definition parseSignedOffset (value : string) : nat :=
  match value with
  | String sign rest =>
      if Ascii.eqb sign "-" || Ascii.eqb sign "+" then
        let '(x, rem) := leadingInt 0 rest in
        if (String.length rem =? String.length rest)%nat then O
        else if (23 <? x)%Z then O
        else (String.length value - String.length rem)%nat
      else O
  | "" => O
  end.

Definition parseGMT (value : string) : nat :=
  match drop_string 3 value with
  | "" => 3
  | rest => 3 + parseSignedOffset rest
  end.

Definition is_upper (c : ascii) : bool :=
  (65 <=? code c)%nat && (code c <=? 90)%nat.

(** The number of upper-case letters at the head of [s], up to [lim]. *)
Fixpoint count_upper (lim : nat) (s : string) : nat :=
  match lim, s with
  | S k, String c s' => if is_upper c then S (count_upper k s') else O
  | _, _ => O
  end.

Definition byte_is (s : string) (i : nat) (c : ascii) : bool :=
  match String.get i s with
  | Some d => Ascii.eqb d c
  | None => false
  end.

(** [parseTimeZone(value)]: the length of the zone abbreviation at the
    head of [value]. *)
Definition parseTimeZone (value : string) : option nat :=
  if (String.length value <? 3)%nat then None
  else if String.prefix "ChST" value || String.prefix "MeST" value then Some 4
  else if String.prefix "GMT" value then Some (parseGMT value)
  else if byte_is value 0 "+" || byte_is value 0 "-" then
    match parseSignedOffset value with
    | O => None
    | n => Some n
    end
  else
    match count_upper 6 value with
    | 5 => if byte_is value 4 "T" then Some 5 else None
    | 4 => if byte_is value 3 "T" || String.prefix "WITA" value
           then Some 4 else None
    | 3 => Some 3
    | _ => None
    end%nat.

(** A numeric zone: sign, two digits of hours, [sep] bytes of separator,
    two digits of minutes; the offset in seconds, and what follows.  Hours
    above 24 and minutes above 60 are out of range. *)
Definition parse_offset (sep : nat) (value : string) : option (Z * string) :=
  let sign := take_string 1 value in
  '(hr, _) ← getnum (String.substring 1 2 value) true;
  '(mm, _) ← getnum (String.substring (3 + sep) 2 value) true;
  if (24 <? hr)%Z || (60 <? mm)%Z then None
  else
    let offset := ((hr * 60 + mm) * 60)%Z in
    if String.eqb sign "+" then Some (offset, drop_string (5 + sep) value)
    else if String.eqb sign "-"
    then Some ((- offset)%Z, drop_string (5 + sep) value)
    else None.

Definition in_range (lo n hi : Z) : bool := (lo <=? n)%Z && (n <? hi)%Z.

(** One reference element of the layout read off the head of [value]. *)
Definition parse_std (e : std) (f : Fields) (value : string)
  : option (Fields * string) :=
  match e with
  | stdYear =>
      if (String.length value <? 2)%nat then None
      else
        y ← atoi (take_string 2 value);
        let y' := (if (69 <=? y)%Z then y + 1900 else y + 2000)%Z in
        Some (set_Year y' f, drop_string 2 value)
  | stdLongYear =>
      if (String.length value <? 4)%nat || negb (isDigit value 0)
      then None
      else
        y ← atoi (take_string 4 value);
        Some (set_Year y f, drop_string 4 value)
  | stdMonth =>
      '(m, rest) ← lookup_name shortMonthNames 0 value;
      Some (set_Month (m + 1) f, rest)
  | stdZeroMonth =>
      '(m, rest) ← getnum value true;
      if in_range 1 m 13 then Some (set_Month m f, rest) else None
  | stdWeekDay =>
      '(_, rest) ← lookup_name shortDayNames 0 value;
      Some (f, rest)
  | stdDay | stdZeroDay =>
      '(d, rest) ← getnum value
                     (match e with stdZeroDay => true | _ => false end);
      Some (set_Day d f, rest)
  | stdHour =>
      '(h, rest) ← getnum value false;
      if in_range 0 h 24 then Some (set_Hour h f, rest) else None
  | stdZeroMinute =>
      '(m, rest) ← getnum value true;
      if in_range 0 m 60 then Some (set_Minute m f, rest) else None
  | stdZeroSecond =>
      '(s, rest) ← getnum value true;
      if in_range 0 s 60
      then Some (set_Second s f, skip_fraction rest)
      else None
  | stdISO8601ColonTZ =>
      if byte_is value 0 "Z" then Some (set_zUTC f, drop_string 1 value)
      else if (String.length value <? 6)%nat then None
      else if negb (byte_is value 3 ":") then None
      else
        '(offset, rest) ← parse_offset 1 value;
        Some (set_zoneOffset offset f, rest)
  | stdNumTZ =>
      if (String.length value <? 5)%nat then None
      else
        '(offset, rest) ← parse_offset 0 value;
        Some (set_zoneOffset offset f, rest)
  | stdTZ =>
      if String.prefix "UTC" value then Some (set_zUTC f, drop_string 3 value)
      else
        n ← parseTimeZone value;
        Some (set_zoneName (take_string n value) f, drop_string n value)
  end.

Definition isLeap (year : Z) : bool :=
  (year mod 4 =? 0)%Z && (negb (year mod 100 =? 0)%Z || (year mod 400 =? 0)%Z).

Definition daysIn (m year : Z) : Z :=
  if (m =? 2)%Z && isLeap year then 29%Z
  else nth (Z.to_nat (m - 1))
         [31; 28; 31; 30; 31; 30; 31; 31; 30; 31; 30; 31]%Z 0%Z.

(** The loop of [parse]: the chunks of the layout, one after the other;
    at the end of the layout no text may be left. *)
Fixpoint parse_chunks (l : layout) (f : Fields) (value : string)
  : option Fields :=
  match l with
  | [] => if String.eqb value "" then Some f else None
  | Lit p :: l' => value' ← skip value p; parse_chunks l' f value'
  | Std e :: l' => '(f', value') ← parse_std e f value; parse_chunks l' f' value'
  end.

(** What [parse] has read when it has gone through the layout: month and
    day start unset and default to 1, and the day is checked against the
    month. *)
Definition parse_fields (l : layout) (value : string) : option Fields :=
  f ← parse_chunks l (mkFields 0 (-1) (-1) 0 0 0 false (-1) "") value;
  let m := (if (Month f <? 0)%Z then 1 else Month f)%Z in
  let d := (if (Day f <? 0)%Z then 1 else Day f)%Z in
  if (d <? 1)%Z || (daysIn m (Year f) <? d)%Z then None
  else Some (set_Day d (set_Month m f)).

(** The days from 1 January 1970 to a date of the Gregorian calendar,
    which the package extends to all years. *)
Definition daysSinceEpoch (year month day : Z) : Z :=
  let y := (if month <=? 2 then year - 1 else year)%Z in
  let era := (y / 400)%Z in
  let yoe := (y - era * 400)%Z in
  let mp := (if 2 <? month then month - 3 else month + 9)%Z in
  let doy := ((153 * mp + 2) / 5 + day - 1)%Z in
  let doe := (yoe * 365 + yoe / 4 - yoe / 100 + doy)%Z in
  (era * 146097 + doe - 719468)%Z.

(** The year, the month and the day that begins [days] days after
    1 January 1970. *)
Definition civil (days : Z) : Z * Z * Z :=
  let z := (days + 719468)%Z in
  let era := (z / 146097)%Z in
  let doe := (z - era * 146097)%Z in
  let yoe := ((doe - doe / 1460 + doe / 36524 - doe / 146096) / 365)%Z in
  let doy := (doe - (365 * yoe + yoe / 4 - yoe / 100))%Z in
  let mp := ((5 * doy + 2) / 153)%Z in
  let day := (doy - (153 * mp + 2) / 5 + 1)%Z in
  let month := (if mp <? 10 then mp + 3 else mp - 9)%Z in
  ((if month <=? 2 then yoe + era * 400 + 1 else yoe + era * 400)%Z,
   month, day).

(** [Date(year, month, day, hour, min, sec, 0, UTC)], for fields that are
    in range, as those [parse] has checked are. *)
Definition Date (year month day hour min sec : Z) : Time :=
  mkTime (daysSinceEpoch year month day * 86400
          + hour * 3600 + min * 60 + sec)%Z UTC.

(** The end of [parse]: the [Time] the fields stand for.  [local] is the
    local zone of the process. *)
Definition resolve (local : Location) (f : Fields) : Time :=
  let t := Date (Year f) (Month f) (Day f) (Hour f) (Minute f) (Second f) in
  if zUTC f then t
  else if negb (zoneOffset f =? -1)%Z then
    let unix := (unixSec t - zoneOffset f)%Z in
    let '(name, offset) := lookup local unix in
    if (offset =? zoneOffset f)%Z
       && (String.eqb (zoneName f) "" || String.eqb name (zoneName f))
    then mkTime unix local
    else mkTime unix (FixedZone (zoneName f) (zoneOffset f))
  else if negb (String.eqb (zoneName f) "") then
    match lookupName local (zoneName f) (unixSec t) with
    | Some offset => mkTime (unixSec t - offset)%Z local
    | None =>
        let offset :=
          if (3 <? String.length (zoneName f))%nat
             && String.prefix "GMT" (zoneName f)
          then (default 0 (atoi (drop_string 3 (zoneName f))) * 3600)%Z
          else 0%Z in
        mkTime (unixSec t) (FixedZone (zoneName f) offset)
    end
  else t.

(** [time.Parse(layout, value)]. *)
Definition Parse (local : Location) (l : layout) (value : string)
  : option Time :=
  f ← parse_fields l value; Some (resolve local f).

(** The year, the month and the day a [Time] shows: those of its instant
    at the offset its location has then. *)
Definition date (t : Time) : Z * Z * Z :=
  civil ((unixSec t + snd (lookup (loc t) (unixSec t))) / 86400).

Definition utod (u : Z) : ascii := byte (Z.to_nat (48 + u)).

Fixpoint zeros (n : nat) : string :=
  match n with
  | O => ""
  | S k => String "0" (zeros k)
  end.

(** [appendInt(b, x, width)], the bytes it appends: a minus sign for a
    negative number, then the decimal digits, with zeros before them up to
    [width] digits. *)
Definition appendInt (x : Z) (width : nat) : string :=
  let u := Z.abs x in
  (if (x <? 0)%Z then "-" else "")
  ++ (if (width =? 2)%nat && (u <? 100)%Z
      then String (utod (u / 10)) (String (utod (u mod 10)) "")
      else if (width =? 4)%nat && (u <? 10000)%Z
      then String (utod (u / 1000))
             (String (utod (u / 100 mod 10))
                (String (utod (u / 10 mod 10)) (String (utod (u mod 10)) "")))
      else
        let digits := NilZero.string_of_uint (N.to_uint (Z.to_N u)) in
        zeros (width - String.length digits) ++ digits).

(** [t.Format("02-01-2006")]. *)
Definition Format_DD_MM_YYYY (t : Time) : string :=
  let '(year, month, day) := date t in
  appendInt day 2 ++ "-" ++ appendInt month 2 ++ "-" ++ appendInt year 4.

End GoTime.


(** ** Package [net/url] of the Go library *)

Module GoURL.

(** What [main.go] reads of a parsed URL. *)
Record URL : Set := { Scheme : string; Host : string; Path : string }.

Definition upperhex (n : nat) : ascii :=
  if (n <? 10)%nat then byte (48 + n) else byte (55 + n).

Definition is_alnum (c : ascii) : bool :=
  let n := code c in
  ((97 <=? n) && (n <=? 122) || (65 <=? n) && (n <=? 90)
   || (48 <=? n) && (n <=? 57))%nat.

(** [shouldEscape(c, encodeQueryComponent)]: everything but letters,
    digits and [-_.~] is escaped. *)
Definition shouldEscape (c : ascii) : bool :=
  negb (is_alnum c || bool_decide (c ∈ ["-"; "_"; "."; "~"]%char)).

(** [url.QueryEscape(s)]. *)
Fixpoint QueryEscape (s : string) : string :=
  match s with
  | "" => ""
  | String c s' =>
      if Ascii.eqb c " " then String "+" (QueryEscape s')
      else if shouldEscape c then
        String "%" (String (upperhex (code c / 16))
                      (String (upperhex (code c mod 16)) (QueryEscape s')))
      else String c (QueryEscape s')
  end.

End GoURL.

(** * The program *)

(** ** Data model *)

Record Item : Set := mkItem
  { Title : string;
    Link : string;
    Description : string;
    PubDate : string;
    GUID : string }.

Record Channel : Set := mkChannel
  { ChannelTitle : string;
    ChannelLink : string;
    ChannelDescription : string;
    Items : list Item }.

Record RSS : Set := mkRSS { RSSChannel : Channel }.

(** [FeedState]; the mutex guards [items] against the other pollers, which
    never touch it, and is left out. *)
Record FeedState : Type := mkFeedState
  { url : string;
    items : gmap string bool }.

Record DiffbotArticle : Set := mkDiffbotArticle
  { ArticleTitle : string; Text : string; HTML : string; Date : string }.

Record DiffbotResponse : Set := { Objects : list DiffbotArticle }.

Record Message : Set := mkMessage { Role : string; Content : string }.

Record OpenAIRequest : Set := { Model : string; Messages : list Message }.

Record Choice : Set := { ChoiceMessage : Message }.

Record OpenAIResponse : Set := { Choices : list Choice }.

(** ** The world outside

    An [http.Response]: its status line, its status code and what
    [io.ReadAll] gives for its body. *)
Record Response : Set := mkResponse
  { Status : string;
    StatusCode : Z;
    Body : result string }.

(** [HTTPClient]: the one method [Get]. *)
Definition HTTPClient := string -> result Response.

Record Request : Type := mkRequest
  { Method : string;
    RequestURL : string;
    Header : gmap string string;
    RequestBody : string }.

(** The decoders of [golang.org/x/text/encoding/charmap] that
    [charsetReader] knows. *)
Inductive Charmap : Set :=
  | Windows1251 | Windows1252
  | ISO8859_1 | ISO8859_2 | ISO8859_5 | ISO8859_15
  | KOI8R | KOI8U.

(** An [io.Reader]: the stream handed in, or [transform.NewReader] around a
    reader with the decoder of a character map. *)
Inductive Reader : Set :=
  | Stream (data : string)
  | NewReader (input : Reader) (decoder : Charmap).

(** A parsed [text/template], known by its source. *)
Definition Template := string.

(** Everything [main.go] asks of its libraries and of the network that is
    not modelled above.  One [Env] is the world as one cycle of a poller
    finds it. *)
Record Env : Type := mkEnv
  { (** the global [client] *)
    client : HTTPClient;
    (** [os.Getenv] *)
    Getenv : string -> string;
    (** [strings.ToLower] beyond ASCII *)
    unicode_lower : string -> string;
    (** [xml.NewDecoder(...).Decode(&rss)] with its [CharsetReader] *)
    xml_Decode : (string -> Reader -> result Reader) -> string -> result RSS;
    (** [json.Unmarshal] into a [DiffbotResponse] and an [OpenAIResponse] *)
    json_Unmarshal_Diffbot : string -> result DiffbotResponse;
    json_Unmarshal_OpenAI : string -> result OpenAIResponse;
    (** [json.Marshal] of an [OpenAIRequest] *)
    json_Marshal : OpenAIRequest -> result string;
    (** [http.NewRequest(method, url, body)] *)
    http_NewRequest : string -> string -> string -> result Request;
    (** [(&http.Client{}).Do(req)] *)
    http_Do : Request -> result Response;
    (** [url.Parse] *)
    url_Parse : string -> result GoURL.URL;
    (** the embedded [prompt.txt] *)
    embeddedPrompt : string;
    (** [template.New("prompt").Parse] and [tmpl.Execute] on the fields
        [Topic] and [Content] *)
    template_Parse : string -> result Template;
    template_Execute : Template -> string -> string -> result string;
    (** [time.Now().Format("2006-01-02 15:04:05")] *)
    time_Now : string;
    (** [time.Local], the local zone of the process *)
    time_Local : GoTime.Location }.

(** The global variables the flags set. *)
Record Config : Set := mkConfig
  { fullOutput : bool;
    authored : bool;
    maxLength : Z;
    focus : string }.

(** ** Identity *)

Definition getItemID (item : Item) : string :=
  if negb (String.eqb (GUID item) "") then GUID item else Link item.

(** ** Fetching and parsing *)

Definition charsetReader (env : Env) (charset : string) (input : Reader)
  : result Reader :=
  let charset := GoStrings.ToLower (unicode_lower env) charset in
  if bool_decide (charset ∈ ["utf-8"; ""]) then Ok input
  else if bool_decide (charset ∈ ["windows-1251"; "cp1251"])
  then Ok (NewReader input Windows1251)
  else if bool_decide (charset ∈ ["windows-1252"; "cp1252"])
  then Ok (NewReader input Windows1252)
  else if bool_decide (charset ∈ ["iso-8859-1"; "latin1"])
  then Ok (NewReader input ISO8859_1)
  else if bool_decide (charset ∈ ["iso-8859-2"; "latin2"])
  then Ok (NewReader input ISO8859_2)
  else if bool_decide (charset ∈ ["iso-8859-5"])
  then Ok (NewReader input ISO8859_5)
  else if bool_decide (charset ∈ ["iso-8859-15"])
  then Ok (NewReader input ISO8859_15)
  else if bool_decide (charset ∈ ["koi8-r"])
  then Ok (NewReader input KOI8R)
  else if bool_decide (charset ∈ ["koi8-u"])
  then Ok (NewReader input KOI8U)
  else Err ("unsupported charset: " ++ charset).

Definition parseFeed (env : Env) (data : string) : result RSS :=
  match xml_Decode env (charsetReader env) data with
  | Err e => Err ("XML parsing failed: " ++ e)
  | Ok rss => Ok rss
  end.

Definition StatusOK : Z := 200.

Definition fetchFeed (env : Env) (url : string) : result RSS :=
  match client env url with
  | Err e => Err ("HTTP request failed: " ++ e)
  | Ok resp =>
      if negb (StatusCode resp =? StatusOK)%Z
      then Err ("HTTP error: " ++ Status resp)
      else
        match Body resp with
        | Err e => Err ("failed to read response body: " ++ e)
        | Ok body => parseFeed env body
        end
  end.

(** ** The poller

    What a poller does that the outside sees: it hands an item to
    [printItem], and it sleeps. *)
Inductive Event : Type :=
  | PrintItem (feedURL : string) (item : Item) (channelTitle : string)
  | Sleep (seconds : Z).

(** [state.items[id]]: a key that is not in the map reads [false]. *)
Definition seen (m : gmap string bool) (id : string) : bool :=
  default false (m !! id).

(** The [for _, item := range feed.Channel.Items] loop of [pollFeed]. *)
Fixpoint reconcile (firstRun : bool) (feedURL channelTitle : string)
  (its : list Item) (m : gmap string bool) : gmap string bool * list Event :=
  match its with
  | [] => (m, [])
  | item :: rest =>
      let id := getItemID item in
      if negb (seen m id) then
        let '(m', evs) :=
          reconcile firstRun feedURL channelTitle rest (<[id := true]> m) in
        (m', if negb firstRun
             then PrintItem feedURL item channelTitle :: evs else evs)
      else reconcile firstRun feedURL channelTitle rest m
  end.

(** One turn of the [for] loop of [pollFeed]: the flag [firstRun] and the
    state before, the flag and the state after, and the events of the
    turn when it comes to its end.  A call of [printItem] is an event
    here; what the call writes, and what becomes of the turn when the call
    panics, is told by [pollFeed_run] below. *)
Definition pollFeed_cycle (env : Env) (firstRun : bool) (state : FeedState)
  : bool * FeedState * list Event :=
  match fetchFeed env (url state) with
  | Err _ => (firstRun, state, [Sleep 30])
  | Ok feed =>
      let '(m', evs) :=
        reconcile firstRun (url state) (ChannelTitle (RSSChannel feed))
          (Items (RSSChannel feed)) (items state) in
      (false, mkFeedState (url state) m', evs ++ [Sleep 30])%list
  end.

(** The loop never ends; [pollFeed_loop] runs as many turns of it as there
    are worlds in [envs], one after the other. *)
Fixpoint pollFeed_loop (envs : list Env) (firstRun : bool) (state : FeedState)
  : bool * FeedState * list Event :=
  match envs with
  | [] => (firstRun, state, [])
  | env :: envs' =>
      let '(firstRun', state', evs) := pollFeed_cycle env firstRun state in
      let '(firstRun'', state'', evs') := pollFeed_loop envs' firstRun' state' in
      (firstRun'', state'', evs ++ evs')%list
  end.

Definition pollFeed (envs : list Env) (state : FeedState)
  : FeedState * list Event :=
  let '(_, state', evs) := pollFeed_loop envs true state in (state', evs).

(** The items a trace hands to [printItem]. *)
Fixpoint printed (evs : list Event) : list Item :=
  match evs with
  | [] => []
  | PrintItem _ item _ :: evs' => item :: printed evs'
  | Sleep _ :: evs' => printed evs'
  end.

(** ** Dates *)

Definition layouts : list GoTime.layout :=
  [ GoTime.RFC1123; GoTime.RFC1123Z; GoTime.RFC822; GoTime.RFC822Z;
    GoTime.layoutISOZone; GoTime.layoutISOZulu; GoTime.layoutSQL;
    GoTime.layoutShortDayTZ; GoTime.layoutShortDayNum ].

(** The [for _, layout := range layouts] loop of [parseDate], with the
    [return pubDate] that follows it. *)
Fixpoint parseDate_loop (env : Env) (ls : list GoTime.layout)
  (pubDate : string) : string :=
  match ls with
  | [] => pubDate
  | layout :: ls' =>
      match GoTime.Parse (time_Local env) layout pubDate with
      | Some t => GoTime.Format_DD_MM_YYYY t
      | None => parseDate_loop env ls' pubDate
      end
  end.

Definition parseDate (env : Env) (pubDate : string) : string :=
  if String.eqb pubDate "" then "" else parseDate_loop env layouts pubDate.

(** ** Content *)

Definition LF : string := bytes [10].

Definition nonempty (s : string) : bool := negb (String.eqb s "").

(** [len(s)] *)
Definition len (s : string) : Z := Z.of_nat (String.length s).

(** [text[:n]]; outside [0 <= n <= len(text)] the Go run time panics, which
    is [None]. *)
Definition slice_to (text : string) (n : Z) : option string :=
  if (0 <=? n)%Z && (n <=? len text)%Z
  then Some (take_string (Z.to_nat n) text)
  else None.

(** The statement [if len(text) > maxLength { text = text[:maxLength] + "..." }]
    that ends both [extractContent] and [extractMainText]. *)
Definition cut_to_maxLength (cfg : Config) (text : string) : option string :=
  if (maxLength cfg <? len text)%Z
  then (fun t => t ++ "...") <$> slice_to text (maxLength cfg)
  else Some text.

Definition strip (text : string) : string :=
  GoStrings.TrimSpace (GoRegexp.ReplaceAllString GoRegexp.tagRe text "").

(** [extractMainText] up to its last statement: the text before it is cut
    to [maxLength]. *)
Definition mainText (html : string) : string :=
  let html := GoRegexp.ReplaceAllString (GoRegexp.blockRe "script") html "" in
  let html := GoRegexp.ReplaceAllString (GoRegexp.blockRe "style") html "" in
  let html := GoRegexp.ReplaceAllString (GoRegexp.blockRe "nav") html "" in
  let html := GoRegexp.ReplaceAllString (GoRegexp.blockRe "footer") html "" in
  let html := GoRegexp.ReplaceAllString (GoRegexp.blockRe "header") html "" in
  let articleMatches :=
    GoRegexp.FindAllStringSubmatch (GoRegexp.blockRe "article") html in
  let html :=
    match articleMatches with
    | _ :: _ => foldl (fun acc m => acc ++ m ++ " ") "" articleMatches
    | [] =>
        match GoRegexp.FindStringSubmatch (GoRegexp.blockRe "main") html with
        | Some m => m
        | None => html
        end
    end in
  let text := GoRegexp.ReplaceAllString GoRegexp.tagRe html " " in
  let text := GoRegexp.ReplaceAllString GoRegexp.spaceRe text " " in
  GoStrings.TrimSpace text.

Definition extractMainText (cfg : Config) (html : string) : option string :=
  cut_to_maxLength cfg (mainText html).

Definition extractBasicContent (cfg : Config) (link : string)
  (httpClient : HTTPClient) : option string :=
  match httpClient link with
  | Err _ => Some ""
  | Ok resp =>
      if negb (StatusCode resp =? StatusOK)%Z then Some ""
      else
        match Body resp with
        | Err _ => Some ""
        | Ok body => extractMainText cfg body
        end
  end.

(** [extractContent]; [httpClient] is [None] for a nil client.  The result
    is [None] when the Go code panics. *)
Definition extractContent (env : Env) (cfg : Config) (link : string)
  (httpClient : option HTTPClient) : option string :=
  let httpClient := default (client env) httpClient in
  let token := Getenv env "DIFFBOT_TOKEN" in
  if String.eqb token "" then extractBasicContent cfg link httpClient
  else
    let diffbotURL :=
      "https://api.diffbot.com/v3/article?token=" ++ token ++ "&url="
      ++ GoURL.QueryEscape link in
    match httpClient diffbotURL with
    | Err _ => extractBasicContent cfg link httpClient
    | Ok resp =>
        if negb (StatusCode resp =? StatusOK)%Z
        then extractBasicContent cfg link httpClient
        else
          match Body resp with
          | Err _ => extractBasicContent cfg link httpClient
          | Ok body =>
              match json_Unmarshal_Diffbot env body with
              | Err _ => extractBasicContent cfg link httpClient
              | Ok diffbotResp =>
                  match Objects diffbotResp with
                  | [] => extractBasicContent cfg link httpClient
                  | article :: _ => cut_to_maxLength cfg (Text article)
                  end
              end
          end
    end.

(** ** Relevance *)

Definition buildPrompt (env : Env) (topic content : string) : result string :=
  match template_Parse env (embeddedPrompt env) with
  | Err e => Err ("failed to parse prompt template: " ++ e)
  | Ok tmpl =>
      match template_Execute env tmpl topic content with
      | Err e => Err ("failed to execute prompt template: " ++ e)
      | Ok text => Ok text
      end
  end.

(** The variable [request] of [processWithOpenAI]. *)
Definition chatRequest (prompt : string) : OpenAIRequest :=
  {| Model := "gpt-3.5-turbo";
     Messages := [ {| Role := "user"; Content := prompt |} ] |}.

Definition chatURL : string := "https://api.openai.com/v1/chat/completions".

(** The variable [req] of [processWithOpenAI] after its two
    [req.Header.Set]. *)
Definition authorize (token : string) (req : Request) : Request :=
  mkRequest (Method req) (RequestURL req)
    (<["Content-Type" := "application/json"]>
       (<["Authorization" := "Bearer " ++ token]> (Header req)))
    (RequestBody req).

(** [processWithOpenAI]: the content to print, and whether to print. *)
Definition processWithOpenAI (env : Env) (content topic : string)
  : string * bool :=
  let token := Getenv env "OPENAI_API_KEY" in
  if String.eqb token "" then (content, true)
  else
    match buildPrompt env topic content with
    | Err _ => (content, true)
    | Ok prompt =>
        let request := chatRequest prompt in
        match json_Marshal env request with
        | Err _ => (content, true)
        | Ok requestBody =>
            match http_NewRequest env "POST" chatURL requestBody with
            | Err _ => (content, true)
            | Ok req =>
                let req := authorize token req in
                match http_Do env req with
                | Err _ => (content, true)
                | Ok resp =>
                    if negb (StatusCode resp =? StatusOK)%Z
                    then (content, true)
                    else
                      match Body resp with
                      | Err _ => (content, true)
                      | Ok body =>
                          match json_Unmarshal_OpenAI env body with
                          | Err _ => (content, true)
                          | Ok openaiResp =>
                              match Choices openaiResp with
                              | [] => (content, true)
                              | choice :: _ =>
                                  let response :=
                                    Content (ChoiceMessage choice) in
                                  if GoStrings.HasPrefix response "NOT_RELEVANT"
                                  then ("", false)
                                  else if GoStrings.HasPrefix response "RELEVANT:"
                                  then (GoStrings.TrimSpace
                                          (GoStrings.TrimPrefix response
                                             "RELEVANT:"), true)
                                  else (content, true)
                              end
                          end
                      end
                end
            end
        end
    end.

(** ** Output *)

Definition hostname (env : Env) (feedURL : string) : string :=
  match url_Parse env feedURL with
  | Err _ => feedURL
  | Ok u => GoURL.Host u
  end.

(** In the compact layout every field but the first is written after a
    space: [out] is what the line holds so far and [hasContent] whether it
    holds anything. *)
Definition put (line : string * bool) (field : string) : string * bool :=
  let '(out, hasContent) := line in
  (out ++ (if hasContent then " " else "") ++ field, true).

(** The name in the brackets that close a compact line. *)
Definition displayName (env : Env) (feedURL channelTitle : string) : string :=
  if (2 <? GoStrings.CountByte channelTitle " ")%Z
  then hostname env feedURL
  else channelTitle.

(** The variable [webContent] of [printItem], once it is set. *)
Definition webContentOf (env : Env) (cfg : Config) (item : Item)
  : option string :=
  if nonempty (Link item)
  then extractContent env cfg (Link item) (Some (client env))
  else Some "".

(** The variable [contentToProcess] of [printItem], once it is set. *)
Definition contentToProcessOf (item : Item) (webContent : string) : string :=
  let contentToProcess :=
    if nonempty (Description item) then strip (Description item) else "" in
  if nonempty webContent then
    if nonempty contentToProcess
    then contentToProcess ++ LF ++ LF ++ webContent
    else webContent
  else contentToProcess.

(** [printItem]: what it writes to [outputFile]; [None] when the Go code
    panics before it writes. *)
Definition printItem (env : Env) (cfg : Config) (feedURL : string)
  (item : Item) (channelTitle : string) : option string :=
  webContent ← webContentOf env cfg item;
  let contentToProcess := contentToProcessOf item webContent in
  let '(processedContent, shouldPrint) :=
    if nonempty (focus cfg) && nonempty contentToProcess then
      let '(processed, relevant) :=
        processWithOpenAI env contentToProcess (focus cfg) in
      if relevant then (processed, true) else ("", false)
    else ("", true) in
  if negb shouldPrint then Some ""
  else if fullOutput cfg then
    Some (LF ++ "[" ++ time_Now env ++ "] " ++ feedURL ++ LF
          ++ "Title: " ++ strip (Title item) ++ LF
          ++ "Link: " ++ Link item ++ LF
          ++ (if nonempty processedContent
              then "Content: " ++ processedContent ++ LF
              else if nonempty (Description item)
              then "Description: " ++ strip (Description item) ++ LF
              else if nonempty webContent
              then "Content: " ++ webContent ++ LF
              else "")
          ++ (if nonempty (PubDate item)
              then "Published: " ++ PubDate item ++ LF
              else "")
          ++ "---" ++ LF ++ LF)
  else
    let date := parseDate env (PubDate item) in
    let line := ("", false) in
    let line := if nonempty date then put line date else line in
    let line :=
      if nonempty processedContent then put line processedContent
      else if nonempty (Description item)
      then put line (strip (Description item))
      else if nonempty webContent then put line webContent
      else line in
    let line :=
      if authored cfg && nonempty channelTitle
      then put line ("[" ++ displayName env feedURL channelTitle ++ "]")
      else line in
    Some (if snd line then fst line ++ LF ++ LF else fst line).

(** ** Notions the statements below use *)

(** A cycle whose fetch fails: the transport fails, the status is not a
    2xx one, the body cannot be read, or the document does not parse. *)
Inductive FetchFailure (env : Env) (u : string) : Prop :=
  | transport_error e :
      client env u = Err e -> FetchFailure env u
  | status_not_2xx resp :
      client env u = Ok resp ->
      ~ (200 <= StatusCode resp < 300)%Z -> FetchFailure env u
  | body_unreadable resp e :
      client env u = Ok resp ->
      Body resp = Err e -> FetchFailure env u
  | document_malformed resp body e :
      client env u = Ok resp ->
      Body resp = Ok body ->
      xml_Decode env (charsetReader env) body = Err e -> FetchFailure env u.




(** The extraction service answers the request for [link] with [article]
    first. *)
Inductive Extracts (env : Env) (link : string) (httpClient : HTTPClient)
  (article : DiffbotArticle) : Prop :=
  | extracts resp body diffbotResp others :
      Getenv env "DIFFBOT_TOKEN" <> "" ->
      httpClient
        ("https://api.diffbot.com/v3/article?token="
         ++ Getenv env "DIFFBOT_TOKEN" ++ "&url=" ++ GoURL.QueryEscape link)
      = Ok resp ->
      StatusCode resp = 200%Z ->
      Body resp = Ok body ->
      json_Unmarshal_Diffbot env body = Ok diffbotResp ->
      Objects diffbotResp = article :: others ->
      Extracts env link httpClient article.

(** [out] is [text] cut to [n] bytes: the first [n] bytes of a longer
    [text] and three periods, or [text] itself. *)
Inductive CutTo (n : Z) (text : string) : string -> Prop :=
  | cut_long head tail :
      text = head ++ tail -> len head = n -> (n < len text)%Z ->
      CutTo n text (head ++ "...")
  | cut_short :
      (len text <= n)%Z -> CutTo n text text.

(** The characters of a text in UTF-8: its bytes but those that continue a
    character, which are the bytes from 128 to 191. *)
Fixpoint characters (s : string) : Z :=
  match s with
  | "" => 0
  | String c s' =>
      ((if (128 <=? code c)%nat && (code c <? 192)%nat then 0 else 1)
       + characters s')%Z
  end.

(** The allow-list of [charsetReader]: the labels it decodes, each with
    its character map. *)
Definition allow_list : list (string * Charmap) :=
  [ ("windows-1251", Windows1251); ("cp1251", Windows1251);
    ("windows-1252", Windows1252); ("cp1252", Windows1252);
    ("iso-8859-1", ISO8859_1); ("latin1", ISO8859_1);
    ("iso-8859-2", ISO8859_2); ("latin2", ISO8859_2);
    ("iso-8859-5", ISO8859_5); ("iso-8859-15", ISO8859_15);
    ("koi8-r", KOI8R); ("koi8-u", KOI8U) ].

(** The number of space-separated words of [s]: its maximal runs of bytes
    other than the space. *)
Fixpoint word_count_from (in_word : bool) (s : string) : Z :=
  match s with
  | "" => 0
  | String c s' =>
      if Ascii.eqb c " " then word_count_from false s'
      else (if in_word then 0 else 1) + word_count_from true s'
  end%Z.

Definition word_count (s : string) : Z := word_count_from false s.

(** The name in the brackets as the specification words it: the host name
    for a channel title of more than two words. *)
Definition displayName_by_words (env : Env) (feedURL channelTitle : string)
  : string :=
  if (2 <? word_count channelTitle)%Z
  then hostname env feedURL
  else channelTitle.

(** A title whose words are separated by single spaces: it begins and ends
    with a byte other than the space and has no two spaces in a row. *)
Fixpoint single_spaced_from (in_word : bool) (s : string) : bool :=
  match s with
  | "" => in_word
  | String c s' =>
      if Ascii.eqb c " " then in_word && single_spaced_from false s'
      else single_spaced_from true s'
  end.

Definition single_spaced (s : string) : bool := single_spaced_from false s.

(** Decimal digits only. *)
Fixpoint all_digits (s : string) : bool :=
  match s with
  | "" => true
  | String c s' => GoTime.is_digit c && all_digits s'
  end.

(** By how many seconds the local zone moves a time that is read with the
    abbreviation [name], one that is not of the form [GMT+h], [unix] being
    the wall clock read, taken for UTC.  A zone that has no such
    abbreviation leaves the time as it is written; one that has it shows
    the time at the offset it uses at that instant, which need not be the
    offset it gives for the abbreviation. *)
Definition moved_by (local : GoTime.Location) (name : string) (unix : Z)
  : Z :=
  match GoTime.lookupName local name unix with
  | None => 0%Z
  | Some offset => ((GoTime.lookup local (unix - offset)).2 - offset)%Z
  end.

(** A string constant is not in a list of other string constants. *)
Ltac not_listed :=
  let H := fresh "H" in
  intros H;
  repeat (apply elem_of_cons in H as [H | H]; [discriminate H |]);
  by apply elem_of_nil in H.

(** ** Sample worlds, in the manner of the mock client of the tests *)

Definition refused {A} : result A := Err "connection refused".

Definition mock (get : HTTPClient) (vars : string -> string)
  (decode_feed : string -> result RSS)
  (decode_articles : string -> result DiffbotResponse)
  (chat : Request -> result Response)
  (decode_choices : string -> result OpenAIResponse)
  (parse_url : string -> result GoURL.URL) : Env :=
  {| client := get;
     Getenv := vars;
     unicode_lower := fun s => s;
     xml_Decode := fun _ data => decode_feed data;
     json_Unmarshal_Diffbot := decode_articles;
     json_Unmarshal_OpenAI := decode_choices;
     json_Marshal := fun request =>
       Ok (foldr (fun m acc => Content m ++ acc) "" (Messages request));
     http_NewRequest := fun method u body => Ok (mkRequest method u ∅ body);
     http_Do := chat;
     url_Parse := parse_url;
     embeddedPrompt := "{{.Topic}}: {{.Content}}";
     template_Parse := fun text => Ok text;
     template_Execute := fun _ topic content => Ok (topic ++ ": " ++ content);
     time_Now := "2025-01-15 10:30:45";
     time_Local := GoTime.UTC |}.

Definition ok200 (body : string) : result Response :=
  Ok (mkResponse "200 OK" 200 (Ok body)).

(** Nothing answers. *)
Definition offline : Env :=
  mock (fun _ => refused) (fun _ => "") (fun _ => Err "EOF")
    (fun _ => Err "EOF") (fun _ => refused) (fun _ => Err "EOF")
    (fun _ => Err "invalid URL").

(** The feed at [feedURL] serves a document that decodes to [feed]; nothing
    else answers. *)
Definition serving (feedURL : string) (feed : RSS) : Env :=
  mock (fun u => if String.eqb u feedURL then ok200 "<rss/>" else refused)
    (fun _ => "")
    (fun data => if String.eqb data "<rss/>" then Ok feed else Err "EOF")
    (fun _ => Err "EOF") (fun _ => refused) (fun _ => Err "EOF")
    (fun u => if String.eqb u feedURL
              then Ok {| GoURL.Scheme := "https"; GoURL.Host := "example.com";
                         GoURL.Path := "/feed" |}
              else Err "invalid URL").

(** The reasoning service is configured and answers [response]. *)
Definition answering (response : string) : Env :=
  mock (fun _ => refused)
    (fun name => if String.eqb name "OPENAI_API_KEY" then "sk-test" else "")
    (fun _ => Err "EOF") (fun _ => Err "EOF")
    (fun _ => ok200 "{}")
    (fun _ => Ok {| Choices :=
                      [ {| ChoiceMessage := mkMessage "assistant" response |} ] |})
    (fun _ => Err "invalid URL").

(** The extraction service is configured and returns one article with the
    text [text]. *)
Definition extracting (text : string) : Env :=
  mock (fun _ => ok200 "{}")
    (fun name => if String.eqb name "DIFFBOT_TOKEN" then "test-token" else "")
    (fun _ => Err "EOF")
    (fun _ => Ok {| Objects := [ mkDiffbotArticle "" text "" "" ] |})
    (fun _ => refused) (fun _ => Err "EOF")
    (fun _ => Err "invalid URL").

(** The feed at [feedURL] serves a document that decodes to [feed], and
    every other address a page. *)
Definition serving_pages (feedURL : string) (feed : RSS) : Env :=
  mock (fun u => if String.eqb u feedURL then ok200 "<rss/>"
                 else ok200 "<p>Hello</p>")
    (fun _ => "")
    (fun data => if String.eqb data "<rss/>" then Ok feed else Err "EOF")
    (fun _ => Err "EOF") (fun _ => refused) (fun _ => Err "EOF")
    (fun _ => Err "invalid URL").

Definition g1 : Item :=
  mkItem "First" "https://example.com/1" "" "" "g1".

Definition g2 : Item :=
  mkItem "Second" "https://example.com/2" "" "" "g2".

Definition feed_of (its : list Item) : RSS :=
  mkRSS (mkChannel "Daily Tech News" "https://example.com/" "" its).

Definition fresh_state (feedURL : string) : FeedState :=
  mkFeedState feedURL ∅.

Definition compact_authored : Config :=
  {| fullOutput := false; authored := true; maxLength := 10000; focus := "" |}.

Definition feedURL0 : string := "https://example.com/feed".

(** [g1] with everything but its guid changed. *)
Definition g1_edited : Item :=
  mkItem "First, edited" "https://example.com/moved" "new" "" "g1".

(** Another item with the guid of [g2]. *)
Definition g2_again : Item :=
  mkItem "Second, again" "https://example.com/2b" "" "" "g2".

(** A poller that has seen [g1]. *)
Definition knows_g1 : FeedState := mkFeedState feedURL0 {[ "g1" := true ]}.

(** The feed answers, with a status that is not a 2xx one. *)
Definition unavailable : Env :=
  mock (fun _ => Ok (mkResponse "503 Service Unavailable" 503 (Ok "")))
    (fun _ => "") (fun _ => Err "EOF") (fun _ => Err "EOF")
    (fun _ => refused) (fun _ => Err "EOF") (fun _ => Err "invalid URL").

Definition hello : Item :=
  mkItem "T" "" "<p>Hello <b>world</b>!</p>" "" "g".

(** Two characters of two bytes each: U+00E9, twice. *)
Definition two_e_acute : string := bytes [195; 169; 195; 169].

(** The zone of London in the year 2023: GMT, and BST from 26 March, 1:00
    UTC, to 29 October, 1:00 UTC. *)
Definition london_2023 : GoTime.Location :=
  {| GoTime.lookup := fun unix =>
       if (1679792400 <=? unix)%Z && (unix <? 1698541200)%Z
       then ("BST", 3600%Z) else ("GMT", 0%Z);
     GoTime.lookupName := fun name _ =>
       if String.eqb name "GMT" then Some 0%Z
       else if String.eqb name "BST" then Some 3600%Z
       else None |}.

(** The world [env] for a process whose local zone is [local]. *)
Definition in_zone (local : GoTime.Location) (env : Env) : Env :=
  {| client := client env;
     Getenv := Getenv env;
     unicode_lower := unicode_lower env;
     xml_Decode := xml_Decode env;
     json_Unmarshal_Diffbot := json_Unmarshal_Diffbot env;
     json_Unmarshal_OpenAI := json_Unmarshal_OpenAI env;
     json_Marshal := json_Marshal env;
     http_NewRequest := http_NewRequest env;
     http_Do := http_Do env;
     url_Parse := url_Parse env;
     embeddedPrompt := embeddedPrompt env;
     template_Parse := template_Parse env;
     template_Execute := template_Execute env;
     time_Now := time_Now env;
     time_Local := local |}.

(** ** Notions the further statements use *)

(** The seconds a trace sleeps, pause by pause. *)
Fixpoint sleeps (evs : list Event) : list Z :=
  match evs with
  | [] => []
  | PrintItem _ _ _ :: evs' => sleeps evs'
  | Sleep seconds :: evs' => seconds :: sleeps evs'
  end.

(** The feed URLs under which a trace hands items to [printItem]. *)
Fixpoint printed_under (evs : list Event) : list string :=
  match evs with
  | [] => []
  | PrintItem feedURL _ _ :: evs' => feedURL :: printed_under evs'
  | Sleep _ :: evs' => printed_under evs'
  end.

(** The identities of the items of a document. *)
Definition identities (feed : RSS) : list string :=
  getItemID <$> Items (RSSChannel feed).

(** The fetch of the feed at [u] fails in the world [env]. *)
Definition fetch_fails (u : string) (env : Env) : bool :=
  negb (is_ok (fetchFeed env u)).

(** [pollFeed] calls [printItem] inside its loop over the items, and
    nothing recovers a panic: when a call panics the process ends there.
    A [Run] is what a poller has done by some point: the events that took
    place, what the calls of [printItem] wrote to [outputFile], and whether
    the process is still running. *)
Record Run : Type := mkRun
  { happened : list Event;
    written : string;
    running : bool }.

(** The events of a cycle, carried out in the world [env] of that cycle.
    A call of [printItem] that panics ends the run: it writes nothing, and
    the events after it do not take place. *)
Fixpoint carry_out (env : Env) (cfg : Config) (evs : list Event) : Run :=
  match evs with
  | [] => mkRun [] "" true
  | Sleep seconds :: evs' =>
      let r := carry_out env cfg evs' in
      mkRun (Sleep seconds :: happened r) (written r) (running r)
  | PrintItem feedURL item channelTitle :: evs' =>
      match printItem env cfg feedURL item channelTitle with
      | None => mkRun [] "" false
      | Some out =>
          let r := carry_out env cfg evs' in
          mkRun (PrintItem feedURL item channelTitle :: happened r)
            (out ++ written r) (running r)
      end
  end.

(** [pollFeed] as the process runs it: one cycle after the other, for as
    long as the process is running. *)
Fixpoint pollFeed_run (cfg : Config) (envs : list Env) (firstRun : bool)
  (state : FeedState) : Run :=
  match envs with
  | [] => mkRun [] "" true
  | env :: envs' =>
      let '(firstRun', state', evs) := pollFeed_cycle env firstRun state in
      let r := carry_out env cfg evs in
      if running r then
        let r' := pollFeed_run cfg envs' firstRun' state' in
        mkRun (happened r ++ happened r')%list (written r ++ written r')
          (running r')
      else r
  end.

(** A tag is left in [s]: a [<] with a [>] somewhere after it, which is
    where the pattern [<[^>]*>] matches. *)
Fixpoint has_tag (s : string) : bool :=
  match s with
  | "" => false
  | String c s' =>
      Ascii.eqb c "<" && bool_decide (is_Some (GoRegexp.index_byte ">" s'))
      || has_tag s'
  end.

(** The white space of [s] is single spaces: none of its bytes is a tab, a
    line feed, a form feed or a carriage return, and no space follows a
    space.  [after_space] holds when the byte before [s] is a space. *)
Fixpoint single_spaces_from (after_space : bool) (s : string) : bool :=
  match s with
  | "" => true
  | String c s' =>
      if GoRegexp.is_space c
      then Ascii.eqb c " " && negb after_space && single_spaces_from true s'
      else single_spaces_from false s'
  end.

Definition single_spaces (s : string) : bool := single_spaces_from false s.

(** The variables [processedContent] and [shouldPrint] of [printItem],
    once the relevance step is over. *)
Definition relevance (env : Env) (cfg : Config) (contentToProcess : string)
  : string * bool :=
  if nonempty (focus cfg) && nonempty contentToProcess then
    let '(processed, relevant) :=
      processWithOpenAI env contentToProcess (focus cfg) in
    if relevant then (processed, true) else ("", false)
  else ("", true).

(** The content a layout shows: the first of the processed content, the
    description without its markup and the text of the page that is there
    at all. *)
Definition content_field (processedContent description webContent : string)
  : list string :=
  if nonempty processedContent then [processedContent]
  else if nonempty description then [strip description]
  else if nonempty webContent then [webContent]
  else [].

(** The fields of a compact line: the date, the content, the name in
    brackets, each only when it is there. *)
Definition compact_fields (env : Env) (cfg : Config) (feedURL : string)
  (item : Item) (channelTitle processedContent webContent : string)
  : list string :=
  ((if nonempty (parseDate env (PubDate item))
    then [parseDate env (PubDate item)] else [])
   ++ content_field processedContent (Description item) webContent
   ++ (if authored cfg && nonempty channelTitle
       then [("[" ++ displayName env feedURL channelTitle ++ "]")%string]
       else []))%list.

(** The fields with one space between them and an empty line after them;
    nothing when there is no field. *)
Definition compact_line (fields : list string) : string :=
  match fields with
  | [] => ""
  | _ => String.concat " " fields ++ LF ++ LF
  end.

(** [env] with everything the relevance step reads taken from [other]:
    the credential, the prompt and its template engine, the encoder, the
    request and its transport, the decoder. *)
Definition with_reasoning_of (other env : Env) : Env :=
  {| client := client env;
     Getenv := fun name =>
       if String.eqb name "OPENAI_API_KEY"
       then Getenv other name else Getenv env name;
     unicode_lower := unicode_lower env;
     xml_Decode := xml_Decode env;
     json_Unmarshal_Diffbot := json_Unmarshal_Diffbot env;
     json_Unmarshal_OpenAI := json_Unmarshal_OpenAI other;
     json_Marshal := json_Marshal other;
     http_NewRequest := http_NewRequest other;
     http_Do := http_Do other;
     url_Parse := url_Parse env;
     embeddedPrompt := embeddedPrompt other;
     template_Parse := template_Parse other;
     template_Execute := template_Execute other;
     time_Now := time_Now env;
     time_Local := time_Local env |}.

(** ** Start-up *)

Module Startup.

(** The flags and the arguments as [flag.Parse] leaves them when it
    accepts the command line. *)
Record Flags : Set := mkFlags
  { help : bool;
    version : bool;
    output : string;
    full : bool;
    auth : bool;
    maxLen : Z;
    focusFlag : string;
    uris : list string }.

(** Where the items go: [os.Stdout], or the file opened for [--output]. *)
Inductive Sink : Set :=
  | Stdout
  | File (path : string).

(** How [main] goes on: it exits with a code, or it starts a poller for
    each state and waits for them, which never ends.  [stdout] is what it
    has printed on the standard output by then; what it prints on the
    standard error is left out. *)
Inductive Outcome : Type :=
  | Exit (code : Z) (stdout : string)
  | Polling (stdout : string) (cfg : Config) (sink : Sink)
      (states : list FeedState).

(** [%d] of a length. *)
Definition decimal (n : nat) : string :=
  NilEmpty.string_of_uint (Nat.to_uint n).

(** What [flag.Parse] makes of the command line: the flags and the
    arguments that follow them, or one of its errors, [flag.ErrHelp] (for
    [-h], which is no flag of [main]) or any other (a flag that is not
    defined, a value that does not parse). *)
Inductive Parsed : Set :=
  | Accepted (flags : Flags)
  | ErrHelp
  | Rejected (message : string).

(** [main]: [args] is the command line after the name of the program,
    [flag_Parse] what the package [flag] makes of it, and [openFile] is
    [os.OpenFile] in append mode.  The flag set is the default one,
    [flag.CommandLine], which ends the process when [flag.Parse] fails:
    with 0 for [flag.ErrHelp] and with 2 for any other error. *)
Definition main (env : Env) (flag_Parse : list string -> Parsed)
  (openFile : string -> result unit) (args : list string) : Outcome :=
  if String.eqb (embeddedPrompt env) "" then Exit 1 ""
  else
    match template_Parse env (embeddedPrompt env) with
    | Err _ => Exit 1 ""
    | Ok _ =>
        match flag_Parse args with
        | ErrHelp => Exit 0 ""
        | Rejected _ => Exit 2 ""
        | Accepted flags =>
            if help flags then Exit 0 ""
            else if version flags then Exit 0 ("0.0.0" ++ LF)
            else if bool_decide (length (uris flags) = 0%nat) then Exit 1 ""
            else
              let opened :=
                if nonempty (output flags)
                then match openFile (output flags) with
                     | Err e => Err e
                     | Ok _ =>
                         Ok (File (output flags),
                             "Output will be written to: "
                             ++ output flags ++ LF)
                     end
                else Ok (Stdout, "") in
              match opened with
              | Err _ => Exit 1 ""
              | Ok (sink, stdout) =>
                  Polling
                    (stdout ++ "Starting RSS Stream Processor for "
                     ++ decimal (length (uris flags)) ++ " feeds" ++ LF)
                    {| fullOutput := full flags;
                       authored := auth flags;
                       maxLength := maxLen flags;
                       focus := focusFlag flags |}
                    sink
                    ((fun uri => mkFeedState uri ∅) <$> uris flags)
              end
        end
    end.

(** A command line of the flag [--authored] and URIs, as [flag.Parse]
    reads it; the sample knows no other command line. *)
Definition authored_then_uris (args : list string) : Parsed :=
  match args with
  | "--authored" :: uris =>
      Accepted (mkFlags false false "" false true 10000 "" uris)
  | "-h" :: _ => ErrHelp
  | _ => Rejected "flag provided but not defined"
  end.

End Startup.

(** * Properties *)

(** ** Strings *)

Lemma eqb_empty_false (s : string) : s <> "" -> String.eqb s "" = false.
Proof. intros H. by apply String.eqb_neq. Qed.

Lemma nonempty_true (s : string) : nonempty s = true <-> s <> "".
Proof.
  unfold nonempty. rewrite negb_true_iff. apply String.eqb_neq.
Qed.

Lemma nonempty_false (s : string) : nonempty s = false <-> s = "".
Proof.
  unfold nonempty. rewrite negb_false_iff. apply String.eqb_eq.
Qed.

Lemma length_app_string (s t : string) :
  String.length (s ++ t) = (String.length s + String.length t)%nat.
Proof. induction s as [|c s IH]; simpl; [done | by rewrite IH]. Qed.

Lemma take_drop_string (n : nat) (s : string) :
  s = take_string n s ++ drop_string n s.
Proof.
  revert s; induction n as [|n IH]; intros [|c s]; try done.
  change (String c s = String c (take_string n s ++ drop_string n s)).
  f_equal. apply IH.
Qed.

Lemma length_take_string (n : nat) (s : string) :
  (n <= String.length s)%nat -> String.length (take_string n s) = n.
Proof.
  revert s; induction n as [|n IH]; intros [|c s]; simpl; try done; try lia.
  intros H. rewrite IH; lia.
Qed.

(** ** The tracking state *)

Lemma seen_true (m : gmap string bool) (id : string) :
  seen m id = true <-> m !! id = Some true.
Proof.
  unfold seen. destruct (m !! id) as [[]|]; simpl; split; congruence.
Qed.

Lemma seen_insert (m : gmap string bool) (id id' : string) :
  seen (<[id := true]> m) id' = if decide (id = id') then true else seen m id'.
Proof.
  unfold seen. rewrite lookup_insert. by case_decide.
Qed.

Section Reconcile.

Variables (firstRun : bool) (feedURL channelTitle : string).

Lemma reconcile_keeps (its : list Item) (m : gmap string bool) (id : string) :
  m !! id = Some true -> (reconcile firstRun feedURL channelTitle its m).1 !! id = Some true.
Proof.
  revert m; induction its as [|item rest IH]; intros m Hm; [done|].
  simpl. destruct (negb (seen m (getItemID item))).
  - specialize (IH (<[getItemID item := true]> m)).
    destruct (reconcile _ _ _ rest _) as [m' evs]. simpl in *. apply IH.
    rewrite lookup_insert. by case_decide.
  - by apply IH.
Qed.

Lemma reconcile_tracks (its : list Item) (m : gmap string bool) (item : Item) :
  item ∈ its -> (reconcile firstRun feedURL channelTitle its m).1 !! getItemID item = Some true.
Proof.
  revert m; induction its as [|item0 rest IH]; intros m Hin.
  { by apply elem_of_nil in Hin. }
  apply elem_of_cons in Hin. simpl.
  destruct (negb (seen m (getItemID item0))) eqn:Hseen.
  - pose proof (reconcile_keeps rest (<[getItemID item0 := true]> m)) as Hk.
    specialize (IH (<[getItemID item0 := true]> m)).
    destruct (reconcile _ _ _ rest _) as [m' evs]. simpl in *.
    destruct Hin as [-> | Hin]; [| by apply IH].
    apply Hk, lookup_insert_eq.
  - destruct Hin as [-> | Hin]; [| by apply IH].
    apply reconcile_keeps, seen_true. by apply negb_false_iff.
Qed.

Lemma reconcile_printed (its : list Item) (m : gmap string bool) (item : Item) :
  item ∈ printed (reconcile firstRun feedURL channelTitle its m).2 ->
  seen m (getItemID item) = false /\ item ∈ its.
Proof.
  revert m; induction its as [|item0 rest IH]; intros m.
  { simpl. intros Hin. by apply elem_of_nil in Hin. }
  simpl. destruct (negb (seen m (getItemID item0))) eqn:Hseen.
  - specialize (IH (<[getItemID item0 := true]> m)).
    destruct (reconcile _ _ _ rest _) as [m' evs]. simpl in *.
    apply negb_true_iff in Hseen.
    assert (item ∈ printed evs ->
            seen m (getItemID item) = false /\ item ∈ item0 :: rest) as Hrest.
    { intros Hin. destruct (IH Hin) as [Hfresh Hin']. split; [| by right].
      rewrite seen_insert in Hfresh. by case_decide. }
    destruct firstRun; simpl; [done|].
    intros [-> | Hin]%elem_of_cons; [| by apply Hrest].
    split; [done | by left].
  - intros Hin. destruct (IH m Hin) as [Hfresh Hin']. split; [done | by right].
Qed.

Lemma reconcile_printed_NoDup (its : list Item) (m : gmap string bool) :
  NoDup (getItemID <$> printed (reconcile firstRun feedURL channelTitle its m).2).
Proof.
  revert m; induction its as [|item0 rest IH]; intros m.
  { simpl. constructor. }
  simpl. destruct (negb (seen m (getItemID item0))); [| by apply IH].
  pose proof (reconcile_printed rest (<[getItemID item0 := true]> m)) as Hp.
  specialize (IH (<[getItemID item0 := true]> m)).
  destruct (reconcile _ _ _ rest _) as [m' evs]. simpl in *.
  destruct firstRun; simpl; [done|].
  constructor; [| done].
  intros (item & Hid & Hin)%list_elem_of_fmap.
  destruct (Hp item Hin) as [Hfresh _].
  rewrite seen_insert in Hfresh. by case_decide.
Qed.

Lemma reconcile_printed_sublist (its : list Item) (m : gmap string bool) :
  sublist (printed (reconcile firstRun feedURL channelTitle its m).2) its.
Proof.
  revert m; induction its as [|item0 rest IH]; intros m.
  { simpl. constructor. }
  simpl. destruct (negb (seen m (getItemID item0))).
  - specialize (IH (<[getItemID item0 := true]> m)).
    destruct (reconcile _ _ _ rest _) as [m' evs]. simpl in *.
    destruct firstRun; simpl; by constructor.
  - constructor. apply IH.
Qed.

Lemma reconcile_known (its : list Item) (m : gmap string bool) :
  (forall item, item ∈ its -> seen m (getItemID item) = true) ->
  reconcile firstRun feedURL channelTitle its m = (m, []).
Proof.
  induction its as [|item0 rest IH]; intros Hall; [done|].
  simpl. rewrite Hall by left. simpl. apply IH.
  intros item Hin. apply Hall. by right.
Qed.

End Reconcile.

Lemma reconcile_first_run (feedURL channelTitle : string) (its : list Item)
  (m : gmap string bool) :
  (reconcile true feedURL channelTitle its m).2 = [].
Proof.
  revert m; induction its as [|item0 rest IH]; intros m; [done|].
  simpl. destruct (negb (seen m (getItemID item0))); [| by apply IH].
  specialize (IH (<[getItemID item0 := true]> m)).
  by destruct (reconcile _ _ _ rest _) as [m' evs].
Qed.

Lemma printed_app (evs evs' : list Event) :
  printed (evs ++ evs') = (printed evs ++ printed evs')%list.
Proof.
  induction evs as [|[] evs IH]; simpl; [done | by rewrite IH | done].
Qed.

(** ** One cycle, and many *)

Lemma cycle_failure (env : Env) (firstRun : bool) (state : FeedState) (e : error) :
  fetchFeed env (url state) = Err e ->
  pollFeed_cycle env firstRun state = (firstRun, state, [Sleep 30]).
Proof. unfold pollFeed_cycle. by intros ->. Qed.

Lemma cycle_success (env : Env) (firstRun : bool) (state : FeedState) (feed : RSS) :
  fetchFeed env (url state) = Ok feed ->
  let r := reconcile firstRun (url state) (ChannelTitle (RSSChannel feed))
             (Items (RSSChannel feed)) (items state) in
  pollFeed_cycle env firstRun state
  = (false, mkFeedState (url state) r.1, (r.2 ++ [Sleep 30])%list).
Proof.
  unfold pollFeed_cycle. intros ->. simpl. by destruct (reconcile _ _ _ _ _).
Qed.

Lemma fetch_failure (env : Env) (u : string) :
  FetchFailure env u -> exists e, fetchFeed env u = Err e.
Proof.
  unfold fetchFeed, parseFeed, StatusOK.
  intros [e H | resp H Hs | resp e H Hb | resp body e H Hb Hx]; rewrite H.
  - eauto.
  - destruct (Z.eqb_spec (StatusCode resp) 200) as [Heq|]; simpl; [lia | eauto].
  - destruct (negb _); [eauto |]. rewrite Hb. eauto.
  - destruct (negb _); [eauto |]. rewrite Hb, Hx. eauto.
Qed.

Lemma cycle_url (env : Env) (firstRun : bool) (state : FeedState) :
  url (pollFeed_cycle env firstRun state).1.2 = url state.
Proof.
  destruct (fetchFeed env (url state)) as [feed | e] eqn:Hf.
  - by rewrite (cycle_success _ _ _ _ Hf).
  - by rewrite (cycle_failure _ _ _ _ Hf).
Qed.

Lemma cycle_keeps (env : Env) (firstRun : bool) (state : FeedState) (id : string) :
  items state !! id = Some true ->
  items (pollFeed_cycle env firstRun state).1.2 !! id = Some true.
Proof.
  intros Hid. destruct (fetchFeed env (url state)) as [feed | e] eqn:Hf.
  - rewrite (cycle_success _ _ _ _ Hf). simpl. by apply reconcile_keeps.
  - by rewrite (cycle_failure _ _ _ _ Hf).
Qed.

Lemma cycle_printed (env : Env) (firstRun : bool) (state : FeedState) (item : Item) :
  item ∈ printed (pollFeed_cycle env firstRun state).2 ->
  seen (items state) (getItemID item) = false
  /\ items (pollFeed_cycle env firstRun state).1.2 !! getItemID item = Some true.
Proof.
  destruct (fetchFeed env (url state)) as [feed | e] eqn:Hf.
  - rewrite (cycle_success _ _ _ _ Hf). simpl.
    rewrite printed_app, app_nil_r. intros Hin.
    destruct (reconcile_printed _ _ _ _ _ _ Hin) as [Hfresh Hdoc].
    split; [done | by apply reconcile_tracks].
  - rewrite (cycle_failure _ _ _ _ Hf). simpl.
    intros Hin. by apply elem_of_nil in Hin.
Qed.

Lemma cycle_printed_NoDup (env : Env) (firstRun : bool) (state : FeedState) :
  NoDup (getItemID <$> printed (pollFeed_cycle env firstRun state).2).
Proof.
  destruct (fetchFeed env (url state)) as [feed | e] eqn:Hf.
  - rewrite (cycle_success _ _ _ _ Hf). simpl.
    rewrite printed_app, app_nil_r. apply reconcile_printed_NoDup.
  - rewrite (cycle_failure _ _ _ _ Hf). simpl. constructor.
Qed.

Lemma loop_cons (env : Env) (envs : list Env) (firstRun : bool) (state : FeedState) :
  let c := pollFeed_cycle env firstRun state in
  let r := pollFeed_loop envs c.1.1 c.1.2 in
  pollFeed_loop (env :: envs) firstRun state = (r.1, (c.2 ++ r.2)%list).
Proof.
  simpl. destruct (pollFeed_cycle env firstRun state) as [[fr st] evs].
  simpl. by destruct (pollFeed_loop envs fr st) as [[fr' st'] evs'].
Qed.

Lemma loop_keeps (envs : list Env) (firstRun : bool) (state : FeedState)
  (id : string) :
  items state !! id = Some true ->
  items (pollFeed_loop envs firstRun state).1.2 !! id = Some true.
Proof.
  revert firstRun state; induction envs as [|env envs IH]; intros fr st Hid.
  { done. }
  rewrite loop_cons. simpl. apply IH. by apply cycle_keeps.
Qed.

Lemma loop_printed (envs : list Env) (firstRun : bool) (state : FeedState)
  (item : Item) :
  item ∈ printed (pollFeed_loop envs firstRun state).2 ->
  seen (items state) (getItemID item) = false.
Proof.
  revert firstRun state; induction envs as [|env envs IH]; intros fr st.
  { simpl. intros Hin. by apply elem_of_nil in Hin. }
  rewrite loop_cons. simpl. rewrite printed_app.
  intros [Hin | Hin]%elem_of_app.
  - by apply cycle_printed in Hin as [? _].
  - apply IH in Hin. destruct (seen (items st) (getItemID item)) eqn:Hs; [|done].
    apply seen_true, (cycle_keeps env fr) in Hs. apply seen_true in Hs.
    congruence.
Qed.

Lemma loop_printed_NoDup (envs : list Env) (firstRun : bool) (state : FeedState) :
  NoDup (getItemID <$> printed (pollFeed_loop envs firstRun state).2).
Proof.
  revert firstRun state; induction envs as [|env envs IH]; intros fr st.
  { simpl. constructor. }
  rewrite loop_cons. simpl. rewrite printed_app, fmap_app.
  apply NoDup_app. split; [apply cycle_printed_NoDup |]. split; [| apply IH].
  intros id (item & -> & Hin)%list_elem_of_fmap
            (item' & Hid & Hin')%list_elem_of_fmap.
  apply cycle_printed in Hin as [_ Htracked].
  apply loop_printed in Hin'. rewrite <- Hid in Hin'.
  apply seen_true in Htracked. congruence.
Qed.

Lemma loop_failures (fails rest : list Env) (firstRun : bool) (state : FeedState) :
  Forall (fun e => is_ok (fetchFeed e (url state)) = false) fails ->
  pollFeed_loop (fails ++ rest) firstRun state
  = ((pollFeed_loop rest firstRun state).1,
     (replicate (length fails) (Sleep 30)
      ++ (pollFeed_loop rest firstRun state).2)%list).
Proof.
  induction 1 as [|env fails Hfail _ IH]; simpl app.
  { by destruct (pollFeed_loop rest firstRun state). }
  rewrite loop_cons.
  destruct (fetchFeed env (url state)) as [feed | e] eqn:Hf; [done|].
  rewrite (cycle_failure _ _ _ _ Hf). simpl. by rewrite IH.
Qed.

(** ** Claims on the poller *)

(** C1.  The first successful cycle of a poller hands nothing to
    [printItem], however many items the document holds: whatever the cycles
    before it that failed, the trace up to the end of that cycle consists of
    sleeps only; and after it the identity of every item of the document is
    in the tracking state. *)
Theorem first_successful_cycle_only_seeds
  (fails : list Env) (env : Env) (feed : RSS) (state : FeedState) :
  Forall (fun e => is_ok (fetchFeed e (url state)) = false) fails ->
  fetchFeed env (url state) = Ok feed ->
  (pollFeed (fails ++ [env]) state).2
  = replicate (S (length fails)) (Sleep 30)
  /\ printed (pollFeed (fails ++ [env]) state).2 = []
  /\ forall item, item ∈ Items (RSSChannel feed) ->
       items (pollFeed (fails ++ [env]) state).1 !! getItemID item = Some true.
Proof.
  intros Hfails Hok. unfold pollFeed.
  rewrite (loop_failures _ _ _ _ Hfails), loop_cons.
  rewrite (cycle_success _ _ _ _ Hok). simpl.
  rewrite reconcile_first_run. simpl.
  assert (replicate (length fails) (Sleep 30) ++ [Sleep 30]
          = Sleep 30 :: replicate (length fails) (Sleep 30))%list as ->.
  { induction (length fails) as [|n IH]; simpl; [done | by rewrite IH]. }
  split; [done|]. split.
  - change (printed (replicate (S (length fails)) (Sleep 30)) = []).
    induction (S (length fails)) as [|n IH]; simpl; done.
  - intros item Hin. by apply reconcile_tracks.
Qed.

Lemma first_successful_cycle_only_seeds_witness :
  (pollFeed ([offline; offline] ++ [serving feedURL0 (feed_of [g1; g2])])
     (fresh_state feedURL0)).2 = [Sleep 30; Sleep 30; Sleep 30]
  /\ printed
       (pollFeed ([offline; offline] ++ [serving feedURL0 (feed_of [g1; g2])])
          (fresh_state feedURL0)).2 = []
  /\ forall item, item ∈ [g1; g2] ->
       items
         (pollFeed ([offline; offline] ++ [serving feedURL0 (feed_of [g1; g2])])
            (fresh_state feedURL0)).1 !! getItemID item = Some true.
Proof.
  apply (first_successful_cycle_only_seeds [offline; offline]
           (serving feedURL0 (feed_of [g1; g2])) (feed_of [g1; g2])
           (fresh_state feedURL0)).
  - repeat constructor.
  - reflexivity.
Defined.

(** C2.  The identity of an item is a function of the item: its guid when
    the guid is not empty, and its link otherwise.  So an item without guid
    is identified by its link, and two items with different non-empty guids
    have different identities, whatever their links. *)
Theorem getItemID_guid_else_link (a b : Item) :
  (GUID a <> "" -> getItemID a = GUID a)
  /\ (GUID a = "" -> getItemID a = Link a)
  /\ (GUID a <> "" -> GUID b <> "" -> GUID a <> GUID b ->
      getItemID a <> getItemID b).
Proof.
  unfold getItemID. repeat split.
  - intros Ha. by rewrite (eqb_empty_false _ Ha).
  - by intros ->.
  - intros Ha Hb Hab. by rewrite (eqb_empty_false _ Ha), (eqb_empty_false _ Hb).
Qed.

Lemma getItemID_guid_else_link_witness :
  getItemID (mkItem "One" "https://example.com/same" "" "" "g1") = "g1"
  /\ getItemID (mkItem "Three" "https://example.com/three" "" "" "")
     = "https://example.com/three"
  /\ getItemID (mkItem "One" "https://example.com/same" "" "" "g1")
     <> getItemID (mkItem "Two" "https://example.com/same" "" "" "g2").
Proof.
  destruct (getItemID_guid_else_link
              (mkItem "One" "https://example.com/same" "" "" "g1")
              (mkItem "Two" "https://example.com/same" "" "" "g2"))
    as (Ha & _ & Hab).
  destruct (getItemID_guid_else_link
              (mkItem "Three" "https://example.com/three" "" "" "")
              (mkItem "Three" "https://example.com/three" "" "" ""))
    as (_ & Hc & _).
  split; [by apply Ha |]. split; [by apply Hc |].
  by apply Hab.
Defined.

(** C3.  Within the life of a poller an item whose identity is in the
    tracking state is not handed to [printItem] in any later cycle, whatever
    its other fields are; over any number of cycles no identity is printed
    twice; and a cycle on the document of the cycle before it prints
    nothing. *)
Theorem tracked_identity_is_never_printed :
  (forall (envs : list Env) (firstRun : bool) (state : FeedState) (item : Item),
      seen (items state) (getItemID item) = true ->
      item ∉ printed (pollFeed_loop envs firstRun state).2)
  /\ (forall (envs : list Env) (firstRun : bool) (state : FeedState),
         NoDup (getItemID <$> printed (pollFeed_loop envs firstRun state).2))
  /\ (forall (env1 env2 : Env) (feed : RSS) (firstRun : bool) (state : FeedState),
         fetchFeed env1 (url state) = Ok feed ->
         fetchFeed env2 (url state) = Ok feed ->
         let after := (pollFeed_cycle env1 firstRun state).1 in
         (pollFeed_cycle env2 after.1 after.2).2 = [Sleep 30]).
Proof.
  split; [| split].
  - intros envs fr st item Hseen Hin. apply loop_printed in Hin. congruence.
  - apply loop_printed_NoDup.
  - intros env1 env2 feed fr st H1 H2.
    rewrite (cycle_success _ _ _ _ H1). simpl.
    set (st1 := mkFeedState _ _).
    change (url st) with (url st1) in H2.
    rewrite (cycle_success _ _ _ _ H2). simpl.
    rewrite reconcile_known; [done|].
    intros item Hin. apply seen_true. subst st1. simpl.
    by apply reconcile_tracks.
Qed.

Lemma tracked_identity_is_never_printed_witness :
  (g1_edited ∉ printed
     (pollFeed_loop [serving feedURL0 (feed_of [g1_edited; g2])] false
        knows_g1).2)
  /\ (pollFeed_cycle (serving feedURL0 (feed_of [g1; g2]))
        (pollFeed_cycle (serving feedURL0 (feed_of [g1; g2])) true
           (fresh_state feedURL0)).1.1
        (pollFeed_cycle (serving feedURL0 (feed_of [g1; g2])) true
           (fresh_state feedURL0)).1.2).2
     = [Sleep 30].
Proof.
  destruct tracked_identity_is_never_printed as (Hnever & _ & Htwice).
  split.
  - apply Hnever. reflexivity.
  - apply (Htwice _ _ (feed_of [g1; g2])); reflexivity.
Defined.

(** C9.  A cycle whose fetch fails (the transport fails, the status is not
    a 2xx one, the body cannot be read) or whose document does not parse
    leaves the tracking state and the first-run flag as they were, prints
    nothing, sleeps 30 seconds, and the loop goes on with the next cycle
    from the same state. *)
Theorem failed_cycle_backs_off_and_goes_on
  (env : Env) (envs : list Env) (firstRun : bool) (state : FeedState) :
  FetchFailure env (url state) ->
  pollFeed_cycle env firstRun state = (firstRun, state, [Sleep 30])
  /\ pollFeed_loop (env :: envs) firstRun state
     = ((pollFeed_loop envs firstRun state).1,
        Sleep 30 :: (pollFeed_loop envs firstRun state).2).
Proof.
  intros [e He]%fetch_failure.
  pose proof (cycle_failure env firstRun state e He) as Hc.
  split; [done|]. rewrite loop_cons, Hc. done.
Qed.

Lemma failed_cycle_backs_off_and_goes_on_witness :
  pollFeed_cycle unavailable false knows_g1 = (false, knows_g1, [Sleep 30])
  /\ pollFeed_loop [unavailable; serving feedURL0 (feed_of [g1; g2])] false
       knows_g1
     = ((pollFeed_loop [serving feedURL0 (feed_of [g1; g2])] false
           knows_g1).1,
        Sleep 30
        :: (pollFeed_loop [serving feedURL0 (feed_of [g1; g2])] false
              knows_g1).2).
Proof.
  apply (failed_cycle_backs_off_and_goes_on unavailable
           [serving feedURL0 (feed_of [g1; g2])] false knows_g1).
  apply (status_not_2xx unavailable feedURL0
           (mkResponse "503 Service Unavailable" 503 (Ok ""))).
  - reflexivity.
  - simpl. lia.
Defined.

(** C10.  In one cycle the items handed to [printItem] have pairwise
    different identities: of the items of a document that share an identity
    at most one is printed.  The printed items come in the order of the
    document, each of them was unknown when the cycle began and is tracked
    when it ends. *)
Theorem one_cycle_prints_an_identity_once
  (env : Env) (firstRun : bool) (state : FeedState) :
  NoDup (getItemID <$> printed (pollFeed_cycle env firstRun state).2)
  /\ (forall feed, fetchFeed env (url state) = Ok feed ->
        sublist (printed (pollFeed_cycle env firstRun state).2)
          (Items (RSSChannel feed)))
  /\ (forall item, item ∈ printed (pollFeed_cycle env firstRun state).2 ->
        seen (items state) (getItemID item) = false
        /\ items (pollFeed_cycle env firstRun state).1.2 !! getItemID item
           = Some true).
Proof.
  split; [apply cycle_printed_NoDup |]. split; [| apply cycle_printed].
  intros feed Hf. rewrite (cycle_success _ _ _ _ Hf). simpl.
  rewrite printed_app, app_nil_r. apply reconcile_printed_sublist.
Qed.

Lemma one_cycle_prints_an_identity_once_witness :
  printed (pollFeed_cycle
             (serving feedURL0 (feed_of [g1; g2; g2_again; g2])) false
             knows_g1).2 = [g2]
  /\ sublist
       (printed (pollFeed_cycle
                   (serving feedURL0 (feed_of [g1; g2; g2_again; g2])) false
                   knows_g1).2)
       [g1; g2; g2_again; g2].
Proof.
  split; [reflexivity |].
  destruct (one_cycle_prints_an_identity_once
              (serving feedURL0 (feed_of [g1; g2; g2_again; g2])) false
              knows_g1) as (_ & Hsub & _).
  apply (Hsub (feed_of [g1; g2; g2_again; g2])). reflexivity.
Defined.

(** ** Claims on the relevance step *)




Lemma prefix_app (p s : string) : String.prefix p (p ++ s) = true.
Proof.
  induction p as [|c p IH]; simpl; [by destruct s |].
  destruct (ascii_dec c c); [done | congruence].
Qed.




(** When the rest of a [RELEVANT:] response is empty once trimmed,
    [processWithOpenAI] returns the empty string as the content, and
    [printItem], which prints the first field that is not empty, prints the
    description. *)
Remark empty_relevant_response_prints_description :
  processWithOpenAI (answering "RELEVANT:  ") "Hello world!" "rocq"
  = ("", true)
  /\ printItem (answering "RELEVANT:  ") (mkConfig false false 10000 "rocq")
       feedURL0 hello "Channel" = Some ("Hello world!" ++ LF ++ LF).
Proof. split; reflexivity. Qed.

(** ** Claims on the character sets *)

Lemma ToLower_ascii (unicode_lower : string -> string) (s : string) :
  GoStrings.isASCII s = true ->
  GoStrings.ToLower unicode_lower s = GoStrings.lower_ascii s.
Proof. unfold GoStrings.ToLower. by intros ->. Qed.

(** C5.  [charsetReader] decides on the lowered label alone, so that two
    labels that differ in case only are treated alike.  For the labels
    [utf-8] and the empty one it returns the stream it was given; for a
    label of the allow-list it returns a reader that decodes with the
    character map of that label; for any other label it returns an error
    that names the label, lowered, and no reader. *)
Theorem charsetReader_knows_its_allow_list
  (env : Env) (charset : string) (input : Reader) :
  let label := GoStrings.ToLower (unicode_lower env) charset in
  (GoStrings.isASCII charset = true -> label = GoStrings.lower_ascii charset)
  /\ (forall charset',
         GoStrings.ToLower (unicode_lower env) charset' = label ->
         charsetReader env charset' input = charsetReader env charset input)
  /\ (label ∈ ["utf-8"; ""] -> charsetReader env charset input = Ok input)
  /\ (forall cm, (label, cm) ∈ allow_list ->
         charsetReader env charset input = Ok (NewReader input cm))
  /\ (label ∉ ["utf-8"; ""] -> label ∉ allow_list.*1 ->
      charsetReader env charset input = Err ("unsupported charset: " ++ label)).
Proof.
  intros label. split; [apply ToLower_ascii |].
  split; [| split; [| split]].
  - intros charset' Heq. unfold charsetReader. by rewrite Heq.
  - intros Hin. unfold charsetReader. fold label.
    by rewrite bool_decide_eq_true_2.
  - intros cm Hin. unfold charsetReader. fold label.
    unfold allow_list in Hin.
    repeat (apply elem_of_cons in Hin as [Heq | Hin];
            [injection Heq as -> ->; reflexivity |]).
    by apply elem_of_nil in Hin.
  - intros Hutf Hlist. unfold charsetReader. fold label.
    rewrite bool_decide_eq_false_2 by done.
    simpl in Hlist.
    repeat (apply not_elem_of_cons in Hlist as [? Hlist]).
    repeat (rewrite bool_decide_eq_false_2;
            [| repeat (apply not_elem_of_cons; split; [done |]);
               apply not_elem_of_nil]).
    done.
Qed.

Lemma charsetReader_knows_its_allow_list_witness :
  charsetReader offline "Windows-1251" (Stream "x")
  = charsetReader offline "WINDOWS-1251" (Stream "x")
  /\ charsetReader offline "UTF-8" (Stream "x") = Ok (Stream "x")
  /\ charsetReader offline "KOI8-R" (Stream "x")
     = Ok (NewReader (Stream "x") KOI8R)
  /\ charsetReader offline "Shift_JIS" (Stream "x")
     = Err "unsupported charset: shift_jis".
Proof.
  split; [| split; [| split]].
  - destruct (charsetReader_knows_its_allow_list offline "WINDOWS-1251"
                (Stream "x")) as (_ & Hsame & _).
    apply Hsame. reflexivity.
  - destruct (charsetReader_knows_its_allow_list offline "UTF-8"
                (Stream "x")) as (_ & _ & Hutf & _).
    apply Hutf. vm_compute. by left.
  - destruct (charsetReader_knows_its_allow_list offline "KOI8-R"
                (Stream "x")) as (_ & _ & _ & Hallow & _).
    apply Hallow. vm_compute. do 10 right. by left.
  - destruct (charsetReader_knows_its_allow_list offline "Shift_JIS"
                (Stream "x")) as (_ & _ & _ & _ & Hother).
    apply Hother; unfold allow_list, GoStrings.ToLower; simpl; not_listed.
Defined.

(** ** Claims on the extracted text *)

Lemma len_app (s t : string) : len (s ++ t) = (len s + len t)%Z.
Proof. unfold len. rewrite length_app_string. lia. Qed.

Lemma prefix_take_string (n : nat) (s : string) :
  String.prefix (take_string n s) s = true.
Proof.
  revert s; induction n as [|n IH]; intros [|c s]; simpl; try done.
  destruct (ascii_dec c c); [apply IH | congruence].
Qed.

Lemma cut_to_maxLength_CutTo (cfg : Config) (text : string) :
  (0 <= maxLength cfg)%Z ->
  exists out,
    cut_to_maxLength cfg text = Some out /\ CutTo (maxLength cfg) text out.
Proof.
  intros Hpos. unfold cut_to_maxLength, slice_to.
  destruct (Z.ltb_spec (maxLength cfg) (len text)) as [Hlong | Hshort].
  - replace ((0 <=? maxLength cfg)%Z && (maxLength cfg <=? len text)%Z)
      with true by (symmetry; apply andb_true_iff; lia).
    eexists. split; [done|].
    apply (cut_long _ _ _ (drop_string (Z.to_nat (maxLength cfg)) text));
      [apply take_drop_string | | done].
    unfold len in *. rewrite length_take_string; lia.
  - exists text. split; [done | by constructor].
Qed.

(** C6.  With a maximum length that is not negative, both ways of
    extracting cut a text longer than the maximum to its first [maxLength]
    bytes followed by three periods, and return a text that is not longer
    as it is: [extractMainText] for the text it gets out of a page, also
    when [extractContent] reaches it without a credential, and
    [extractContent] for the text of the first article that the extraction
    service returns. *)
Theorem long_text_is_cut_to_maxLength (env : Env) (cfg : Config) :
  (0 <= maxLength cfg)%Z ->
  (forall html, exists out,
      extractMainText cfg html = Some out
      /\ CutTo (maxLength cfg) (mainText html) out)
  /\ (forall link httpClient resp body,
         Getenv env "DIFFBOT_TOKEN" = "" ->
         httpClient link = Ok resp -> StatusCode resp = 200%Z ->
         Body resp = Ok body ->
         exists out,
           extractContent env cfg link (Some httpClient) = Some out
           /\ CutTo (maxLength cfg) (mainText body) out)
  /\ (forall link httpClient article,
         Extracts env link httpClient article ->
         exists out,
           extractContent env cfg link (Some httpClient) = Some out
           /\ CutTo (maxLength cfg) (Text article) out)
  /\ (forall text out,
         CutTo (maxLength cfg) text out ->
         ((maxLength cfg < len text)%Z ->
          len out = (maxLength cfg + 3)%Z
          /\ exists head,
               out = head ++ "..." /\ len head = maxLength cfg
               /\ String.prefix head text = true)
         /\ ((len text <= maxLength cfg)%Z -> out = text)).
Proof.
  intros Hpos. split; [| split; [| split]].
  - intros html. by apply cut_to_maxLength_CutTo.
  - intros link httpClient resp body Htoken Hget Hstatus Hbody.
    unfold extractContent, extractBasicContent. simpl.
    rewrite Htoken, Hget, Hstatus, Hbody. simpl.
    by apply cut_to_maxLength_CutTo.
  - intros link httpClient article
      [resp body diffbotResp others Htoken Hget Hstatus Hbody Hjson Hobj].
    unfold extractContent. simpl.
    rewrite (eqb_empty_false _ Htoken), Hget, Hstatus. simpl.
    rewrite Hbody, Hjson, Hobj.
    by apply cut_to_maxLength_CutTo.
  - intros text out [head tail -> Hlen Hlong | Hshort]; split; try lia.
    + intros _. split; [rewrite len_app, Hlen; done |].
      exists head. split; [done|]. split; [done|]. apply prefix_app.
    + done.
Qed.

Lemma long_text_is_cut_to_maxLength_witness :
  exists out,
    extractContent (extracting "abcdefghij") (mkConfig false false 4 "")
      "https://example.com/a" (Some (client (extracting "abcdefghij")))
    = Some out
    /\ CutTo 4 "abcdefghij" out.
Proof.
  destruct (long_text_is_cut_to_maxLength (extracting "abcdefghij")
              (mkConfig false false 4 ""))
    as (_ & _ & Hremote & _); [simpl; lia |].
  apply (Hremote "https://example.com/a" (client (extracting "abcdefghij"))
           (mkDiffbotArticle "" "abcdefghij" "" "")).
  by apply (extracts _ _ _ _ (mkResponse "200 OK" 200 (Ok "{}")) "{}"
              {| Objects := [ mkDiffbotArticle "" "abcdefghij" "" "" ] |} []).
Defined.

(** With a negative maximum length the slice [text[:maxLength]] is out of
    range for every text, and the Go code panics. *)
Remark negative_maxLength_panics :
  extractMainText (mkConfig false false (-1) "") "<p>Hello</p>" = None.
Proof. reflexivity. Qed.

(** C6, as it is written, fails.  A text of two characters is within a
    maximum of three, and yet it is cut, in the middle of its second
    character, on both paths: its length is taken in bytes, and it has
    four.  And with the maximum -1, which [main] takes from the command
    line as any other number, a text that is longer than the maximum is
    not cut to anything: the call panics. *)
Lemma text_of_two_characters_is_cut_at_three :
  mainText two_e_acute = two_e_acute
  /\ (characters two_e_acute <= 3)%Z
  /\ extractMainText (mkConfig false false 3 "") two_e_acute
     = Some (bytes [195; 169; 195] ++ "...")
  /\ extractMainText (mkConfig false false 3 "") two_e_acute
     <> Some two_e_acute
  /\ extractContent (extracting two_e_acute) (mkConfig false false 3 "")
       "https://example.com/a" (Some (client (extracting two_e_acute)))
     = Some (bytes [195; 169; 195] ++ "...")
  /\ extractContent (extracting two_e_acute) (mkConfig false false 3 "")
       "https://example.com/a" (Some (client (extracting two_e_acute)))
     <> Some two_e_acute
  /\ (-1 < characters (mainText "<p>Hello</p>"))%Z
  /\ extractMainText (mkConfig false false (-1) "") "<p>Hello</p>" = None.
Proof.
  split; [reflexivity |]. split; [by vm_compute |]. split; [reflexivity |].
  split; [discriminate |]. split; [reflexivity |]. split; [discriminate |].
  split; [reflexivity | reflexivity].
Qed.

(** ** Claims on the dates *)

Lemma utod_cases (d : Z) :
  (0 <= d <= 9)%Z ->
  GoTime.utod d ∈ ["0"; "1"; "2"; "3"; "4"; "5"; "6"; "7"; "8"; "9"]%char.
Proof.
  intros Hd.
  assert (d = 0 \/ d = 1 \/ d = 2 \/ d = 3 \/ d = 4 \/ d = 5 \/ d = 6
          \/ d = 7 \/ d = 8 \/ d = 9)%Z as Hcases by lia.
  repeat (destruct Hcases as [-> | Hcases];
          [apply (bool_decide_unpack _); reflexivity |]).
  rewrite Hcases. apply (bool_decide_unpack _). reflexivity.
Qed.

Lemma utod_is_digit (d : Z) :
  (0 <= d <= 9)%Z -> GoTime.is_digit (GoTime.utod d) = true.
Proof.
  intros Hd%utod_cases.
  repeat (apply elem_of_cons in Hd as [-> | Hd]; [reflexivity |]).
  by apply elem_of_nil in Hd.
Qed.

(** Numbers of one or two digits are written with two. *)
Lemma appendInt_two_digits (x : Z) :
  (0 <= x < 100)%Z ->
  GoTime.appendInt x 2
  = String (GoTime.utod (x / 10)) (String (GoTime.utod (x mod 10)) "").
Proof.
  intros Hx. unfold GoTime.appendInt.
  replace (x <? 0)%Z with false by (symmetry; apply Z.ltb_ge; lia).
  rewrite Z.abs_eq by lia.
  replace (x <? 100)%Z with true by (symmetry; apply Z.ltb_lt; lia).
  reflexivity.
Qed.

(** Years from 0 to 9999 are written with four digits. *)
Lemma appendInt_four_digits (x : Z) :
  (0 <= x < 10000)%Z ->
  GoTime.appendInt x 4
  = String (GoTime.utod (x / 1000))
      (String (GoTime.utod (x / 100 mod 10))
         (String (GoTime.utod (x / 10 mod 10))
            (String (GoTime.utod (x mod 10)) ""))).
Proof.
  intros Hx. unfold GoTime.appendInt.
  replace (x <? 0)%Z with false by (symmetry; apply Z.ltb_ge; lia).
  rewrite Z.abs_eq by lia.
  replace (x <? 10000)%Z with true by (symmetry; apply Z.ltb_lt; lia).
  reflexivity.
Qed.

Lemma length_zeros (n : nat) : String.length (GoTime.zeros n) = n.
Proof. induction n as [|n IH]; simpl; [done | by rewrite IH]. Qed.

(** No number is written with fewer digits than asked for. *)
Lemma appendInt_length (x : Z) (width : nat) :
  (width = 2 \/ width = 4)%nat ->
  (width <= String.length (GoTime.appendInt x width))%nat.
Proof.
  intros Hw. unfold GoTime.appendInt. rewrite length_app_string.
  destruct Hw as [-> | ->]; simpl.
  - destruct (Z.abs x <? 100)%Z; simpl; [lia |].
    rewrite length_app_string, length_zeros. lia.
  - destruct (Z.abs x <? 10000)%Z; simpl; [lia |].
    rewrite length_app_string, length_zeros. lia.
Qed.

(** The day of the year that [civil] finds lies in the year. *)
Lemma day_of_year_bounds (doe : Z) :
  (0 <= doe < 146097)%Z ->
  let yoe := ((doe - doe / 1460 + doe / 36524 - doe / 146096) / 365)%Z in
  (0 <= doe - (365 * yoe + yoe / 4 - yoe / 100) <= 365)%Z.
Proof. intros Hdoe yoe. subst yoe. Z.div_mod_to_equations. lia. Qed.

(** Every day has a month from 1 to 12 and a day of the month from 1 to
    31. *)
Lemma civil_bounds (days : Z) :
  (1 <= (GoTime.civil days).1.2 <= 12)%Z
  /\ (1 <= (GoTime.civil days).2 <= 31)%Z.
Proof.
  unfold GoTime.civil.
  set (z := (days + 719468)%Z). set (era := (z / 146097)%Z).
  set (doe := (z - era * 146097)%Z).
  assert (0 <= doe < 146097)%Z as Hdoe.
  { subst doe era. pose proof (Z.mod_pos_bound z 146097 ltac:(lia)) as H.
    rewrite Z.mod_eq in H by lia. lia. }
  pose proof (day_of_year_bounds doe Hdoe) as Hdoy. cbv zeta in Hdoy.
  set (yoe := ((doe - doe / 1460 + doe / 36524 - doe / 146096) / 365)%Z) in *.
  set (doy := (doe - (365 * yoe + yoe / 4 - yoe / 100))%Z) in *.
  clearbody doy. clear -Hdoy. simpl.
  destruct (Z.ltb_spec ((5 * doy + 2) / 153) 10);
    split; Z.div_mod_to_equations; lia.
Qed.

(** What [Format] writes: the day and the month with two digits each, and
    the year with four digits when it has no more and is not negative. *)
Lemma Format_shape (t : GoTime.Time) :
  exists d1 d2 m1 m2,
    GoTime.Format_DD_MM_YYYY t
    = String d1 (String d2 (String "-" (String m1 (String m2 (String "-"
        (GoTime.appendInt (GoTime.date t).1.1 4))))))
    /\ Forall (fun c =>
                 c ∈ ["0"; "1"; "2"; "3"; "4"; "5"; "6"; "7"; "8"; "9"]%char)
         [d1; d2; m1; m2].
Proof.
  unfold GoTime.Format_DD_MM_YYYY, GoTime.date.
  pose proof (civil_bounds
                ((GoTime.unixSec t
                  + (GoTime.lookup (GoTime.loc t) (GoTime.unixSec t)).2)
                 / 86400)) as [Hm Hd].
  destruct (GoTime.civil _) as [[year month] day]. simpl in *.
  rewrite !appendInt_two_digits by lia.
  eexists _, _, _, _. split; [reflexivity |].
  repeat (apply Forall_cons_2;
          [apply utod_cases; Z.div_mod_to_equations; lia |]).
  apply Forall_nil_2.
Qed.

Lemma Format_nonempty (t : GoTime.Time) : GoTime.Format_DD_MM_YYYY t <> "".
Proof. destruct (Format_shape t) as (d1 & d2 & m1 & m2 & -> & _). done. Qed.

Lemma parseDate_loop_first (env : Env) (before after : list GoTime.layout)
  (layout : GoTime.layout) (pubDate : string) (t : GoTime.Time) :
  Forall (fun l => GoTime.Parse (time_Local env) l pubDate = None) before ->
  GoTime.Parse (time_Local env) layout pubDate = Some t ->
  parseDate_loop env (before ++ layout :: after) pubDate
  = GoTime.Format_DD_MM_YYYY t.
Proof.
  intros Hbefore Hparse.
  induction Hbefore as [|l before Hl _ IH]; simpl.
  - by rewrite Hparse.
  - by rewrite Hl.
Qed.

Lemma parseDate_loop_none (env : Env) (ls : list GoTime.layout)
  (pubDate : string) :
  Forall (fun l => GoTime.Parse (time_Local env) l pubDate = None) ls ->
  parseDate_loop env ls pubDate = pubDate.
Proof.
  induction 1 as [|l ls Hl _ IH]; simpl; [done|]. by rewrite Hl.
Qed.

(** The example of the claim, for any local zone: half past ten is 37800
    seconds into the day. *)
Lemma parseDate_example (env : Env) :
  (-37800 <= moved_by (time_Local env) "GMT" 1678876200 < 48600)%Z ->
  parseDate env "Mon, 15 Mar 2023 10:30:00 GMT" = "15-03-2023".
Proof.
  unfold moved_by. intros Hzone.
  change (parseDate env "Mon, 15 Mar 2023 10:30:00 GMT")
    with (GoTime.Format_DD_MM_YYYY
            (GoTime.resolve (time_Local env)
               (GoTime.mkFields 2023 3 15 10 30 0 false (-1) "GMT"))).
  unfold GoTime.resolve. cbn [GoTime.zUTC GoTime.zoneOffset GoTime.zoneName].
  change (GoTime.unixSec (GoTime.Date _ _ _ _ _ _)) with 1678876200%Z.
  cbn [negb Z.eqb Pos.eqb String.eqb Ascii.eqb Bool.eqb andb orb].
  destruct (GoTime.lookupName (time_Local env) "GMT" 1678876200)
    as [offset |]; [| reflexivity].
  unfold GoTime.Format_DD_MM_YYYY, GoTime.date.
  cbn [GoTime.unixSec GoTime.loc].
  replace ((1678876200 - offset
            + (GoTime.lookup (time_Local env) (1678876200 - offset)).2)
           / 86400)%Z with 19431%Z; [reflexivity |].
  apply Z.div_unique with
    (r := (37800 + ((GoTime.lookup (time_Local env) (1678876200 - offset)).2
                    - offset))%Z); lia.
Qed.

(** C8.  [parseDate] maps [Mon, 15 Mar 2023 10:30:00 GMT] to [15-03-2023],
    in every local zone that does not move a time read with [GMT] out of
    its day: one that has no zone of that name, as UTC, or one that has and
    shows that instant less than ten and a half hours earlier and less
    than thirteen and a half hours later.  It tries nine layouts in a fixed order, and the first one that
    parses the string decides: the result is the date of the time that
    layout reads, as [Format] writes it, the day and the month with two
    digits each and the year with four when it is one from 0 to 9999, with
    dashes between.  A string that no layout parses is returned as it is,
    and the empty string gives the empty string. *)
Theorem parseDate_tries_layouts_in_order (env : Env) :
  ((-37800 <= moved_by (time_Local env) "GMT" 1678876200 < 48600)%Z ->
   parseDate env "Mon, 15 Mar 2023 10:30:00 GMT" = "15-03-2023")
  /\ GoTime.layout_text <$> layouts
     = [ "Mon, 02 Jan 2006 15:04:05 MST"; "Mon, 02 Jan 2006 15:04:05 -0700";
         "02 Jan 06 15:04 MST"; "02 Jan 06 15:04 -0700";
         "2006-01-02T15:04:05Z07:00"; "2006-01-02T15:04:05Z";
         "2006-01-02 15:04:05"; "Mon, 2 Jan 2006 15:04:05 MST";
         "Mon, 2 Jan 2006 15:04:05 -0700" ]
  /\ (forall pubDate before layout after t,
         pubDate <> "" ->
         layouts = (before ++ layout :: after)%list ->
         Forall (fun l => GoTime.Parse (time_Local env) l pubDate = None)
           before ->
         GoTime.Parse (time_Local env) layout pubDate = Some t ->
         parseDate env pubDate = GoTime.Format_DD_MM_YYYY t)
  /\ (forall t, exists dd mm yyyy,
         GoTime.Format_DD_MM_YYYY t = dd ++ "-" ++ mm ++ "-" ++ yyyy
         /\ String.length dd = 2%nat /\ String.length mm = 2%nat
         /\ all_digits (dd ++ mm) = true
         /\ yyyy = GoTime.appendInt (GoTime.date t).1.1 4
         /\ ((0 <= (GoTime.date t).1.1 <= 9999)%Z ->
             String.length yyyy = 4%nat /\ all_digits yyyy = true))
  /\ (forall pubDate,
         Forall (fun l => GoTime.Parse (time_Local env) l pubDate = None)
           layouts ->
         parseDate env pubDate = pubDate)
  /\ parseDate env "" = "".
Proof.
  split; [apply parseDate_example |]. split; [by vm_compute |].
  split; [| split; [| split; [| done]]].
  - intros pubDate before layout after t Hne Hlayouts Hbefore Hparse.
    unfold parseDate. rewrite (eqb_empty_false _ Hne), Hlayouts.
    by apply parseDate_loop_first.
  - intros t. destruct (Format_shape t) as (d1 & d2 & m1 & m2 & -> & Hdigits).
    exists (String d1 (String d2 "")), (String m1 (String m2 "")),
      (GoTime.appendInt (GoTime.date t).1.1 4).
    split; [done |]. split; [done |]. split; [done |].
    apply Forall_cons in Hdigits as [H1 Hdigits].
    apply Forall_cons in Hdigits as [H2 Hdigits].
    apply Forall_cons in Hdigits as [H3 Hdigits].
    apply Forall_cons in Hdigits as [H4 _].
    split.
    { simpl. apply andb_true_iff. split; [| apply andb_true_iff; split;
        [| apply andb_true_iff; split; [| apply andb_true_iff; split;
                                            [| done]]]].
      all: match goal with
           | H : ?c ∈ _ |- GoTime.is_digit ?c = true =>
               clear -H;
               repeat (apply elem_of_cons in H as [-> | H]; [reflexivity |]);
               by apply elem_of_nil in H
           end. }
    split; [done |]. generalize (GoTime.date t).1.1. intros year Hyear.
    rewrite appendInt_four_digits by lia. split; [done |].
    cbn [all_digits].
    rewrite !utod_is_digit; [done | | | |]; clear -Hyear;
      Z.div_mod_to_equations; lia.
  - intros pubDate Hnone. unfold parseDate.
    destruct (String.eqb_spec pubDate "") as [-> | _]; [done|].
    by apply parseDate_loop_none.
Qed.

Lemma parseDate_tries_layouts_in_order_witness :
  parseDate offline "Mon, 15 Mar 2023 10:30:00 GMT" = "15-03-2023"
  /\ parseDate offline "Thu, 1 Jan 2015 00:00:00 GMT" = "01-01-2015"
  /\ parseDate offline "not a valid date" = "not a valid date".
Proof.
  destruct (parseDate_tries_layouts_in_order offline)
    as (Hexample & _ & Hfirst & _ & Hnone & _).
  split; [apply Hexample; unfold moved_by; simpl; lia |]. split.
  - apply (Hfirst "Thu, 1 Jan 2015 00:00:00 GMT"
             [ GoTime.RFC1123; GoTime.RFC1123Z; GoTime.RFC822; GoTime.RFC822Z;
               GoTime.layoutISOZone; GoTime.layoutISOZulu; GoTime.layoutSQL ]
             GoTime.layoutShortDayTZ [ GoTime.layoutShortDayNum ]
             (GoTime.mkTime 1420070400 (GoTime.FixedZone "GMT" 0))).
    + discriminate.
    + reflexivity.
    + repeat constructor.
    + reflexivity.
  - apply Hnone. repeat constructor.
Defined.

(** A zone [GMT+h] that the local zone does not know makes [time.Parse]
    take the wall clock for UTC and show it [h] hours later: half an hour
    before midnight becomes the next day, and on the last day of the year
    9999 a year of five digits. *)
Remark zone_GMT_plus_shifts_the_date :
  parseDate offline "Wed, 15 Mar 2023 23:30:00 GMT+1" = "16-03-2023"
  /\ parseDate offline "Wed, 15 Mar 2023 00:30:00 GMT-1" = "14-03-2023"
  /\ parseDate offline "Fri, 31 Dec 9999 23:30:00 GMT+1" = "01-01-10000".
Proof. by vm_compute. Qed.

(** An abbreviation the local zone knows is read in the local zone, and the
    date is the one the local zone then shows: in London a time read with
    [GMT] in July shows an hour later, and one read with [BST] in January
    an hour earlier. *)
Remark local_zone_reads_its_abbreviations :
  parseDate (in_zone london_2023 offline) "Mon, 15 Mar 2023 10:30:00 GMT"
  = "15-03-2023"
  /\ parseDate (in_zone london_2023 offline) "Sat, 15 Jul 2023 23:30:00 GMT"
     = "16-07-2023"
  /\ parseDate (in_zone london_2023 offline) "Sun, 15 Jan 2023 00:30:00 BST"
     = "14-01-2023"
  /\ parseDate (in_zone london_2023 offline) "Sat, 15 Jul 2023 23:30:00 BST"
     = "15-07-2023".
Proof. by vm_compute. Qed.

(** ** Claims on the compact layout *)

Lemma app_assoc_string (a b c : string) : (a ++ b) ++ c = a ++ b ++ c.
Proof.
  induction a as [|x a IH]; [done|].
  change (String x ((a ++ b) ++ c) = String x (a ++ b ++ c)). by rewrite IH.
Qed.

Lemma put_closes (line : string * bool) (name : string) :
  let line' := put line ("[" ++ name ++ "]") in
  snd line' = true
  /\ fst line' ++ LF ++ LF
     = (fst line ++ (if snd line then " " else ""))
       ++ "[" ++ name ++ "]" ++ LF ++ LF.
Proof.
  destruct line as [out hasContent]. simpl. split; [done|].
  rewrite <- !app_assoc_string. done.
Qed.

Lemma word_count_single_spaced (in_word : bool) (s : string) :
  single_spaced_from in_word s = true ->
  word_count_from in_word s
  = (GoStrings.CountByte s " " + (if in_word then 0 else 1))%Z.
Proof.
  revert in_word; induction s as [|c s IH]; intros in_word; simpl.
  { by intros ->. }
  destruct (Ascii.eqb c " ").
  - intros [-> Hs]%andb_true_iff. rewrite (IH false Hs). lia.
  - intros Hs. rewrite (IH true Hs). lia.
Qed.

(** C7, as the code has it.  In the compact layout with the channel name
    asked for, an entry that is printed for a channel with a title ends in
    a bracketed name and an empty line.  The name is the host name of the
    feed URL when the title holds more than two spaces, and the title
    otherwise; for a title whose words are separated by single spaces that
    is: the host name for more than three words. *)
Theorem compact_line_names_host_beyond_two_spaces
  (env : Env) (cfg : Config) (feedURL : string) (item : Item)
  (channelTitle out : string) :
  fullOutput cfg = false -> authored cfg = true -> channelTitle <> "" ->
  printItem env cfg feedURL item channelTitle = Some out ->
  out <> "" ->
  (exists line,
      out = line ++ "["
            ++ (if (2 <? GoStrings.CountByte channelTitle " ")%Z
                then hostname env feedURL else channelTitle)
            ++ "]" ++ LF ++ LF)
  /\ (single_spaced channelTitle = true ->
      (2 <? GoStrings.CountByte channelTitle " ")%Z
      = (3 <? word_count channelTitle)%Z).
Proof.
  intros Hfull Hauth Htitle Hprint Hout. split.
  - unfold printItem in Hprint. rewrite Hfull, Hauth in Hprint.
    apply nonempty_true in Htitle. rewrite Htitle in Hprint.
    destruct (webContentOf env cfg item) as [webContent|]; [| done].
    simpl in Hprint.
    match type of Hprint with
    | (let '(_, _) := ?c in _) = _ =>
        destruct c as [processedContent [|]]; simpl in Hprint
    end; [| congruence].
    match type of Hprint with
    | context [put ?l ("[" ++ _ ++ "]")] => set (line := l) in Hprint
    end.
    destruct (put_closes line (displayName env feedURL channelTitle))
      as [Hhas Hline].
    rewrite Hhas, Hline in Hprint. injection Hprint as <-.
    eexists. reflexivity.
  - intros Hs. unfold word_count.
    rewrite (word_count_single_spaced false _ Hs).
    destruct (Z.ltb_spec 2 (GoStrings.CountByte channelTitle " "));
      symmetry; [apply Z.ltb_lt | apply Z.ltb_ge]; lia.
Qed.

Lemma compact_line_names_host_beyond_two_spaces_witness :
  exists line,
    "Hello world! [example.com]" ++ LF ++ LF
    = line ++ "["
      ++ (if (2 <? GoStrings.CountByte "The Daily Tech News" " ")%Z
          then hostname (serving feedURL0 (feed_of [])) feedURL0
          else "The Daily Tech News")
      ++ "]" ++ LF ++ LF.
Proof.
  destruct (compact_line_names_host_beyond_two_spaces
              (serving feedURL0 (feed_of [])) compact_authored feedURL0 hello
              "The Daily Tech News"
              ("Hello world! [example.com]" ++ LF ++ LF)) as [Hline _].
  - reflexivity.
  - reflexivity.
  - discriminate.
  - reflexivity.
  - discriminate.
  - exact Hline.
Defined.

(** C7, as the specification has it, fails: the title [Daily Tech News] has
    three words, which is more than two, and the compact line still ends in
    the title, not in the host name [example.com] of the feed URL. *)
Lemma three_word_title_is_kept :
  word_count "Daily Tech News" = 3%Z
  /\ hostname (serving feedURL0 (feed_of [])) feedURL0 = "example.com"
  /\ displayName_by_words (serving feedURL0 (feed_of [])) feedURL0
       "Daily Tech News" = "example.com"
  /\ printItem (serving feedURL0 (feed_of [])) compact_authored feedURL0 hello
       "Daily Tech News"
     = Some ("Hello world! [Daily Tech News]" ++ LF ++ LF)
  /\ printItem (serving feedURL0 (feed_of [])) compact_authored feedURL0 hello
       "Daily Tech News"
     <> Some ("Hello world! ["
              ++ displayName_by_words (serving feedURL0 (feed_of [])) feedURL0
                   "Daily Tech News"
              ++ "]" ++ LF ++ LF).
Proof.
  repeat split; try reflexivity. vm_compute. discriminate.
Qed.

(** ** The tests of the repository, replayed *)

Example TestStripRemovesHTMLTags :
  strip "<p>Hello <b>world</b>!</p>" = "Hello world!".
Proof. reflexivity. Qed.

Example TestStripHandlesSelfClosingTags :
  strip "Text with <br/> line break" = "Text with  line break".
Proof. reflexivity. Qed.

Example TestParseDateWithVariousFormats :
  parseDate offline <$> [ "Mon, 15 Mar 2023 10:30:00 GMT";
                  "Wed, 31 Dec 2025 23:59:59 +0000";
                  "2023-06-15T14:30:00Z";
                  "2023-06-15T14:30:00+02:00";
                  "2023-06-15 14:30:00";
                  "Thu, 1 Jan 2015 00:00:00 GMT";
                  "02 Jan 06 15:04 MST" ]
  = [ "15-03-2023"; "31-12-2025"; "15-06-2023"; "15-06-2023"; "15-06-2023";
      "01-01-2015"; "02-01-2006" ].
Proof. by vm_compute. Qed.

Example TestExtractMainTextExtractsArticleContent :
  extractMainText (mkConfig false false 2000 "")
    "<html><body><nav>Navigation</nav><article>Article content here</article><footer>Footer</footer></body></html>"
  = Some "Article content here".
Proof. by vm_compute. Qed.

Example TestExtractMainTextExtractsMainContent :
  extractMainText (mkConfig false false 2000 "")
    "<html><body><header>Header</header><main>Main content</main><footer>Footer</footer></body></html>"
  = Some "Main content".
Proof. by vm_compute. Qed.

Example TestExtractMainTextRemovesScripts :
  extractMainText (mkConfig false false 2000 "")
    "<html><body><p>Content</p><script>alert('test');</script></body></html>"
  = Some "Content".
Proof. by vm_compute. Qed.

Example TestExtractContentWithDiffbotToken :
  extractContent (extracting "This is extracted content from Diffbot.")
    (mkConfig false false 2000 "") "https://example.com/article" None
  = Some "This is extracted content from Diffbot.".
Proof. by vm_compute. Qed.

Example TestCharsetReaderCaseInsensitive :
  Forall (fun charset =>
            charsetReader offline charset (Stream "test")
            = Ok (NewReader (Stream "test") Windows1251))
    [ "WINDOWS-1251"; "Windows-1251"; "windows-1251"; "CP1251"; "cp1251" ].
Proof. repeat constructor. Qed.

(** * Further properties *)

(** ** Texts within the maximum *)

Lemma len_nonneg (s : string) : (0 <= len s)%Z.
Proof. unfold len. lia. Qed.

Lemma cut_to_maxLength_bound (cfg : Config) (text : string) :
  (0 <= maxLength cfg)%Z ->
  exists out,
    cut_to_maxLength cfg text = Some out
    /\ (len out <= maxLength cfg + 3)%Z.
Proof.
  intros Hpos.
  destruct (cut_to_maxLength_CutTo cfg text Hpos) as (out & Hout & Hcut).
  exists out. split; [done |].
  destruct Hcut as [head tail -> Hlen Hlong | Hshort].
  - rewrite len_app, Hlen. done.
  - lia.
Qed.

Lemma extractBasicContent_bound (cfg : Config) (link : string)
  (httpClient : HTTPClient) :
  (0 <= maxLength cfg)%Z ->
  exists out,
    extractBasicContent cfg link httpClient = Some out
    /\ (len out <= maxLength cfg + 3)%Z.
Proof.
  intros Hpos. unfold extractBasicContent, extractMainText.
  assert (exists out, Some "" = Some out /\ (len out <= maxLength cfg + 3)%Z)
    as Hempty by (exists ""; split; [done | unfold len; simpl; lia]).
  destruct (httpClient link) as [resp | e]; [| done].
  destruct (negb _); [done |].
  destruct (Body resp) as [body | e]; [| done].
  by apply cut_to_maxLength_bound.
Qed.

Lemma extractContent_bound (env : Env) (cfg : Config) (link : string)
  (httpClient : option HTTPClient) :
  (0 <= maxLength cfg)%Z ->
  exists out,
    extractContent env cfg link httpClient = Some out
    /\ (len out <= maxLength cfg + 3)%Z.
Proof.
  intros Hpos. unfold extractContent.
  pose proof (extractBasicContent_bound cfg link
                (default (client env) httpClient) Hpos) as Hbasic.
  destruct (String.eqb _ ""); [done |].
  destruct (default (client env) httpClient _) as [resp | e]; [| done].
  destruct (negb _); [done |].
  destruct (Body resp) as [body | e]; [| done].
  destruct (json_Unmarshal_Diffbot env body) as [diffbotResp | e]; [| done].
  destruct (Objects diffbotResp) as [| article others]; [done |].
  by apply cut_to_maxLength_bound.
Qed.

(** ** The poller over its life *)

Lemma reconcile_tracked_only (firstRun : bool) (feedURL channelTitle : string)
  (its : list Item) (m : gmap string bool) (id : string) :
  seen (reconcile firstRun feedURL channelTitle its m).1 id = true ->
  seen m id = true \/ id ∈ getItemID <$> its.
Proof.
  revert m; induction its as [|item rest IH]; intros m; [by left |].
  simpl. destruct (negb (seen m (getItemID item))) eqn:Hseen.
  - specialize (IH (<[getItemID item := true]> m)).
    destruct (reconcile _ _ _ rest _) as [m' evs]. simpl in *.
    intros [H | H]%IH.
    + rewrite seen_insert in H. case_decide as Heq; [| by left].
      right. rewrite <- Heq. by left.
    + right. by right.
  - intros [H | H]%IH; [by left |]. right. by right.
Qed.

Lemma reconcile_prints_fresh (feedURL channelTitle : string)
  (its : list Item) (m : gmap string bool) (id : string) :
  id ∈ getItemID <$> its -> seen m id = false ->
  id ∈ getItemID <$> printed (reconcile false feedURL channelTitle its m).2.
Proof.
  revert m; induction its as [|item rest IH]; intros m Hin Hfresh.
  { by apply elem_of_nil in Hin. }
  simpl in Hin. apply elem_of_cons in Hin. simpl.
  destruct (negb (seen m (getItemID item))) eqn:Hseen.
  - specialize (IH (<[getItemID item := true]> m)).
    destruct (reconcile _ _ _ rest _) as [m' evs]. simpl in *.
    destruct (decide (id = getItemID item)) as [-> | Hne]; [by left |].
    right. destruct Hin as [-> | Hin]; [done |]. apply IH; [done |].
    rewrite seen_insert. by case_decide.
  - apply negb_false_iff in Hseen.
    destruct Hin as [-> | Hin]; [congruence |]. by apply IH.
Qed.

Lemma cycle_flag (env : Env) (firstRun : bool) (state : FeedState) :
  (pollFeed_cycle env firstRun state).1.1 = firstRun && fetch_fails (url state) env.
Proof.
  unfold fetch_fails. destruct (fetchFeed env (url state)) as [feed | e] eqn:Hf.
  - rewrite (cycle_success _ _ _ _ Hf). simpl. by rewrite andb_false_r.
  - rewrite (cycle_failure _ _ _ _ Hf). simpl. by rewrite andb_true_r.
Qed.

Lemma loop_url (envs : list Env) (firstRun : bool) (state : FeedState) :
  url (pollFeed_loop envs firstRun state).1.2 = url state.
Proof.
  revert firstRun state; induction envs as [|env envs IH]; intros fr st.
  { done. }
  rewrite loop_cons. simpl. by rewrite IH, cycle_url.
Qed.

Lemma cycle_tracked (env : Env) (firstRun : bool) (state : FeedState)
  (id : string) :
  seen (items (pollFeed_cycle env firstRun state).1.2) id = true
  <-> seen (items state) id = true
      \/ exists feed,
           fetchFeed env (url state) = Ok feed /\ id ∈ identities feed.
Proof.
  destruct (fetchFeed env (url state)) as [feed | e] eqn:Hf.
  - rewrite (cycle_success _ _ _ _ Hf). simpl. split.
    + intros [H | H]%reconcile_tracked_only; [by left |]. right. by exists feed.
    + intros [H | (feed' & [= <-] & (item & -> & Hin)%list_elem_of_fmap)].
      * by apply seen_true, reconcile_keeps, seen_true.
      * by apply seen_true, reconcile_tracks.
  - rewrite (cycle_failure _ _ _ _ Hf). simpl. split; [by left |].
    by intros [H | (feed' & [=] & _)].
Qed.

(** X1.  The tracking state of a poller holds, after any number of cycles,
    the identities it held at the start and the identities of the items of
    every document it fetched, and nothing else: nothing is ever removed
    and nothing is added that no document had.  The URL of the state never
    changes. *)
Theorem tracking_state_is_start_plus_documents
  (envs : list Env) (firstRun : bool) (state : FeedState) (id : string) :
  url (pollFeed_loop envs firstRun state).1.2 = url state
  /\ (seen (items (pollFeed_loop envs firstRun state).1.2) id = true
      <-> seen (items state) id = true
          \/ exists env feed,
               env ∈ envs /\ fetchFeed env (url state) = Ok feed
               /\ id ∈ identities feed).
Proof.
  split; [apply loop_url |].
  revert firstRun state; induction envs as [|env envs IH]; intros fr st.
  { simpl. split; [by left |]. intros [H | (env & feed & Hin & _)]; [done |].
    by apply elem_of_nil in Hin. }
  rewrite loop_cons. simpl. rewrite IH, cycle_tracked, cycle_url. split.
  - intros [[H | (feed & Hf & Hid)] | (env' & feed & Hin & Hf & Hid)].
    + by left.
    + right. exists env, feed. split; [by left | done].
    + right. exists env', feed. split; [by right | done].
  - intros [H | (env' & feed & [-> | Hin]%elem_of_cons & Hf & Hid)].
    + left. by left.
    + left. right. by exists feed.
    + right. by exists env', feed.
Qed.

Lemma tracking_state_is_start_plus_documents_witness :
  seen (items (pollFeed_loop [offline; serving feedURL0 (feed_of [g1; g2])]
                 true (fresh_state feedURL0)).1.2) "g2" = true.
Proof.
  apply (tracking_state_is_start_plus_documents
           [offline; serving feedURL0 (feed_of [g1; g2])] true
           (fresh_state feedURL0) "g2").
  right. exists (serving feedURL0 (feed_of [g1; g2])), (feed_of [g1; g2]).
  split; [right; by left |]. split; [reflexivity |].
  right. by left.
Defined.

(** The events a cycle calls for, over any number of cycles that all run
    to their end: the identities handed to [printItem]. *)
Lemma loop_prints_every_new_identity
  (envs : list Env) (state : FeedState) (id : string) :
  id ∈ getItemID <$> printed (pollFeed_loop envs false state).2
  <-> seen (items state) id = false
      /\ exists env feed,
           env ∈ envs /\ fetchFeed env (url state) = Ok feed
           /\ id ∈ identities feed.
Proof.
  revert state; induction envs as [|env envs IH]; intros st.
  { simpl. split; [intros H; by apply elem_of_nil in H |].
    intros (_ & env & feed & Hin & _). by apply elem_of_nil in Hin. }
  rewrite loop_cons. simpl. rewrite printed_app, fmap_app, elem_of_app.
  rewrite cycle_flag. simpl. rewrite IH, cycle_url.
  destruct (fetchFeed env (url st)) as [feed | e] eqn:Hf.
  - rewrite (cycle_success _ _ _ _ Hf). simpl.
    rewrite printed_app, app_nil_r. split.
    + intros [(item & -> & Hin)%list_elem_of_fmap
             | (Hfresh & env' & feed' & Hin & Hf' & Hid)].
      * apply reconcile_printed in Hin as [Hfresh Hdoc]. split; [done |].
        exists env, feed. split; [by left |]. split; [done |].
        apply list_elem_of_fmap. by exists item.
      * split.
        -- destruct (seen (items st) id) eqn:Hs; [| done].
           apply seen_true, (reconcile_keeps false (url st)
             (ChannelTitle (RSSChannel feed)) (Items (RSSChannel feed)))
             in Hs.
           apply seen_true in Hs. congruence.
        -- exists env', feed'. split; [by right | done].
    + intros (Hfresh & env' & feed' & [-> | Hin]%elem_of_cons & Hf' & Hid).
      * left. rewrite Hf in Hf'. injection Hf' as <-.
        by apply reconcile_prints_fresh.
      * destruct (decide (id ∈ identities feed)) as [Hdoc | Hdoc].
        -- left. by apply reconcile_prints_fresh.
        -- right. split; [| by exists env', feed'].
           match goal with |- ?x = false => destruct x eqn:Hs end; [| done].
           apply reconcile_tracked_only in Hs as [Hs | Hs]; [congruence |].
           done.
  - rewrite (cycle_failure _ _ _ _ Hf). simpl. split.
    + intros [H | (Hfresh & env' & feed' & Hin & Hf' & Hid)].
      { by apply elem_of_nil in H. }
      split; [done |]. exists env', feed'. split; [by right | done].
    + intros (Hfresh & env' & feed' & [-> | Hin]%elem_of_cons & Hf' & Hid).
      { congruence. }
      right. split; [done |]. by exists env', feed'.
Qed.

(** With a maximum length that is not negative no call of [printItem]
    panics. *)
Lemma printItem_returns (env : Env) (cfg : Config) (feedURL : string)
  (item : Item) (channelTitle : string) :
  (0 <= maxLength cfg)%Z ->
  is_Some (printItem env cfg feedURL item channelTitle).
Proof.
  intros Hpos. unfold printItem, webContentOf.
  destruct (nonempty (Link item)).
  - destruct (extractContent_bound env cfg (Link item) (Some (client env)) Hpos)
      as (web & -> & _).
    simpl. destruct (if _ : bool then _ else _) as [processed [|]]; simpl;
      [| done].
    by destruct (fullOutput cfg).
  - simpl. destruct (if _ : bool then _ else _) as [processed [|]]; simpl;
      [| done].
    by destruct (fullOutput cfg).
Qed.

(** A run that is still going has carried out every event. *)
Lemma carry_out_running (env : Env) (cfg : Config) (evs : list Event) :
  running (carry_out env cfg evs) = true ->
  happened (carry_out env cfg evs) = evs.
Proof.
  induction evs as [|[feedURL item channelTitle | seconds] evs IH]; simpl.
  - done.
  - destruct (printItem env cfg feedURL item channelTitle); simpl; [| done].
    intros H. by rewrite IH.
  - intros H. by rewrite IH.
Qed.

Lemma carry_out_returns (env : Env) (cfg : Config) (evs : list Event) :
  (0 <= maxLength cfg)%Z -> running (carry_out env cfg evs) = true.
Proof.
  intros Hpos.
  induction evs as [|[feedURL item channelTitle | seconds] evs IH]; simpl.
  - done.
  - destruct (printItem_returns env cfg feedURL item channelTitle Hpos)
      as [out ->].
    done.
  - done.
Qed.

(** What has happened is the beginning of what was called for. *)
Lemma carry_out_prefix (env : Env) (cfg : Config) (evs : list Event) :
  exists rest, evs = (happened (carry_out env cfg evs) ++ rest)%list.
Proof.
  induction evs as [|[feedURL item channelTitle | seconds] evs [rest IH]];
    simpl.
  - by exists [].
  - destruct (printItem env cfg feedURL item channelTitle); simpl.
    + exists rest. by rewrite <- IH.
    + by eexists.
  - exists rest. by rewrite <- IH.
Qed.

(** A cycle that ends the process has not slept. *)
Lemma carry_out_dead (env : Env) (cfg : Config) (evs : list Event)
  (seconds : Z) :
  sleeps evs = [] ->
  running (carry_out env cfg (evs ++ [Sleep seconds])) = false ->
  sleeps (happened (carry_out env cfg (evs ++ [Sleep seconds]))) = [].
Proof.
  induction evs as [|[feedURL item channelTitle | s] evs IH]; simpl.
  - done.
  - destruct (printItem env cfg feedURL item channelTitle); simpl; [| done].
    apply IH.
  - done.
Qed.

Lemma run_cons (cfg : Config) (env : Env) (envs : list Env) (firstRun : bool)
  (state : FeedState) :
  let c := pollFeed_cycle env firstRun state in
  let r := carry_out env cfg c.2 in
  let r' := pollFeed_run cfg envs c.1.1 c.1.2 in
  pollFeed_run cfg (env :: envs) firstRun state
  = if running r
    then mkRun (happened r ++ happened r')%list (written r ++ written r')
           (running r')
    else r.
Proof.
  simpl. by destruct (pollFeed_cycle env firstRun state) as [[fr st] evs].
Qed.

(** With a maximum length that is not negative the process runs on, and
    what happens is what the cycles call for. *)
Lemma run_returns (cfg : Config) (envs : list Env) (firstRun : bool)
  (state : FeedState) :
  (0 <= maxLength cfg)%Z ->
  running (pollFeed_run cfg envs firstRun state) = true
  /\ happened (pollFeed_run cfg envs firstRun state)
     = (pollFeed_loop envs firstRun state).2.
Proof.
  intros Hpos.
  revert firstRun state; induction envs as [|env envs IH]; intros fr st.
  { done. }
  rewrite run_cons, loop_cons. cbv zeta.
  rewrite (carry_out_returns _ _ _ Hpos). simpl.
  destruct (IH (pollFeed_cycle env fr st).1.1 (pollFeed_cycle env fr st).1.2)
    as [Hrun Hsame].
  split; [done |].
  by rewrite Hsame, (carry_out_running _ _ _ (carry_out_returns _ _ _ Hpos)).
Qed.

(** X2.  With a maximum length that is not negative, a poller that is past
    its first run goes through any number of cycles without ending the
    process, and the calls of [printItem] that take place are for exactly
    the identities that it did not track at the start and that some
    document it fetched holds: none of them is lost, and nothing else is
    printed. *)
Theorem running_poller_prints_every_new_identity
  (cfg : Config) (envs : list Env) (state : FeedState) (id : string) :
  (0 <= maxLength cfg)%Z ->
  running (pollFeed_run cfg envs false state) = true
  /\ (id ∈ getItemID <$> printed (happened (pollFeed_run cfg envs false state))
      <-> seen (items state) id = false
          /\ exists env feed,
               env ∈ envs /\ fetchFeed env (url state) = Ok feed
               /\ id ∈ identities feed).
Proof.
  intros Hpos. destruct (run_returns cfg envs false state Hpos) as [Hrun ->].
  split; [done |]. apply loop_prints_every_new_identity.
Qed.

Lemma running_poller_prints_every_new_identity_witness :
  "g2" ∈ getItemID
         <$> printed (happened
                        (pollFeed_run compact_authored
                           [unavailable; serving feedURL0 (feed_of [g1; g2])]
                           false knows_g1)).
Proof.
  apply (running_poller_prints_every_new_identity compact_authored
           [unavailable; serving feedURL0 (feed_of [g1; g2])] knows_g1 "g2").
  - simpl. lia.
  - split; [reflexivity |].
    exists (serving feedURL0 (feed_of [g1; g2])), (feed_of [g1; g2]).
    split; [right; by left |]. split; [reflexivity |].
    right. by left.
Defined.

(** With a negative maximum length the first call of [printItem] for an
    item whose page gives a text ends the process: that item is not
    printed, no item after it is, and the poller does not sleep again. *)
Remark negative_maxLength_ends_the_poller :
  pollFeed_run (mkConfig false false (-1) "")
    [ serving_pages feedURL0 (feed_of [g1; g2]);
      serving_pages feedURL0 (feed_of [g1; g2]) ]
    false (fresh_state feedURL0)
  = mkRun [] "" false.
Proof. reflexivity. Qed.

Lemma sleeps_app (evs evs' : list Event) :
  sleeps (evs ++ evs') = (sleeps evs ++ sleeps evs')%list.
Proof.
  induction evs as [|[] evs IH]; simpl; [done | done | by rewrite IH].
Qed.

Lemma printed_under_app (evs evs' : list Event) :
  printed_under (evs ++ evs')
  = (printed_under evs ++ printed_under evs')%list.
Proof.
  induction evs as [|[] evs IH]; simpl; [done | by rewrite IH | done].
Qed.

Lemma reconcile_trace (firstRun : bool) (feedURL channelTitle : string)
  (its : list Item) (m : gmap string bool) :
  sleeps (reconcile firstRun feedURL channelTitle its m).2 = []
  /\ Forall (fun u => u = feedURL)
       (printed_under (reconcile firstRun feedURL channelTitle its m).2).
Proof.
  revert m; induction its as [|item rest IH]; intros m; [done |].
  simpl. destruct (negb (seen m (getItemID item))); [| apply IH].
  specialize (IH (<[getItemID item := true]> m)).
  destruct (reconcile _ _ _ rest _) as [m' evs]. simpl in *.
  destruct IH as [Hs Hu]. destruct firstRun; simpl; [done |].
  split; [done | by constructor].
Qed.

Lemma reconcile_events (firstRun : bool) (feedURL channelTitle : string)
  (its : list Item) (m : gmap string bool) :
  (reconcile firstRun feedURL channelTitle its m).2
  = (fun item => PrintItem feedURL item channelTitle)
    <$> printed (reconcile firstRun feedURL channelTitle its m).2.
Proof.
  revert m; induction its as [|item rest IH]; intros m; [done |].
  simpl. destruct (negb (seen m (getItemID item))); [| apply IH].
  specialize (IH (<[getItemID item := true]> m)).
  destruct (reconcile _ _ _ rest _) as [m' evs]. simpl in *.
  destruct firstRun; [done |]. cbn [negb printed]. rewrite fmap_cons.
  by f_equal.
Qed.

Lemma loop_trace (envs : list Env) (firstRun : bool) (state : FeedState) :
  sleeps (pollFeed_loop envs firstRun state).2 = replicate (length envs) 30%Z
  /\ Forall (fun u => u = url state)
       (printed_under (pollFeed_loop envs firstRun state).2).
Proof.
  revert firstRun state; induction envs as [|env envs IH]; intros fr st.
  { done. }
  rewrite loop_cons. simpl. rewrite sleeps_app, printed_under_app.
  destruct (IH (pollFeed_cycle env fr st).1.1 (pollFeed_cycle env fr st).1.2)
    as [Hs Hu].
  rewrite cycle_url in Hu. rewrite Hs.
  destruct (fetchFeed env (url st)) as [feed | e] eqn:Hf.
  - rewrite (cycle_success _ _ _ _ Hf) in *. simpl in *.
    rewrite sleeps_app, printed_under_app.
    destruct (reconcile_trace fr (url st) (ChannelTitle (RSSChannel feed))
                (Items (RSSChannel feed)) (items st)) as [Hs' Hu'].
    rewrite Hs'. simpl. split; [done |].
    rewrite app_nil_r. by apply Forall_app.
  - rewrite (cycle_failure _ _ _ _ Hf) in *. simpl in *. done.
Qed.

Lemma cycle_events (env : Env) (firstRun : bool) (state : FeedState) :
  exists prints,
    (pollFeed_cycle env firstRun state).2 = (prints ++ [Sleep 30])%list
    /\ sleeps prints = [].
Proof.
  destruct (fetchFeed env (url state)) as [feed | e] eqn:Hf.
  - rewrite (cycle_success _ _ _ _ Hf). simpl. eexists. split; [done |].
    apply reconcile_trace.
  - rewrite (cycle_failure _ _ _ _ Hf). by exists [].
Qed.

(** The pauses of a run: one of 30 seconds for each cycle when the process
    is still running, and for each cycle before the one that ended it
    when it is not. *)
Lemma run_sleeps (cfg : Config) (envs : list Env) (firstRun : bool)
  (state : FeedState) :
  (running (pollFeed_run cfg envs firstRun state) = true
   /\ sleeps (happened (pollFeed_run cfg envs firstRun state))
      = replicate (length envs) 30%Z)
  \/ (running (pollFeed_run cfg envs firstRun state) = false
      /\ exists before env after,
           envs = (before ++ env :: after)%list
           /\ running (pollFeed_run cfg before firstRun state) = true
           /\ running (pollFeed_run cfg (before ++ [env]) firstRun state)
              = false
           /\ sleeps (happened (pollFeed_run cfg envs firstRun state))
              = replicate (length before) 30%Z).
Proof.
  revert firstRun state; induction envs as [|env envs IH]; intros fr st.
  { by left. }
  rewrite run_cons. cbv zeta.
  destruct (cycle_events env fr st) as (prints & Hevs & Hquiet).
  destruct (running (carry_out env cfg (pollFeed_cycle env fr st).2)) eqn:Hrun.
  - rewrite (carry_out_running _ _ _ Hrun), Hevs. simpl.
    rewrite !sleeps_app, Hquiet. simpl.
    destruct (IH (pollFeed_cycle env fr st).1.1 (pollFeed_cycle env fr st).1.2)
      as [[Hon ->] | (Hoff & before & env' & after & -> & Hb & Hd & ->)].
    + by left.
    + right. split; [done |]. exists (env :: before), env', after.
      split; [done |].
      change ((env :: before) ++ [env'])%list
        with (env :: (before ++ [env']))%list.
      rewrite !run_cons. cbv zeta. rewrite Hrun. simpl. done.
  - right. split; [done |]. exists [], env, envs. split; [done |].
    split; [done |]. split.
    + change ([] ++ [env])%list with [env]. rewrite run_cons. cbv zeta.
      by rewrite Hrun.
    + rewrite Hevs in *. by apply carry_out_dead.
Qed.

(** What has happened in a run is the beginning of what its cycles call
    for. *)
Lemma run_prefix (cfg : Config) (envs : list Env) (firstRun : bool)
  (state : FeedState) :
  exists rest,
    (pollFeed_loop envs firstRun state).2
    = (happened (pollFeed_run cfg envs firstRun state) ++ rest)%list.
Proof.
  revert firstRun state; induction envs as [|env envs IH]; intros fr st.
  { by exists []. }
  rewrite run_cons, loop_cons. cbv zeta. simpl.
  destruct (running (carry_out env cfg (pollFeed_cycle env fr st).2)) eqn:Hrun.
  - destruct (IH (pollFeed_cycle env fr st).1.1 (pollFeed_cycle env fr st).1.2)
      as [rest ->].
    exists rest. simpl.
    by rewrite (carry_out_running _ _ _ Hrun), app_assoc.
  - destruct (carry_out_prefix env cfg (pollFeed_cycle env fr st).2)
      as [rest Hrest].
    eexists. rewrite Hrest at 1. by rewrite <- app_assoc.
Qed.

(** X3.  A poller sleeps 30 seconds at the end of every cycle it gets
    through, failed or not, and at no other time: while the process runs,
    [n] cycles have [n] pauses of 30 seconds, and when a call of
    [printItem] has ended the process, the pauses are those of the cycles
    before the one in which it did.  With a maximum length that is not negative that does
    not happen.  Whatever the poller hands to [printItem], it hands over
    under the URL of its own feed; in a cycle that fetches a document and
    comes to its end it does so with the channel title of that document,
    and before it sleeps. *)
Theorem poller_keeps_cadence_and_feed
  (cfg : Config) (envs : list Env) (firstRun : bool) (state : FeedState) :
  ((running (pollFeed_run cfg envs firstRun state) = true
    /\ sleeps (happened (pollFeed_run cfg envs firstRun state))
       = replicate (length envs) 30%Z)
   \/ (running (pollFeed_run cfg envs firstRun state) = false
       /\ exists before env after,
            envs = (before ++ env :: after)%list
            /\ running (pollFeed_run cfg before firstRun state) = true
            /\ running (pollFeed_run cfg (before ++ [env]) firstRun state)
               = false
            /\ sleeps (happened (pollFeed_run cfg envs firstRun state))
               = replicate (length before) 30%Z))
  /\ ((0 <= maxLength cfg)%Z ->
      running (pollFeed_run cfg envs firstRun state) = true)
  /\ Forall (fun u => u = url state)
       (printed_under (happened (pollFeed_run cfg envs firstRun state)))
  /\ (forall env feed,
         fetchFeed env (url state) = Ok feed ->
         running (carry_out env cfg (pollFeed_cycle env firstRun state).2)
         = true ->
         happened (carry_out env cfg (pollFeed_cycle env firstRun state).2)
         = (((fun item =>
                PrintItem (url state) item (ChannelTitle (RSSChannel feed)))
             <$> printed
                   (happened
                      (carry_out env cfg
                         (pollFeed_cycle env firstRun state).2)))
            ++ [Sleep 30])%list).
Proof.
  split; [apply run_sleeps |]. split; [intros Hpos; by apply run_returns |].
  split.
  - destruct (run_prefix cfg envs firstRun state) as [rest Hrest].
    destruct (loop_trace envs firstRun state) as [_ Hunder].
    rewrite Hrest, printed_under_app in Hunder.
    by apply Forall_app in Hunder as [Hunder _].
  - intros env feed Hf Hrun. rewrite (carry_out_running _ _ _ Hrun).
    rewrite (cycle_success _ _ _ _ Hf). simpl.
    rewrite printed_app, app_nil_r. by rewrite <- reconcile_events.
Qed.

Lemma poller_keeps_cadence_and_feed_witness :
  happened
    (carry_out (serving feedURL0 (feed_of [g1; g2])) compact_authored
       (pollFeed_cycle (serving feedURL0 (feed_of [g1; g2])) false knows_g1).2)
  = [PrintItem feedURL0 g2 "Daily Tech News"; Sleep 30].
Proof.
  destruct (poller_keeps_cadence_and_feed compact_authored [] false knows_g1)
    as (_ & _ & _ & Hcycle).
  apply (Hcycle (serving feedURL0 (feed_of [g1; g2])) (feed_of [g1; g2])).
  - reflexivity.
  - reflexivity.
Defined.

(** X4.  The first-run flag of a poller is up after a run of cycles exactly
    when it was up before and every fetch of the run failed: failures do
    not use it up, one success does, and it never comes back. *)
Theorem first_run_lasts_until_first_success
  (envs : list Env) (firstRun : bool) (state : FeedState) :
  (pollFeed_loop envs firstRun state).1.1
  = firstRun && forallb (fetch_fails (url state)) envs.
Proof.
  revert firstRun state; induction envs as [|env envs IH]; intros fr st.
  { simpl. by rewrite andb_true_r. }
  rewrite loop_cons. simpl. rewrite IH, cycle_flag, cycle_url.
  by rewrite andb_assoc.
Qed.

Lemma reconcile_printed_first (firstRun : bool) (feedURL channelTitle : string)
  (its : list Item) (m : gmap string bool) (item : Item) :
  item ∈ printed (reconcile firstRun feedURL channelTitle its m).2 ->
  exists before after,
    its = (before ++ item :: after)%list
    /\ getItemID item ∉ getItemID <$> before.
Proof.
  revert m; induction its as [|item0 rest IH]; intros m.
  { simpl. intros Hin. by apply elem_of_nil in Hin. }
  intros Hin.
  pose proof (reconcile_printed _ _ _ _ _ _ Hin) as [Hfresh _].
  simpl in Hin. destruct (negb (seen m (getItemID item0))) eqn:Hseen.
  - pose proof (reconcile_printed firstRun feedURL channelTitle rest
                  (<[getItemID item0 := true]> m) item) as Hrest.
    specialize (IH (<[getItemID item0 := true]> m)).
    destruct (reconcile _ _ _ rest _) as [m' evs]. simpl in *.
    assert (item ∈ printed evs ->
            exists before after,
              item0 :: rest = (before ++ item :: after)%list
              /\ getItemID item ∉ getItemID <$> before) as Hlater.
    { intros Hin'. destruct (IH Hin') as (before & after & -> & Hnot).
      exists (item0 :: before), after. split; [done |].
      destruct (Hrest Hin') as [Hnew _]. rewrite seen_insert in Hnew.
      case_decide as Hid; [done |].
      simpl. by intros [? | ?]%elem_of_cons. }
    destruct firstRun; simpl in Hin; [by apply Hlater |].
    apply elem_of_cons in Hin as [-> | Hin]; [| by apply Hlater].
    exists [], rest. split; [done |]. simpl. apply not_elem_of_nil.
  - destruct (IH m Hin) as (before & after & -> & Hnot).
    exists (item0 :: before), after. split; [done |].
    apply negb_false_iff in Hseen.
    simpl. intros [Hid | ?]%elem_of_cons; [congruence | done].
Qed.

(** X17.  Of the items of a document that share an identity the one that
    comes first is the one a cycle prints: every item handed to
    [printItem] stands in the document at a place before which no item has
    its identity. *)
Theorem cycle_prints_first_item_of_an_identity
  (env : Env) (firstRun : bool) (state : FeedState) (feed : RSS)
  (item : Item) :
  fetchFeed env (url state) = Ok feed ->
  item ∈ printed (pollFeed_cycle env firstRun state).2 ->
  exists before after,
    Items (RSSChannel feed) = (before ++ item :: after)%list
    /\ getItemID item ∉ getItemID <$> before.
Proof.
  intros Hf. rewrite (cycle_success _ _ _ _ Hf). simpl.
  rewrite printed_app, app_nil_r. apply reconcile_printed_first.
Qed.

Lemma cycle_prints_first_item_of_an_identity_witness :
  exists before after,
    [g1; g2; g2_again; g2] = (before ++ g2 :: after)%list
    /\ getItemID g2 ∉ getItemID <$> before.
Proof.
  apply (cycle_prints_first_item_of_an_identity
           (serving feedURL0 (feed_of [g1; g2; g2_again; g2])) false knows_g1
           (feed_of [g1; g2; g2_again; g2]) g2).
  - reflexivity.
  - change (g2 ∈ [g2]). by left.
Defined.

(** ** Fetching *)



(** ** Resolving the content *)

(** X6.  With a maximum length that is not negative [extractContent] always
    returns a text, whatever the network and the services do: it does not
    panic, and its result is never longer than the maximum and the three
    periods.  [printItem] then always returns as well. *)
Theorem extractContent_returns_a_bounded_text
  (env : Env) (cfg : Config) (feedURL link : string) (item : Item)
  (channelTitle : string) (httpClient : option HTTPClient) :
  (0 <= maxLength cfg)%Z ->
  (exists out,
      extractContent env cfg link httpClient = Some out
      /\ (len out <= maxLength cfg + 3)%Z)
  /\ is_Some (printItem env cfg feedURL item channelTitle).
Proof.
  intros Hpos. split; [by apply extractContent_bound |].
  unfold printItem, webContentOf.
  destruct (nonempty (Link item)).
  - destruct (extractContent_bound env cfg (Link item) (Some (client env)) Hpos)
      as (web & -> & _).
    simpl. destruct (if _ : bool then _ else _) as [processed [|]]; simpl;
      [| done].
    by destruct (fullOutput cfg).
  - simpl. destruct (if _ : bool then _ else _) as [processed [|]]; simpl;
      [| done].
    by destruct (fullOutput cfg).
Qed.

Lemma extractContent_returns_a_bounded_text_witness :
  (exists out,
      extractContent (extracting "abcdefghij") (mkConfig false false 4 "")
        "https://example.com/a" None = Some out
      /\ (len out <= 4 + 3)%Z)
  /\ is_Some (printItem (extracting "abcdefghij") (mkConfig false false 4 "")
                feedURL0 g1 "Channel").
Proof.
  apply (extractContent_returns_a_bounded_text (extracting "abcdefghij")
           (mkConfig false false 4 "") feedURL0 "https://example.com/a" g1
           "Channel" None).
  simpl. lia.
Defined.

(** X7.  With a negative maximum length every text is too long and the
    slice that cuts it is out of range: [extractMainText] panics on every
    page, and [extractContent] panics whenever the extraction service
    returns an article.  Only an extraction that gets no text at all
    returns. *)
Theorem negative_maxLength_panics_on_every_text
  (env : Env) (cfg : Config) :
  (maxLength cfg < 0)%Z ->
  (forall html, extractMainText cfg html = None)
  /\ (forall link httpClient article,
         Extracts env link httpClient article ->
         extractContent env cfg link (Some httpClient) = None)
  /\ (forall link httpClient e,
         Getenv env "DIFFBOT_TOKEN" = "" -> httpClient link = Err e ->
         extractContent env cfg link (Some httpClient) = Some "").
Proof.
  intros Hneg.
  assert (forall text, cut_to_maxLength cfg text = None) as Hcut.
  { intros text. unfold cut_to_maxLength, slice_to.
    pose proof (len_nonneg text).
    destruct (Z.ltb_spec (maxLength cfg) (len text)); [| lia].
    by destruct (Z.leb_spec 0 (maxLength cfg)); [lia |]. }
  split; [| split].
  - intros html. apply Hcut.
  - intros link httpClient article
      [resp body diffbotResp others Htoken Hget Hstatus Hbody Hjson Hobj].
    unfold extractContent. simpl.
    rewrite (eqb_empty_false _ Htoken), Hget, Hstatus. simpl.
    rewrite Hbody, Hjson, Hobj. apply Hcut.
  - intros link httpClient e Htoken Hget.
    unfold extractContent, extractBasicContent. simpl.
    by rewrite Htoken, Hget.
Qed.

Lemma negative_maxLength_panics_on_every_text_witness :
  extractMainText (mkConfig false false (-1) "") "" = None.
Proof.
  destruct (negative_maxLength_panics_on_every_text offline
              (mkConfig false false (-1) "")) as (Hpage & _).
  - simpl. lia.
  - apply Hpage.
Defined.

(** X8.  [extractContent] degrades, it does not fail.  A nil client stands
    for the global one.  When the extraction service yields no article (no
    credential, transport error, status other than 200, unreadable or
    undecodable body, no object) the result is that of the local
    extraction with the same client; and when the page cannot be had
    either, the result is the empty text, whatever the maximum length. *)
Theorem extractContent_degrades_step_by_step
  (env : Env) (cfg : Config) (link : string) (httpClient : HTTPClient) :
  extractContent env cfg link None
  = extractContent env cfg link (Some (client env))
  /\ ((forall article, ~ Extracts env link httpClient article) ->
      extractContent env cfg link (Some httpClient)
      = extractBasicContent cfg link httpClient)
  /\ ((forall resp body,
          httpClient link = Ok resp -> StatusCode resp = 200%Z ->
          Body resp <> Ok body) ->
      extractBasicContent cfg link httpClient = Some "").
Proof.
  split; [done |]. split.
  - intros Hno. unfold extractContent. simpl.
    destruct (String.eqb_spec (Getenv env "DIFFBOT_TOKEN") "") as [| Htoken];
      [done |].
    destruct (httpClient _) as [resp | e] eqn:Hget; [| done].
    destruct (Z.eqb_spec (StatusCode resp) StatusOK) as [Hs | Hs]; [| done].
    simpl. destruct (Body resp) as [body | e] eqn:Hbody; [| done].
    destruct (json_Unmarshal_Diffbot env body) as [diffbotResp | e] eqn:Hjson;
      [| done].
    destruct (Objects diffbotResp) as [| article others] eqn:Hobj; [done |].
    destruct (Hno article). by econstructor.
  - intros Hno. unfold extractBasicContent.
    destruct (httpClient link) as [resp | e]; [| done].
    destruct (Z.eqb_spec (StatusCode resp) StatusOK) as [Hs | Hs]; [| done].
    simpl. destruct (Body resp) as [body | e] eqn:Hbody; [| done].
    by destruct (Hno resp body).
Qed.

Lemma extractContent_degrades_step_by_step_witness :
  extractContent offline (mkConfig false false (-1) "")
    "https://example.com/a" (Some (client offline))
  = Some "".
Proof.
  destruct (extractContent_degrades_step_by_step offline
              (mkConfig false false (-1) "") "https://example.com/a"
              (client offline)) as (_ & Hremote & Hlocal).
  rewrite Hremote.
  - apply Hlocal. discriminate.
  - intros article [resp body diffbotResp others Htoken _ _ _ _ _].
    by apply Htoken.
Defined.

(** ** Text without tags *)

Lemma app_cons (c : ascii) (a b : string) :
  String c a ++ b = String c (a ++ b).
Proof. reflexivity. Qed.

Lemma app_empty_r (s : string) : s ++ "" = s.
Proof. induction s as [|c s IH]; [done |]. by rewrite app_cons, IH. Qed.

Lemma rev_string_app (a b : string) :
  rev_string (a ++ b) = rev_string b ++ rev_string a.
Proof.
  induction a as [|c a IH]; simpl.
  - by rewrite app_empty_r.
  - by rewrite IH, app_assoc_string.
Qed.

Lemma rev_string_involutive (s : string) : rev_string (rev_string s) = s.
Proof.
  induction s as [|c s IH]; [done |].
  simpl. by rewrite rev_string_app, IH.
Qed.

Lemma tagRe_other (c : ascii) (s : string) :
  c <> "<"%char -> GoRegexp.tagRe (String c s) = None.
Proof.
  intros Hc. destruct c as [[] [] [] [] [] [] [] []]; try reflexivity.
  congruence.
Qed.

Lemma tagRe_open (s : string) :
  GoRegexp.tagRe (String "<" s)
  = (i ← GoRegexp.index_byte ">" s;
     Some {| GoRegexp.width := S (S i); GoRegexp.group := "" |}).
Proof. reflexivity. Qed.

Lemma index_byte_app_None (c : ascii) (a b : string) :
  GoRegexp.index_byte c (a ++ b) = None <->
  GoRegexp.index_byte c a = None /\ GoRegexp.index_byte c b = None.
Proof.
  induction a as [|d a IH]; [by intuition |].
  rewrite app_cons. simpl. destruct (Ascii.eqb d c); [by intuition |].
  destruct (GoRegexp.index_byte c (a ++ b)), (GoRegexp.index_byte c a);
    simpl in *; intuition congruence.
Qed.

Lemma has_tag_app (a b : string) :
  has_tag (a ++ b) = false -> has_tag a = false /\ has_tag b = false.
Proof.
  induction a as [|c a IH]; [done |].
  rewrite app_cons. simpl.
  intros [Hhead [Ha Hb]%IH]%orb_false_elim. split; [| done].
  rewrite Ha, orb_false_r.
  apply andb_false_iff in Hhead as [-> | Hgt]; [done |].
  apply andb_false_iff. right.
  apply bool_decide_eq_false in Hgt. apply bool_decide_eq_false.
  intros Hsome. apply Hgt.
  destruct (GoRegexp.index_byte ">" (a ++ b)) eqn:Hi; [done |].
  apply index_byte_app_None in Hi as [Hi _]. rewrite Hi in Hsome.
  by destruct Hsome.
Qed.

Section ReplaceAll.

Variables (m : GoRegexp.matcher) (repl : string).
Hypothesis repl_lt : GoRegexp.index_byte "<" repl = None.
Hypothesis repl_gt : GoRegexp.index_byte ">" repl = None.

Lemma replace_all_no_gt (skip : nat) (s : string) :
  GoRegexp.index_byte ">" s = None ->
  GoRegexp.index_byte ">" (GoRegexp.replace_all m repl skip s) = None.
Proof.
  revert skip; induction s as [|c s IH]; intros skip; [done |].
  simpl. destruct (Ascii.eqb c ">") eqn:Hc; [done |].
  intros Hs. assert (GoRegexp.index_byte ">" s = None) as Hs'.
  { by destruct (GoRegexp.index_byte ">" s). }
  assert (GoRegexp.index_byte ">"
            (String c (GoRegexp.replace_all m repl 0 s)) = None) as Hkeep.
  { simpl. by rewrite Hc, IH. }
  destruct skip as [|k]; [| by apply IH].
  destruct (m (String c s)) as [h |]; [| done].
  destruct (GoRegexp.width h) as [|k]; [done |].
  apply index_byte_app_None. split; [done | by apply IH].
Qed.

Lemma has_tag_repl (s : string) : has_tag (repl ++ s) = has_tag s.
Proof.
  clear m. induction repl as [|c r IH]; [done |].
  rewrite app_cons. simpl in *.
  destruct (Ascii.eqb_spec c "<") as [-> | Hc]; [done |].
  destruct (Ascii.eqb c ">"); [done |].
  simpl. apply IH.
  - by destruct (GoRegexp.index_byte "<" r).
  - by destruct (GoRegexp.index_byte ">" r).
Qed.

Lemma replace_all_keeps_tag_free (skip : nat) (s : string) :
  has_tag s = false ->
  has_tag (GoRegexp.replace_all m repl skip s) = false.
Proof.
  revert skip; induction s as [|c s IH]; intros skip; [done |].
  simpl. intros [Hhead Hs]%orb_false_elim.
  assert (has_tag (String c (GoRegexp.replace_all m repl 0 s)) = false)
    as Hkeep.
  { simpl. rewrite IH by done. rewrite orb_false_r.
    apply andb_false_iff in Hhead as [-> | Hgt]; [done |].
    apply andb_false_iff. right.
    apply bool_decide_eq_false in Hgt. apply bool_decide_eq_false.
    rewrite replace_all_no_gt; [by intros [] |].
    destruct (GoRegexp.index_byte ">" s); [| done].
    destruct Hgt. by eexists. }
  destruct skip as [|k]; [| by apply IH].
  destruct (m (String c s)) as [h |]; [| done].
  destruct (GoRegexp.width h) as [|k]; [done |].
  rewrite has_tag_repl. by apply IH.
Qed.

End ReplaceAll.

Lemma replace_all_removes_tags (repl : string) (skip : nat) (s : string) :
  GoRegexp.index_byte "<" repl = None ->
  GoRegexp.index_byte ">" repl = None ->
  has_tag (GoRegexp.replace_all GoRegexp.tagRe repl skip s) = false.
Proof.
  intros Hlt Hgt.
  revert skip; induction s as [|c s IH]; intros skip; [done |].
  cbn [GoRegexp.replace_all]. destruct skip as [|k]; [| by apply IH].
  destruct (Ascii.eqb_spec c "<") as [-> | Hc].
  - rewrite tagRe_open.
    destruct (GoRegexp.index_byte ">" s) as [i |] eqn:Hi; simpl.
    + rewrite has_tag_repl by done. apply IH.
    + rewrite IH, orb_false_r.
      apply bool_decide_eq_false.
      rewrite replace_all_no_gt by done. by intros [].
  - rewrite tagRe_other by done. simpl. rewrite IH, orb_false_r.
    apply andb_false_iff. left. by apply Ascii.eqb_neq.
Qed.

Lemma replace_all_tag_free (s : string) :
  has_tag s = false -> GoRegexp.replace_all GoRegexp.tagRe "" 0 s = s.
Proof.
  induction s as [|c s IH]; [done |].
  simpl has_tag. intros [Hhead Hs]%orb_false_elim.
  cbn [GoRegexp.replace_all].
  destruct (Ascii.eqb_spec c "<") as [-> | Hc].
  - rewrite tagRe_open. simpl in Hhead.
    apply bool_decide_eq_false in Hhead.
    destruct (GoRegexp.index_byte ">" s) as [i |].
    { destruct Hhead. by eexists. }
    simpl. by rewrite IH.
  - rewrite tagRe_other by done. by rewrite IH.
Qed.

Lemma find_all_tag_free (skip : nat) (s : string) :
  has_tag s = false -> GoRegexp.find_all GoRegexp.tagRe skip s = [].
Proof.
  revert skip; induction s as [|c s IH]; intros skip; [done |].
  simpl has_tag. intros [Hhead Hs]%orb_false_elim.
  cbn [GoRegexp.find_all]. destruct skip as [|k]; [| by apply IH].
  destruct (Ascii.eqb_spec c "<") as [-> | Hc].
  - rewrite tagRe_open. simpl in Hhead.
    apply bool_decide_eq_false in Hhead.
    destruct (GoRegexp.index_byte ">" s) as [i |].
    { destruct Hhead. by eexists. }
    simpl. by apply IH.
  - rewrite tagRe_other by done. by apply IH.
Qed.

(** ** Trimming *)

Lemma trim_front_suffix (runes : list string) (skip : nat) (s : string) :
  exists p, s = p ++ GoStrings.trim_front runes skip s.
Proof.
  revert skip; induction s as [|c s IH]; intros skip; [by exists "" |].
  cbn [GoStrings.trim_front].
  assert (forall k, exists p,
             String c s = p ++ GoStrings.trim_front runes k s) as Hdrop.
  { intros k. destruct (IH k) as (p & Hp). exists (String c p).
    by rewrite app_cons, <- Hp. }
  destruct skip as [|k]; [| apply Hdrop].
  destruct (GoStrings.rune_at_head runes (String c s)) as [[|k] |];
    [by exists "" | apply Hdrop | by exists ""].
Qed.

Lemma TrimLeftSpace_suffix (s : string) :
  exists p, s = p ++ GoStrings.TrimLeftSpace s.
Proof. apply trim_front_suffix. Qed.

Lemma TrimRightSpace_prefix (s : string) :
  exists q, s = GoStrings.TrimRightSpace s ++ q.
Proof.
  unfold GoStrings.TrimRightSpace.
  destruct (trim_front_suffix
              (map (fun r => rev_string (bytes r)) GoStrings.space_runes) 0
              (rev_string s)) as (p & Hp).
  exists (rev_string p).
  rewrite <- rev_string_app, <- Hp. by rewrite rev_string_involutive.
Qed.

(** What [TrimSpace] returns is a piece of its argument. *)
Lemma TrimSpace_piece (s : string) :
  exists p q, s = p ++ GoStrings.TrimSpace s ++ q.
Proof.
  unfold GoStrings.TrimSpace.
  destruct (TrimLeftSpace_suffix s) as (p & Hp).
  destruct (TrimRightSpace_prefix (GoStrings.TrimLeftSpace s)) as (q & Hq).
  exists p, q. by rewrite <- Hq.
Qed.

Lemma trim_front_fix (runes : list string) (skip : nat) (s : string) :
  GoStrings.trim_front runes 0 (GoStrings.trim_front runes skip s)
  = GoStrings.trim_front runes skip s.
Proof.
  revert skip; induction s as [|c s IH]; intros skip; [done |].
  cbn [GoStrings.trim_front]. destruct skip as [|k]; [| apply IH].
  destruct (GoStrings.rune_at_head runes (String c s)) as [[|k] |] eqn:Hr.
  - cbn [GoStrings.trim_front]. by rewrite Hr.
  - apply IH.
  - cbn [GoStrings.trim_front]. by rewrite Hr.
Qed.

Lemma prefix_app_l (r p q : string) :
  String.prefix r p = true -> String.prefix r (p ++ q) = true.
Proof.
  revert p; induction r as [|c r IH]; intros p; [by destruct (p ++ q) |].
  destruct p as [|d p]; [done |]. rewrite app_cons. simpl.
  destruct (ascii_dec c d); [apply IH | done].
Qed.

Lemma rune_at_head_app (runes : list string) (p q : string) (n : nat) :
  GoStrings.rune_at_head runes p = Some n ->
  is_Some (GoStrings.rune_at_head runes (p ++ q)).
Proof.
  induction runes as [|r runes IH]; simpl; [done |].
  destruct (String.prefix r p) eqn:Hr.
  - intros _. by rewrite (prefix_app_l _ _ _ Hr).
  - intros H. destruct (String.prefix r (p ++ q)); [done | by apply IH].
Qed.

Lemma rune_at_head_width (runes : list string) (s : string) (n : nat) :
  Forall (fun r => r <> "") runes ->
  GoStrings.rune_at_head runes s = Some n -> n <> O.
Proof.
  induction 1 as [|r runes Hr _ IH]; simpl; [done |].
  destruct (String.prefix r s); [| done].
  intros [= <-]. by destruct r.
Qed.

Lemma length_trim_front (runes : list string) (skip : nat) (s : string) :
  (String.length (GoStrings.trim_front runes skip s) <= String.length s)%nat.
Proof.
  revert skip; induction s as [|c s IH]; intros skip; [done |].
  cbn [GoStrings.trim_front].
  assert (forall k, String.length (GoStrings.trim_front runes k s)
                    <= String.length (String c s))%nat as Hdrop.
  { intros k. specialize (IH k). simpl. lia. }
  destruct skip as [|k]; [| apply Hdrop].
  destruct (GoStrings.rune_at_head runes (String c s)) as [[|k] |];
    [done | apply Hdrop | done].
Qed.

(** A string that trimming at the front leaves alone has none of the runes
    at its head, and so has none of its prefixes. *)
Lemma trim_front_prefix_fixed (runes : list string) (p q : string) :
  Forall (fun r => r <> "") runes ->
  GoStrings.trim_front runes 0 (p ++ q) = p ++ q ->
  GoStrings.trim_front runes 0 p = p.
Proof.
  intros Hrunes. destruct p as [|c p]; [done |].
  rewrite app_cons. cbn [GoStrings.trim_front].
  destruct (GoStrings.rune_at_head runes (String c p)) as [[|k] |] eqn:Hp;
    [done | | done].
  destruct (rune_at_head_app runes (String c p) q _ Hp) as [n Hn].
  rewrite app_cons in Hn. rewrite Hn.
  destruct n as [|n]; [by destruct (rune_at_head_width _ _ _ Hrunes Hn) |].
  intros Heq. apply (f_equal String.length) in Heq.
  pose proof (length_trim_front runes n (p ++ q)). simpl in Heq. lia.
Qed.

Lemma space_runes_nonempty :
  Forall (fun r => r <> "") (map bytes GoStrings.space_runes).
Proof. repeat constructor; discriminate. Qed.

Lemma TrimSpace_fix (s : string) :
  GoStrings.TrimSpace (GoStrings.TrimSpace s) = GoStrings.TrimSpace s.
Proof.
  unfold GoStrings.TrimSpace.
  set (t := GoStrings.TrimLeftSpace s).
  assert (GoStrings.TrimLeftSpace t = t) as Ht by apply trim_front_fix.
  destruct (TrimRightSpace_prefix t) as (q & Hq).
  assert (GoStrings.TrimLeftSpace (GoStrings.TrimRightSpace t)
          = GoStrings.TrimRightSpace t) as ->.
  { apply (trim_front_prefix_fixed _ _ q space_runes_nonempty).
    fold (GoStrings.TrimLeftSpace (GoStrings.TrimRightSpace t ++ q)).
    by rewrite <- Hq. }
  unfold GoStrings.TrimRightSpace.
  by rewrite rev_string_involutive, trim_front_fix.
Qed.

Lemma has_tag_piece (p s q : string) :
  has_tag (p ++ s ++ q) = false -> has_tag s = false.
Proof.
  intros [_ H]%has_tag_app. by apply has_tag_app in H as [H _].
Qed.

Lemma TrimSpace_keeps_tag_free (s : string) :
  has_tag s = false -> has_tag (GoStrings.TrimSpace s) = false.
Proof.
  intros Hs. destruct (TrimSpace_piece s) as (p & q & Hpq).
  rewrite Hpq in Hs. by apply has_tag_piece in Hs.
Qed.

(** ** Stripping *)

(** X9.  What [strip] returns holds no tag: no [<] in it has a [>] after
    it, so that the pattern of a tag matches nowhere in it.  It has no
    white space at its ends: trimming it again changes nothing. *)
Theorem strip_leaves_no_tag_and_no_margin (text : string) :
  has_tag (strip text) = false
  /\ GoRegexp.FindAllStringSubmatch GoRegexp.tagRe (strip text) = []
  /\ GoStrings.TrimSpace (strip text) = strip text.
Proof.
  assert (has_tag (strip text) = false) as Hfree.
  { apply TrimSpace_keeps_tag_free, replace_all_removes_tags; done. }
  split; [done |]. split; [| apply TrimSpace_fix].
  unfold GoRegexp.FindAllStringSubmatch. by rewrite find_all_tag_free.
Qed.

(** X10.  On a text without tags [strip] does nothing but trim, and
    stripping twice is stripping once. *)
Theorem strip_only_trims_plain_text (text : string) :
  (has_tag text = false -> strip text = GoStrings.TrimSpace text)
  /\ strip (strip text) = strip text.
Proof.
  assert (forall t, has_tag t = false -> strip t = GoStrings.TrimSpace t)
    as Hplain.
  { intros t Ht. unfold strip, GoRegexp.ReplaceAllString.
    by rewrite replace_all_tag_free. }
  split; [apply Hplain |].
  rewrite Hplain.
  - apply TrimSpace_fix.
  - apply TrimSpace_keeps_tag_free, replace_all_removes_tags; done.
Qed.

Lemma strip_only_trims_plain_text_witness :
  strip "  1 < 2 or 0 < 2 " = GoStrings.TrimSpace "  1 < 2 or 0 < 2 ".
Proof.
  destruct (strip_only_trims_plain_text "  1 < 2 or 0 < 2 ") as [Hplain _].
  apply Hplain. reflexivity.
Defined.

(** ** The text of a page *)

Lemma single_spaces_weaken (s : string) :
  single_spaces_from true s = true -> single_spaces_from false s = true.
Proof.
  destruct s as [|c s]; [done |]. simpl.
  destruct (GoRegexp.is_space c); [| done].
  by rewrite andb_false_r.
Qed.

Lemma single_spaces_app (b : bool) (p q : string) :
  single_spaces_from b (p ++ q) = true ->
  single_spaces_from b p = true /\ single_spaces_from false q = true.
Proof.
  revert b; induction p as [|c p IH]; intros b.
  { simpl. intros H. split; [done |]. destruct b; [| done].
    by apply single_spaces_weaken. }
  rewrite app_cons. simpl. destruct (GoRegexp.is_space c).
  - intros [[-> ->]%andb_true_iff H]%andb_true_iff.
    by apply IH in H as [-> ->].
  - apply IH.
Qed.

Lemma single_spaces_piece (p s q : string) :
  single_spaces (p ++ s ++ q) = true -> single_spaces s = true.
Proof.
  unfold single_spaces.
  intros [_ H]%single_spaces_app. by apply single_spaces_app in H as [H _].
Qed.

Lemma single_spaces_dots (b : bool) (p : string) :
  single_spaces_from b p = true -> single_spaces_from b (p ++ "...") = true.
Proof.
  revert b; induction p as [|c p IH]; intros b; [done |].
  rewrite app_cons. simpl. destruct (GoRegexp.is_space c).
  - intros [-> H]%andb_true_iff. by apply IH.
  - apply IH.
Qed.

Lemma has_tag_dots (p : string) :
  has_tag p = false -> has_tag (p ++ "...") = false.
Proof.
  induction p as [|c p IH]; [done |].
  rewrite app_cons. simpl.
  intros [Hhead Hp]%orb_false_elim. rewrite IH by done.
  rewrite orb_false_r.
  apply andb_false_iff in Hhead as [-> | Hgt]; [done |].
  apply andb_false_iff. right.
  apply bool_decide_eq_false in Hgt. apply bool_decide_eq_false.
  intros [i Hi]. apply Hgt.
  destruct (GoRegexp.index_byte ">" p) eqn:Hp'; [by eexists |].
  assert (GoRegexp.index_byte ">" (p ++ "...") = None) as Hnone
    by (by apply index_byte_app_None).
  congruence.
Qed.

Lemma spaceRe_at (c : ascii) (s : string) :
  GoRegexp.spaceRe (String c s)
  = if GoRegexp.is_space c
    then Some {| GoRegexp.width := S (GoRegexp.space_run s);
                 GoRegexp.group := "" |}
    else None.
Proof.
  unfold GoRegexp.spaceRe. simpl. by destruct (GoRegexp.is_space c).
Qed.

(** Replacing the runs of white space by one space each: after a run that
    is being passed, and from the start. *)
Lemma collapse_single_spaces (s : string) :
  single_spaces_from true
    (GoRegexp.replace_all GoRegexp.spaceRe " " (GoRegexp.space_run s) s) = true
  /\ single_spaces_from false
       (GoRegexp.replace_all GoRegexp.spaceRe " " 0 s) = true.
Proof.
  induction s as [|c s [IHrun IHstart]]; [done |].
  cbn [GoRegexp.space_run]. destruct (GoRegexp.is_space c) eqn:Hc.
  - split; cbn [GoRegexp.replace_all]; [done |].
    rewrite spaceRe_at, Hc. cbn [GoRegexp.width].
    change (single_spaces_from false
              (String " "
                 (GoRegexp.replace_all GoRegexp.spaceRe " "
                    (GoRegexp.space_run s) s)) = true).
    simpl. done.
  - split; cbn [GoRegexp.replace_all]; rewrite spaceRe_at, Hc; simpl;
      by rewrite Hc.
Qed.

Lemma mainText_clean (html : string) :
  has_tag (mainText html) = false
  /\ single_spaces (mainText html) = true
  /\ GoStrings.TrimSpace (mainText html) = mainText html.
Proof.
  unfold mainText.
  match goal with
  | |- context [GoRegexp.ReplaceAllString GoRegexp.tagRe ?h " "] =>
      generalize h
  end.
  intros h. unfold GoRegexp.ReplaceAllString.
  set (text := GoRegexp.replace_all GoRegexp.tagRe " " 0 h).
  set (flat := GoRegexp.replace_all GoRegexp.spaceRe " " 0 text).
  assert (has_tag flat = false) as Hfree.
  { apply replace_all_keeps_tag_free; [done | done |].
    by apply replace_all_removes_tags. }
  assert (single_spaces flat = true) as Hflat
    by apply collapse_single_spaces.
  destruct (TrimSpace_piece flat) as (p & q & Hpq).
  split; [| split].
  - rewrite Hpq in Hfree. by apply has_tag_piece in Hfree.
  - rewrite Hpq in Hflat. by apply single_spaces_piece in Hflat.
  - apply TrimSpace_fix.
Qed.

(** X11.  The text that the local extraction gets out of a page is one
    line without tags: no [<] in it has a [>] after it, every white space
    in it is a single space, and it has none at its ends.  What
    [extractMainText] returns, cut or not, has no tag and only single
    spaces either. *)
Theorem extracted_page_text_is_one_clean_line
  (cfg : Config) (html out : string) :
  extractMainText cfg html = Some out ->
  has_tag out = false /\ single_spaces out = true
  /\ has_tag (mainText html) = false
  /\ single_spaces (mainText html) = true
  /\ GoStrings.TrimSpace (mainText html) = mainText html.
Proof.
  destruct (mainText_clean html) as (Hfree & Hflat & Htrim).
  intros Hout. split; [| split; [| done]].
  - unfold extractMainText, cut_to_maxLength, slice_to in Hout.
    destruct (_ <? _)%Z; [| by injection Hout as <-].
    destruct (_ && _); [| done]. injection Hout as <-.
    apply has_tag_dots.
    rewrite (take_drop_string (Z.to_nat (maxLength cfg)) (mainText html))
      in Hfree.
    by apply has_tag_app in Hfree as [H _].
  - unfold extractMainText, cut_to_maxLength, slice_to in Hout.
    destruct (_ <? _)%Z; [| by injection Hout as <-].
    destruct (_ && _); [| done]. injection Hout as <-.
    apply single_spaces_dots.
    rewrite (take_drop_string (Z.to_nat (maxLength cfg)) (mainText html))
      in Hflat.
    by apply single_spaces_app in Hflat as [H _].
Qed.

Lemma extracted_page_text_is_one_clean_line_witness :
  has_tag "Breaking news Rocq 9..." = false
  /\ single_spaces "Breaking news Rocq 9..." = true.
Proof.
  destruct (extracted_page_text_is_one_clean_line
              (mkConfig false false 20 "")
              "<main><h1>Breaking
 news</h1>  <p>Rocq 9.3   is <b>out</b></p></main>"
              "Breaking news Rocq 9...") as (Hfree & Hflat & _).
  - reflexivity.
  - by split.
Defined.

(** ** Dates, once more *)

(** No layout of [parseDate] parses a string that begins with two digits
    and a dash. *)
Lemma dashed_date_unparsed (local : GoTime.Location) (a b c : ascii)
  (rest : string) :
  a ∈ ["0"; "1"; "2"; "3"; "4"; "5"; "6"; "7"; "8"; "9"]%char ->
  b ∈ ["0"; "1"; "2"; "3"; "4"; "5"; "6"; "7"; "8"; "9"]%char ->
  Forall (fun l => GoTime.Parse local l
                     (String a (String b (String "-" (String c rest))))
                   = None) layouts.
Proof.
  intros Ha Hb.
  repeat (apply elem_of_cons in Ha as [-> | Ha];
          [repeat (apply elem_of_cons in Hb as [-> | Hb];
                   [repeat (constructor; [vm_compute; reflexivity |]);
                    constructor |]);
           (by apply elem_of_nil in Hb) |]).
  by apply elem_of_nil in Ha.
Qed.

Lemma Format_unparsed (local : GoTime.Location) (t : GoTime.Time) :
  Forall (fun l => GoTime.Parse local l (GoTime.Format_DD_MM_YYYY t) = None)
    layouts.
Proof.
  destruct (Format_shape t) as (d1 & d2 & m1 & m2 & -> & Hdigits).
  apply Forall_cons in Hdigits as [H1 Hdigits].
  apply Forall_cons in Hdigits as [H2 _].
  by apply dashed_date_unparsed.
Qed.

Lemma Format_length (t : GoTime.Time) :
  (10 <= String.length (GoTime.Format_DD_MM_YYYY t))%nat
  /\ ((0 <= (GoTime.date t).1.1 <= 9999)%Z ->
      String.length (GoTime.Format_DD_MM_YYYY t) = 10%nat).
Proof.
  destruct (Format_shape t) as (d1 & d2 & m1 & m2 & -> & _).
  cbn [String.length]. split.
  - pose proof (appendInt_length (GoTime.date t).1.1 4 ltac:(by right)). lia.
  - intros Hyear. by rewrite appendInt_four_digits by lia.
Qed.

Lemma parseDate_loop_cases (env : Env) (ls : list GoTime.layout)
  (pubDate : string) :
  parseDate_loop env ls pubDate = pubDate
  \/ exists t, parseDate_loop env ls pubDate = GoTime.Format_DD_MM_YYYY t.
Proof.
  induction ls as [|l ls IH]; simpl; [by left |].
  destruct (GoTime.Parse (time_Local env) l pubDate) as [t |]; [| done].
  right. by exists t.
Qed.

Lemma parseDate_cases (env : Env) (pubDate : string) :
  parseDate env pubDate = pubDate
  \/ exists t, parseDate env pubDate = GoTime.Format_DD_MM_YYYY t.
Proof.
  unfold parseDate. destruct (String.eqb_spec pubDate "") as [-> | _].
  - by left.
  - apply parseDate_loop_cases.
Qed.

Lemma parseDate_empty (env : Env) (pubDate : string) :
  parseDate env pubDate = "" <-> pubDate = "".
Proof.
  split; [| by intros ->].
  destruct (parseDate_cases env pubDate) as [-> | [t Ht]]; [done |].
  rewrite Ht. intros H. by apply Format_nonempty in H.
Qed.

(** X12.  [parseDate] returns its argument as it is, or the date of a time
    as [Format] writes it, which has ten bytes or more, and ten when the
    year it shows is one from 0 to 9999.  It returns the empty string for
    the empty string only, so that an item with a publication date always
    has a date to show.  Applied to its own result it changes nothing,
    whatever the local zone is. *)
Theorem parseDate_is_a_normal_form (env : Env) (pubDate : string) :
  (parseDate env pubDate = pubDate
   \/ exists t,
        parseDate env pubDate = GoTime.Format_DD_MM_YYYY t
        /\ (10 <= String.length (parseDate env pubDate))%nat
        /\ ((0 <= (GoTime.date t).1.1 <= 9999)%Z ->
            String.length (parseDate env pubDate) = 10%nat))
  /\ (parseDate env pubDate = "" <-> pubDate = "")
  /\ parseDate env (parseDate env pubDate) = parseDate env pubDate.
Proof.
  split; [| split; [apply parseDate_empty |]].
  - destruct (parseDate_cases env pubDate) as [H | [t Ht]]; [by left |].
    right. exists t. rewrite Ht. split; [done |]. apply Format_length.
  - destruct (parseDate_cases env pubDate) as [H | [t Ht]]; [by rewrite !H |].
    rewrite Ht. unfold parseDate.
    destruct (String.eqb_spec (GoTime.Format_DD_MM_YYYY t) "") as [H | _].
    { by apply Format_nonempty in H. }
    apply parseDate_loop_none, Format_unparsed.
Qed.

Lemma parseDate_is_a_normal_form_witness :
  String.length (parseDate offline "Fri, 31 Dec 9999 23:30:00 GMT+1")
  = 11%nat
  /\ parseDate offline "yesterday" <> "".
Proof.
  destruct (parseDate_is_a_normal_form offline "yesterday")
    as (_ & Hempty & _).
  split; [reflexivity |].
  intros H. apply Hempty in H. discriminate H.
Defined.

(** ** The two layouts *)

Lemma app_empty_l (s : string) : "" ++ s = s.
Proof. reflexivity. Qed.

Lemma printItem_steps (env : Env) (cfg : Config) (feedURL : string)
  (item : Item) (channelTitle webContent : string) :
  webContentOf env cfg item = Some webContent ->
  printItem env cfg feedURL item channelTitle
  = let '(processedContent, shouldPrint) :=
      relevance env cfg (contentToProcessOf item webContent) in
    if negb shouldPrint then Some ""
    else if fullOutput cfg then
      Some (LF ++ "[" ++ time_Now env ++ "] " ++ feedURL ++ LF
            ++ "Title: " ++ strip (Title item) ++ LF
            ++ "Link: " ++ Link item ++ LF
            ++ match content_field processedContent (Description item)
                       webContent with
               | [] => ""
               | field :: _ =>
                   (if nonempty processedContent then "Content: "
                    else if nonempty (Description item) then "Description: "
                    else "Content: ") ++ field ++ LF
               end
            ++ (if nonempty (PubDate item)
                then "Published: " ++ PubDate item ++ LF else "")
            ++ "---" ++ LF ++ LF)
    else
      Some (compact_line
              (compact_fields env cfg feedURL item channelTitle
                 processedContent webContent)).
Proof.
  intros Hweb. unfold printItem. rewrite Hweb. simpl.
  change (if nonempty (focus cfg)
             && nonempty (contentToProcessOf item webContent)
          then
            let '(processed, relevant) :=
              processWithOpenAI env (contentToProcessOf item webContent)
                (focus cfg) in
            if relevant then (processed, true) else ("", false)
          else ("", true))
    with (relevance env cfg (contentToProcessOf item webContent)).
  destruct (relevance env cfg _) as [processedContent [|]]; simpl; [| done].
  destruct (fullOutput cfg).
  - unfold content_field.
    destruct (nonempty processedContent); [done |].
    destruct (nonempty (Description item)); [done |].
    by destruct (nonempty webContent).
  - unfold compact_fields, content_field, compact_line, put.
    destruct (nonempty (parseDate env (PubDate item)));
      destruct (nonempty processedContent);
      destruct (nonempty (Description item));
      destruct (nonempty webContent);
      destruct (authored cfg && nonempty channelTitle);
      simpl; rewrite ?app_assoc_string, ?app_empty_l; reflexivity.
Qed.

Lemma compact_line_empty (fields : list string) :
  compact_line fields = "" <-> fields = [].
Proof.
  split; [| by intros ->]. destruct fields as [|f fields]; [done |].
  unfold compact_line. intros H. apply (f_equal String.length) in H.
  rewrite length_app_string in H. simpl in H. lia.
Qed.

(** X13.  In the compact layout an entry that the relevance step lets
    through is written as its fields with one space between them and an
    empty line after them; the fields are, in this order, the normalized
    date when it is not empty, the content (the processed content when it
    is not empty, else the description without markup when the description
    is not empty, else the text of the page when it is not empty) and the
    name in brackets when names are asked for and the channel has a title.
    A description that is all markup still counts as a field, an empty
    one.  An entry the relevance step drops writes nothing. *)
Theorem compact_entry_is_its_fields_joined
  (env : Env) (cfg : Config) (feedURL : string) (item : Item)
  (channelTitle webContent processedContent : string) (shouldPrint : bool) :
  fullOutput cfg = false ->
  webContentOf env cfg item = Some webContent ->
  relevance env cfg (contentToProcessOf item webContent)
  = (processedContent, shouldPrint) ->
  printItem env cfg feedURL item channelTitle
  = Some (if shouldPrint
          then compact_line
                 (compact_fields env cfg feedURL item channelTitle
                    processedContent webContent)
          else "").
Proof.
  intros Hfull Hweb Hrel.
  rewrite (printItem_steps _ _ _ _ _ _ Hweb), Hrel, Hfull.
  by destruct shouldPrint.
Qed.

Lemma compact_entry_is_its_fields_joined_witness :
  printItem (serving feedURL0 (feed_of [])) compact_authored feedURL0
    (mkItem "T" "" "<p>Hello <b>world</b>!</p>"
       "Mon, 15 Mar 2023 10:30:00 GMT" "g")
    "Daily Tech News"
  = Some (compact_line ["15-03-2023"; "Hello world!"; "[Daily Tech News]"]).
Proof.
  apply (compact_entry_is_its_fields_joined (serving feedURL0 (feed_of []))
           compact_authored feedURL0
           (mkItem "T" "" "<p>Hello <b>world</b>!</p>"
              "Mon, 15 Mar 2023 10:30:00 GMT" "g")
           "Daily Tech News" "" "" true); reflexivity.
Defined.

(** X14.  With no topic configured the compact layout writes nothing for
    an entry exactly when there is nothing to show: no publication date,
    no description, no text of the page, and no channel name asked for or
    none there.  A description is shown as soon as it is not empty, also
    when nothing of it is left without its markup. *)
Theorem compact_layout_is_silent_only_without_fields
  (env : Env) (cfg : Config) (feedURL : string) (item : Item)
  (channelTitle webContent : string) :
  fullOutput cfg = false -> focus cfg = "" ->
  webContentOf env cfg item = Some webContent ->
  printItem env cfg feedURL item channelTitle = Some ""
  <-> PubDate item = "" /\ Description item = "" /\ webContent = ""
      /\ (authored cfg = false \/ channelTitle = "").
Proof.
  intros Hfull Hfocus Hweb.
  rewrite (printItem_steps _ _ _ _ _ _ Hweb). unfold relevance.
  rewrite Hfocus, Hfull. simpl.
  split.
  - intros [= H]. apply compact_line_empty in H.
    unfold compact_fields, content_field in H. simpl in H.
    apply app_eq_nil in H as [Hdate [Hcontent Hname]%app_eq_nil].
    destruct (nonempty (parseDate env (PubDate item))) eqn:Hd; [done |].
    destruct (nonempty (Description item)) eqn:Hdesc; [done |].
    destruct (nonempty webContent) eqn:Hw; [done |].
    apply (proj1 (nonempty_false _)), (proj1 (parseDate_empty _ _)) in Hd.
    apply (proj1 (nonempty_false _)) in Hdesc, Hw.
    split; [done |]. split; [done |]. split; [done |].
    destruct (authored cfg); [| by left]. right.
    destruct (nonempty channelTitle) eqn:Ht; [done |].
    by apply (proj1 (nonempty_false _)).
  - intros (Hd & Hdesc & Hw & Hname).
    unfold compact_fields, content_field. rewrite Hd, Hdesc, Hw. simpl.
    destruct Hname as [-> | ->]; [done |]. by rewrite andb_false_r.
Qed.

Lemma compact_layout_is_silent_only_without_fields_witness :
  printItem offline (mkConfig false false 10000 "") feedURL0
    (mkItem "Item with no content" "https://example.com/empty" "" ""
       "empty-guid") ""
  = Some "".
Proof.
  apply (compact_layout_is_silent_only_without_fields offline
           (mkConfig false false 10000 "") feedURL0
           (mkItem "Item with no content" "https://example.com/empty" "" ""
              "empty-guid") "" ""); try reflexivity.
  repeat split. by left.
Defined.

(** X15.  Without a topic, and also for an entry without content to
    judge, [printItem] asks nothing of the reasoning service: what it
    writes is the same whatever the credential, the prompt, the transport
    and the decoder of that service are. *)
Theorem no_topic_no_reasoning
  (other env : Env) (cfg : Config) (feedURL : string) (item : Item)
  (channelTitle : string) :
  focus cfg = ""
  \/ (forall webContent,
         webContentOf env cfg item = Some webContent ->
         contentToProcessOf item webContent = "") ->
  printItem (with_reasoning_of other env) cfg feedURL item channelTitle
  = printItem env cfg feedURL item channelTitle.
Proof.
  intros Hquiet.
  assert (webContentOf (with_reasoning_of other env) cfg item
          = webContentOf env cfg item) as Hsame by reflexivity.
  destruct (webContentOf env cfg item) as [webContent |] eqn:Hweb.
  2:{ unfold printItem. by rewrite Hsame, Hweb. }
  rewrite (printItem_steps _ _ _ _ _ _ Hweb),
    (printItem_steps _ _ _ _ _ _ Hsame).
  assert (forall e, relevance e cfg (contentToProcessOf item webContent)
                    = ("", true)) as Hrel.
  { intros e. unfold relevance. destruct Hquiet as [-> | Hempty]; [done |].
    rewrite (Hempty webContent eq_refl). simpl. by rewrite andb_false_r. }
  by rewrite !Hrel.
Qed.

Lemma no_topic_no_reasoning_witness :
  printItem (with_reasoning_of (answering "NOT_RELEVANT")
               (serving feedURL0 (feed_of [])))
    compact_authored feedURL0 hello "Channel"
  = printItem (serving feedURL0 (feed_of [])) compact_authored feedURL0 hello
      "Channel".
Proof.
  apply (no_topic_no_reasoning (answering "NOT_RELEVANT")
           (serving feedURL0 (feed_of [])) compact_authored feedURL0 hello
           "Channel").
  left. reflexivity.
Defined.

(** ** Start-up *)

(** X16.  When [main] starts polling, the prompt template is there and
    parses, [flag.Parse] has accepted the command line, neither help nor
    the version was asked for, there is at least one URI, and there is one
    state for each URI, in their order, with that URI and with nothing
    tracked; the configuration is that of the flags.  [main] exits with 0
    only for help or the version, and only with a prompt template that
    parses; it exits with 2 exactly when the prompt template parses and
    [flag.Parse] fails with an error that is not the one for help; every
    other exit is with 1. *)
Theorem main_starts_a_fresh_poller_for_each_feed
  (env : Env) (flag_Parse : list string -> Startup.Parsed)
  (openFile : string -> result unit) (args : list string) :
  (forall stdout cfg sink states,
      Startup.main env flag_Parse openFile args
      = Startup.Polling stdout cfg sink states ->
      exists flags,
        flag_Parse args = Startup.Accepted flags
        /\ embeddedPrompt env <> ""
        /\ is_ok (template_Parse env (embeddedPrompt env)) = true
        /\ Startup.help flags = false /\ Startup.version flags = false
        /\ Startup.uris flags <> []
        /\ url <$> states = Startup.uris flags
        /\ Forall (fun state => items state = ∅) states
        /\ cfg = mkConfig (Startup.full flags) (Startup.auth flags)
                   (Startup.maxLen flags) (Startup.focusFlag flags)
        /\ sink = (if nonempty (Startup.output flags)
                   then Startup.File (Startup.output flags)
                   else Startup.Stdout))
  /\ (forall code stdout,
         Startup.main env flag_Parse openFile args
         = Startup.Exit code stdout ->
         (code = 0%Z \/ code = 1%Z \/ code = 2%Z)
         /\ (code = 0%Z ->
             embeddedPrompt env <> ""
             /\ is_ok (template_Parse env (embeddedPrompt env)) = true
             /\ (flag_Parse args = Startup.ErrHelp
                 \/ exists flags,
                      flag_Parse args = Startup.Accepted flags
                      /\ (Startup.help flags = true
                          \/ Startup.version flags = true)))
         /\ (code = 2%Z <->
             embeddedPrompt env <> ""
             /\ is_ok (template_Parse env (embeddedPrompt env)) = true
             /\ exists message, flag_Parse args = Startup.Rejected message)).
Proof.
  unfold Startup.main.
  destruct (String.eqb_spec (embeddedPrompt env) "") as [Hp | Hp].
  { split; [done |]. intros code stdout [= <- <-].
    split; [by right; left |]. split; [done |]. split; [done |].
    by intros [? _]. }
  destruct (template_Parse env (embeddedPrompt env)) as [tmpl | e].
  2:{ split; [done |]. intros code stdout [= <- <-].
      split; [by right; left |]. split; [done |]. split; [done |].
      by intros (_ & ? & _). }
  destruct (flag_Parse args) as [flags | | message].
  2:{ split; [done |]. intros code stdout [= <- <-].
      split; [by left |]. split; [by auto |]. split; [done |].
      by intros (_ & _ & message & ?). }
  2:{ split; [done |]. intros code stdout [= <- <-].
      split; [by right; right |]. split; [done |]. split; [| done].
      intros _. split; [done |]. split; [done |]. by exists message. }
  assert (forall code : Z,
             code <> 2%Z ->
             code = 2%Z <->
             embeddedPrompt env <> "" /\ is_ok (Ok tmpl : result Template) = true
             /\ exists message,
                  Startup.Accepted flags = Startup.Rejected message)
    as Hnot2.
  { intros code Hcode. split; [done |]. by intros (_ & _ & message & ?). }
  destruct (Startup.help flags) eqn:Hhelp.
  { split; [done |]. intros code stdout [= <- <-].
    split; [by left |]. split; [| by apply Hnot2].
    intros _. split; [done |]. split; [done |]. right. exists flags. auto. }
  destruct (Startup.version flags) eqn:Hversion.
  { split; [done |]. intros code stdout [= <- <-].
    split; [by left |]. split; [| by apply Hnot2].
    intros _. split; [done |]. split; [done |]. right. exists flags. auto. }
  case_bool_decide as Hn.
  { split; [done |]. intros code stdout [= <- <-].
    split; [by right; left |]. split; [done | by apply Hnot2]. }
  destruct (nonempty (Startup.output flags)) eqn:Hout;
    [destruct (openFile (Startup.output flags)) as [[] | e] |].
  - split; [| done]. intros stdout cfg sink states [= <- <- <- <-].
    exists flags. rewrite Hout. repeat split; try done.
    + by destruct (Startup.uris flags).
    + rewrite <- list_fmap_compose. apply list_fmap_id.
    + apply Forall_fmap. by apply Forall_true.
  - split; [done |]. intros code stdout [= <- <-].
    split; [by right; left |]. split; [done | by apply Hnot2].
  - split; [| done]. intros stdout cfg sink states [= <- <- <- <-].
    exists flags. rewrite Hout. repeat split; try done.
    + by destruct (Startup.uris flags).
    + rewrite <- list_fmap_compose. apply list_fmap_id.
    + apply Forall_fmap. by apply Forall_true.
Qed.

Lemma main_starts_a_fresh_poller_for_each_feed_witness :
  exists flags,
    Startup.authored_then_uris
      [ "--authored"; "https://a.example/rss"; "https://b.example/rss" ]
    = Startup.Accepted flags
    /\ url <$> [ fresh_state "https://a.example/rss";
                 fresh_state "https://b.example/rss" ]
       = Startup.uris flags.
Proof.
  destruct (main_starts_a_fresh_poller_for_each_feed offline
              Startup.authored_then_uris (fun _ => Ok tt)
              [ "--authored"; "https://a.example/rss";
                "https://b.example/rss" ])
    as [Hpoll _].
  destruct (Hpoll ("Starting RSS Stream Processor for 2 feeds" ++ LF)
              (mkConfig false true 10000 "") Startup.Stdout
              [ fresh_state "https://a.example/rss";
                fresh_state "https://b.example/rss" ] eq_refl)
    as (flags & Hflags & _ & _ & _ & _ & _ & Hurls & _).
  by exists flags.
Defined.

(** [main] leaves with 2 when [flag.Parse] does not know a flag, and with
    0 for [-h]. *)
Remark main_leaves_with_the_code_of_the_flag_set :
  Startup.main offline Startup.authored_then_uris (fun _ => Ok tt)
    [ "--colour"; "https://a.example/rss" ]
  = Startup.Exit 2 ""
  /\ Startup.main offline Startup.authored_then_uris (fun _ => Ok tt) [ "-h" ]
     = Startup.Exit 0 "".
Proof. by split. Qed.
